(** * bxilog: the logging core of bxibase

    A shallow embedding of the logging module of bxibase (the C file whose
    text is stored under [misc/doc/bxilog/bxilog-fsm.dot]) and the proofs of
    the properties stated about it.  Every C function is a function of the
    monad [M]: it reads and writes one [world] holding the module's global
    variables, the logger objects it points to, the two channels and the
    trace of what the process did to the outside; calls into the platform
    (pthread, libc, zeromq, the bxi helpers) take their results from the
    [platform] record, indexed by the number of platform calls made so far. *)

From Stdlib Require Import ZArith Ascii String List Lia Bool.
From stdpp Require Import base option list gmap strings pretty.

(** ** Levels, states and errors *)

(** Modelled from the spec: the enum [bxilog_level_e] is declared in
    [bxi/base/log.h], which is not part of the sources at hand.  The twelve
    severities are those of the level taxonomy, most severe first, with the
    names the C code uses; they are numbered from 0, the way the tables
    [_LOG_LEVEL_NAMES] and [LOG_LEVEL_STR] of the C file index them. *)
Inductive bxilog_level_e : Type :=
| BXILOG_PANIC | BXILOG_ALERT | BXILOG_CRIT | BXILOG_ERR | BXILOG_WARN
| BXILOG_NOTICE | BXILOG_OUTPUT | BXILOG_INFO | BXILOG_DEBUG | BXILOG_FINE
| BXILOG_TRACE | BXILOG_LOWEST.

#[global] Instance bxilog_level_e_eq_dec : EqDecision bxilog_level_e.
Proof. solve_decision. Defined.

Definition level_num (l : bxilog_level_e) : Z :=
  match l with
  | BXILOG_PANIC => 0 | BXILOG_ALERT => 1 | BXILOG_CRIT => 2 | BXILOG_ERR => 3
  | BXILOG_WARN => 4 | BXILOG_NOTICE => 5 | BXILOG_OUTPUT => 6 | BXILOG_INFO => 7
  | BXILOG_DEBUG => 8 | BXILOG_FINE => 9 | BXILOG_TRACE => 10 | BXILOG_LOWEST => 11
  end%Z.

(** The long names used by [bxilog_set_level], [_process_signal] and the
    example program. *)
Definition BXILOG_CRITICAL : bxilog_level_e := BXILOG_CRIT.
Definition BXILOG_WARNING : bxilog_level_e := BXILOG_WARN.

Definition all_levels : list bxilog_level_e :=
  [BXILOG_PANIC; BXILOG_ALERT; BXILOG_CRIT; BXILOG_ERR; BXILOG_WARN; BXILOG_NOTICE;
   BXILOG_OUTPUT; BXILOG_INFO; BXILOG_DEBUG; BXILOG_FINE; BXILOG_TRACE; BXILOG_LOWEST].

(** [LOG_LEVEL_STR] *)
Definition LOG_LEVEL_STR (l : bxilog_level_e) : ascii :=
  match l with
  | BXILOG_PANIC => "P" | BXILOG_ALERT => "A" | BXILOG_CRIT => "C" | BXILOG_ERR => "E"
  | BXILOG_WARN => "W" | BXILOG_NOTICE => "N" | BXILOG_OUTPUT => "O" | BXILOG_INFO => "I"
  | BXILOG_DEBUG => "D" | BXILOG_FINE => "F" | BXILOG_TRACE => "T" | BXILOG_LOWEST => "L"
  end%char.

(** [bxilog_state_e] *)
Inductive bxilog_state_e : Type :=
| UNSET | INITIALIZING | INITIALIZED | FINALIZING | FINALIZED | ILLEGAL | FORKED.

#[global] Instance bxilog_state_e_eq_dec : EqDecision bxilog_state_e.
Proof. solve_decision. Defined.

Inductive bxierr_code : Type :=
| BXILOG_ILLEGAL_STATE_ERR
| BXILOG_CONFIG_ERR
| BXILOG_IHT2BC_PROTO_ERR
| BXIZMQ_RETRIES_MAX_ERR
| BXIERR_GEN_CODE          (* bxierr_gen *)
| BXIERR_ERRNO_CODE        (* bxierr_errno *)
| BXIERR_IDX_CODE (rc : Z) (* bxierr_fromidx *)
| IHT_EXIT_CODE            (* _IHT_EXIT_ERR_, code 333 *).

#[global] Instance bxierr_code_eq_dec : EqDecision bxierr_code.
Proof. solve_decision. Defined.

(** Modelled from the spec: [bxierr_p] and its helpers live in
    [bxi/base/err.h], absent from the sources.  An error is a value carrying
    a code, a datum, a message and the error that caused it; [BXIERR_OK] is
    the absence of error. *)
Inductive bxierr : Type :=
| BXIERR_OK
| Bxierr (code : bxierr_code) (data : Z) (msg : string) (cause : bxierr).

Definition bxierr_isko (e : bxierr) : bool :=
  match e with BXIERR_OK => false | Bxierr _ _ _ _ => true end.

Definition bxierr_isok (e : bxierr) : bool := negb (bxierr_isko e).

Definition bxierr_code_of (e : bxierr) : option bxierr_code :=
  match e with BXIERR_OK => None | Bxierr c _ _ _ => Some c end.

Fixpoint bxierr_get_depth (e : bxierr) : nat :=
  match e with BXIERR_OK => 0 | Bxierr _ _ _ c => S (bxierr_get_depth c) end.

(** Modelled from the spec: the macro [BXIERR_CHAIN(current, new)] of
    [bxi/base/err.h]: when [new] is an error it becomes the current one and
    the previous current error is appended to its chain of causes. *)
Fixpoint bxierr_append_cause (e cause : bxierr) : bxierr :=
  match e with
  | BXIERR_OK => cause
  | Bxierr c d m c' => Bxierr c d m (bxierr_append_cause c' cause)
  end.

Definition BXIERR_CHAIN (current new : bxierr) : bxierr :=
  if bxierr_isko new then bxierr_append_cause new current else current.

Definition bxierr_new (c : bxierr_code) (msg : string) : bxierr := Bxierr c 0 msg BXIERR_OK.
Definition bxierr_gen (msg : string) : bxierr := bxierr_new BXIERR_GEN_CODE msg.
Definition bxierr_errno (msg : string) : bxierr := bxierr_new BXIERR_ERRNO_CODE msg.
Definition bxierr_fromidx (rc : Z) (msg : string) : bxierr := bxierr_new (BXIERR_IDX_CODE rc) msg.

(** ** Loggers, records and the platform *)

(** [struct bxilog_s]: the fields the C file reads and writes. *)
Record bxilog_s : Type := mkLogger {
  name : string;
  name_length : nat;
  level : bxilog_level_e
}.

(** [bxilog_p]: a pointer to a logger; [None] is [NULL]. *)
Abbreviation bxilog_p := (option positive).

Definition with_level (l : bxilog_level_e) (lg : bxilog_s) : bxilog_s :=
  {| name := name lg; name_length := name_length lg; level := l |}.

Record bxilog_cfg_item_s : Type := mkCfgItem {
  logger_name_prefix : option string;   (* [NULL] is [None] *)
  cfg_level : bxilog_level_e
}.

Record timespec : Type := mkTimespec { tv_sec : Z; tv_nsec : Z }.

Record tm : Type := mkTm {
  tm_year : Z; tm_mon : Z; tm_mday : Z; tm_hour : Z; tm_min : Z; tm_sec : Z
}.

(** [struct tsd_s] *)
Record tsd_s : Type := mkTsd {
  tsd_tid : Z;
  tsd_thread_rank : Z;
  tsd_freed : bool   (* the block was released by [_tsd_free] *)
}.

(** [struct log_header_s] *)
Record log_header_s : Type := mkHeader {
  hdr_level : bxilog_level_e;
  detail_time : timespec;
  tid : Z;
  thread_rank : Z;
  line_nb : Z;
  filename_len : nat;
  funcname_len : nat;
  logname_len : nat;
  variable_len : nat;
  logmsg_len : nat
}.

(** A record frame on the data channel: the header and the bytes that
    follow it in the same allocation. *)
Record frame : Type := mkFrame {
  header : log_header_s;
  data : list ascii
}.

Record iht_data_s : Type := mkIhtData {
  fd : Z;
  iht_tid : Z;
  rank : Z
}.

Definition STDOUT_FILENO : Z := 1.
Definition STDERR_FILENO : Z := 2.

(** What the platform answers.  A field indexed by [nat] is asked with the
    number of platform calls the process has made before this one. *)
Record platform : Type := mkPlatform {
  pthread_rc : nat -> Z;                  (* return code of a pthread_* call *)
  bxitime_get : nat -> bxierr * timespec; (* bxitime_get(CLOCK_REALTIME, _) *)
  zmq_ctx_new : nat -> bool;              (* false: NULL *)
  zmq_rc : nat -> Z;                      (* return code of a zmq_* call, EINTR retried *)
  bxizmq_err : nat -> bxierr;             (* result of a bxizmq_* call *)
  bxizmq_rcv : nat -> option string;      (* the string bxizmq_rcv_str hands back *)
  pthread_join_retval : nat -> bxierr;    (* what the handler thread returned *)
  sys_write : nat -> option nat;          (* None: -1, Some k: k bytes at most *)
  localtime_r : Z -> option tm;
  getpid : Z;
  gettid : Z;
  pthread_self : Z
}.

Inductive mutex : Type := register_lock | BXILOG_INITIALIZED_MUTEX.

#[global] Instance mutex_eq_dec : EqDecision mutex.
Proof. solve_decision. Defined.

(** What the process does that others can observe, in program order. *)
Inductive event : Type :=
| EvLock (m : mutex)                 (* pthread_mutex_lock(&m) *)
| EvUnlock (m : mutex)               (* pthread_mutex_unlock(&m) *)
| EvRegistry                         (* a store into the registered-loggers set *)
| EvWrite (fildes : Z) (buf : list ascii) (res : Z)   (* write(2) and its result *)
| EvStderr (s : string)              (* fprintf(stderr, ...) *)
| EvSync (fildes : Z)                (* fdatasync(2) *)
| EvThreadCreate                     (* pthread_create of the handler *)
| EvThreadJoin.                      (* pthread_join of the handler *)

(** ** The process state *)

Record world : Type := mkWorld {
  STATE : bxilog_state_e;
  BXILOG_CONTEXT : bool;
  FILENAME : option string;
  FILENAME_LEN : nat;
  PROGNAME : option string;
  PROGNAME_LEN : nat;
  PID : Z;
  data_url : option string;
  control_url : option string;
  TSD_KEY_ONCE : bool;
  ATFORK_ONCE : bool;
  TSD : option tsd_s;
  IHT_DATA : iht_data_s;
  REGISTERED_LOGGERS_ARRAY_SIZE : nat;
  REGISTERED_LOGGERS : option (list bxilog_p);
  REGISTERED_LOGGERS_NB : nat;
  loggers : gmap positive bxilog_s;
  data_channel : list frame;
  control_channel : list string;
  trace : list event;
  tick : nat;
  pf : platform
}.

Definition set_STATE (v : bxilog_state_e) (w : world) : world :=
  {| STATE := v; BXILOG_CONTEXT := BXILOG_CONTEXT w; FILENAME := FILENAME w;
     FILENAME_LEN := FILENAME_LEN w; PROGNAME := PROGNAME w; PROGNAME_LEN :=
     PROGNAME_LEN w; PID := PID w; data_url := data_url w; control_url := control_url
     w; TSD_KEY_ONCE := TSD_KEY_ONCE w; ATFORK_ONCE := ATFORK_ONCE w; TSD := TSD w;
     IHT_DATA := IHT_DATA w; REGISTERED_LOGGERS_ARRAY_SIZE :=
     REGISTERED_LOGGERS_ARRAY_SIZE w; REGISTERED_LOGGERS := REGISTERED_LOGGERS w;
     REGISTERED_LOGGERS_NB := REGISTERED_LOGGERS_NB w; loggers := loggers w;
     data_channel := data_channel w; control_channel := control_channel w; trace :=
     trace w; tick := tick w; pf := pf w |}.

Definition set_BXILOG_CONTEXT (v : bool) (w : world) : world :=
  {| STATE := STATE w; BXILOG_CONTEXT := v; FILENAME := FILENAME w; FILENAME_LEN :=
     FILENAME_LEN w; PROGNAME := PROGNAME w; PROGNAME_LEN := PROGNAME_LEN w; PID :=
     PID w; data_url := data_url w; control_url := control_url w; TSD_KEY_ONCE :=
     TSD_KEY_ONCE w; ATFORK_ONCE := ATFORK_ONCE w; TSD := TSD w; IHT_DATA := IHT_DATA
     w; REGISTERED_LOGGERS_ARRAY_SIZE := REGISTERED_LOGGERS_ARRAY_SIZE w;
     REGISTERED_LOGGERS := REGISTERED_LOGGERS w; REGISTERED_LOGGERS_NB :=
     REGISTERED_LOGGERS_NB w; loggers := loggers w; data_channel := data_channel w;
     control_channel := control_channel w; trace := trace w; tick := tick w; pf := pf
     w |}.

Definition set_FILENAME (v : option string) (w : world) : world :=
  {| STATE := STATE w; BXILOG_CONTEXT := BXILOG_CONTEXT w; FILENAME := v; FILENAME_LEN
     := FILENAME_LEN w; PROGNAME := PROGNAME w; PROGNAME_LEN := PROGNAME_LEN w; PID :=
     PID w; data_url := data_url w; control_url := control_url w; TSD_KEY_ONCE :=
     TSD_KEY_ONCE w; ATFORK_ONCE := ATFORK_ONCE w; TSD := TSD w; IHT_DATA := IHT_DATA
     w; REGISTERED_LOGGERS_ARRAY_SIZE := REGISTERED_LOGGERS_ARRAY_SIZE w;
     REGISTERED_LOGGERS := REGISTERED_LOGGERS w; REGISTERED_LOGGERS_NB :=
     REGISTERED_LOGGERS_NB w; loggers := loggers w; data_channel := data_channel w;
     control_channel := control_channel w; trace := trace w; tick := tick w; pf := pf
     w |}.

Definition set_FILENAME_LEN (v : nat) (w : world) : world :=
  {| STATE := STATE w; BXILOG_CONTEXT := BXILOG_CONTEXT w; FILENAME := FILENAME w;
     FILENAME_LEN := v; PROGNAME := PROGNAME w; PROGNAME_LEN := PROGNAME_LEN w; PID :=
     PID w; data_url := data_url w; control_url := control_url w; TSD_KEY_ONCE :=
     TSD_KEY_ONCE w; ATFORK_ONCE := ATFORK_ONCE w; TSD := TSD w; IHT_DATA := IHT_DATA
     w; REGISTERED_LOGGERS_ARRAY_SIZE := REGISTERED_LOGGERS_ARRAY_SIZE w;
     REGISTERED_LOGGERS := REGISTERED_LOGGERS w; REGISTERED_LOGGERS_NB :=
     REGISTERED_LOGGERS_NB w; loggers := loggers w; data_channel := data_channel w;
     control_channel := control_channel w; trace := trace w; tick := tick w; pf := pf
     w |}.

Definition set_PROGNAME (v : option string) (w : world) : world :=
  {| STATE := STATE w; BXILOG_CONTEXT := BXILOG_CONTEXT w; FILENAME := FILENAME w;
     FILENAME_LEN := FILENAME_LEN w; PROGNAME := v; PROGNAME_LEN := PROGNAME_LEN w;
     PID := PID w; data_url := data_url w; control_url := control_url w; TSD_KEY_ONCE
     := TSD_KEY_ONCE w; ATFORK_ONCE := ATFORK_ONCE w; TSD := TSD w; IHT_DATA :=
     IHT_DATA w; REGISTERED_LOGGERS_ARRAY_SIZE := REGISTERED_LOGGERS_ARRAY_SIZE w;
     REGISTERED_LOGGERS := REGISTERED_LOGGERS w; REGISTERED_LOGGERS_NB :=
     REGISTERED_LOGGERS_NB w; loggers := loggers w; data_channel := data_channel w;
     control_channel := control_channel w; trace := trace w; tick := tick w; pf := pf
     w |}.

Definition set_PROGNAME_LEN (v : nat) (w : world) : world :=
  {| STATE := STATE w; BXILOG_CONTEXT := BXILOG_CONTEXT w; FILENAME := FILENAME w;
     FILENAME_LEN := FILENAME_LEN w; PROGNAME := PROGNAME w; PROGNAME_LEN := v; PID :=
     PID w; data_url := data_url w; control_url := control_url w; TSD_KEY_ONCE :=
     TSD_KEY_ONCE w; ATFORK_ONCE := ATFORK_ONCE w; TSD := TSD w; IHT_DATA := IHT_DATA
     w; REGISTERED_LOGGERS_ARRAY_SIZE := REGISTERED_LOGGERS_ARRAY_SIZE w;
     REGISTERED_LOGGERS := REGISTERED_LOGGERS w; REGISTERED_LOGGERS_NB :=
     REGISTERED_LOGGERS_NB w; loggers := loggers w; data_channel := data_channel w;
     control_channel := control_channel w; trace := trace w; tick := tick w; pf := pf
     w |}.

Definition set_PID (v : Z) (w : world) : world :=
  {| STATE := STATE w; BXILOG_CONTEXT := BXILOG_CONTEXT w; FILENAME := FILENAME w;
     FILENAME_LEN := FILENAME_LEN w; PROGNAME := PROGNAME w; PROGNAME_LEN :=
     PROGNAME_LEN w; PID := v; data_url := data_url w; control_url := control_url w;
     TSD_KEY_ONCE := TSD_KEY_ONCE w; ATFORK_ONCE := ATFORK_ONCE w; TSD := TSD w;
     IHT_DATA := IHT_DATA w; REGISTERED_LOGGERS_ARRAY_SIZE :=
     REGISTERED_LOGGERS_ARRAY_SIZE w; REGISTERED_LOGGERS := REGISTERED_LOGGERS w;
     REGISTERED_LOGGERS_NB := REGISTERED_LOGGERS_NB w; loggers := loggers w;
     data_channel := data_channel w; control_channel := control_channel w; trace :=
     trace w; tick := tick w; pf := pf w |}.

Definition set_data_url (v : option string) (w : world) : world :=
  {| STATE := STATE w; BXILOG_CONTEXT := BXILOG_CONTEXT w; FILENAME := FILENAME w;
     FILENAME_LEN := FILENAME_LEN w; PROGNAME := PROGNAME w; PROGNAME_LEN :=
     PROGNAME_LEN w; PID := PID w; data_url := v; control_url := control_url w;
     TSD_KEY_ONCE := TSD_KEY_ONCE w; ATFORK_ONCE := ATFORK_ONCE w; TSD := TSD w;
     IHT_DATA := IHT_DATA w; REGISTERED_LOGGERS_ARRAY_SIZE :=
     REGISTERED_LOGGERS_ARRAY_SIZE w; REGISTERED_LOGGERS := REGISTERED_LOGGERS w;
     REGISTERED_LOGGERS_NB := REGISTERED_LOGGERS_NB w; loggers := loggers w;
     data_channel := data_channel w; control_channel := control_channel w; trace :=
     trace w; tick := tick w; pf := pf w |}.

Definition set_control_url (v : option string) (w : world) : world :=
  {| STATE := STATE w; BXILOG_CONTEXT := BXILOG_CONTEXT w; FILENAME := FILENAME w;
     FILENAME_LEN := FILENAME_LEN w; PROGNAME := PROGNAME w; PROGNAME_LEN :=
     PROGNAME_LEN w; PID := PID w; data_url := data_url w; control_url := v;
     TSD_KEY_ONCE := TSD_KEY_ONCE w; ATFORK_ONCE := ATFORK_ONCE w; TSD := TSD w;
     IHT_DATA := IHT_DATA w; REGISTERED_LOGGERS_ARRAY_SIZE :=
     REGISTERED_LOGGERS_ARRAY_SIZE w; REGISTERED_LOGGERS := REGISTERED_LOGGERS w;
     REGISTERED_LOGGERS_NB := REGISTERED_LOGGERS_NB w; loggers := loggers w;
     data_channel := data_channel w; control_channel := control_channel w; trace :=
     trace w; tick := tick w; pf := pf w |}.

Definition set_TSD_KEY_ONCE (v : bool) (w : world) : world :=
  {| STATE := STATE w; BXILOG_CONTEXT := BXILOG_CONTEXT w; FILENAME := FILENAME w;
     FILENAME_LEN := FILENAME_LEN w; PROGNAME := PROGNAME w; PROGNAME_LEN :=
     PROGNAME_LEN w; PID := PID w; data_url := data_url w; control_url := control_url
     w; TSD_KEY_ONCE := v; ATFORK_ONCE := ATFORK_ONCE w; TSD := TSD w; IHT_DATA :=
     IHT_DATA w; REGISTERED_LOGGERS_ARRAY_SIZE := REGISTERED_LOGGERS_ARRAY_SIZE w;
     REGISTERED_LOGGERS := REGISTERED_LOGGERS w; REGISTERED_LOGGERS_NB :=
     REGISTERED_LOGGERS_NB w; loggers := loggers w; data_channel := data_channel w;
     control_channel := control_channel w; trace := trace w; tick := tick w; pf := pf
     w |}.

Definition set_ATFORK_ONCE (v : bool) (w : world) : world :=
  {| STATE := STATE w; BXILOG_CONTEXT := BXILOG_CONTEXT w; FILENAME := FILENAME w;
     FILENAME_LEN := FILENAME_LEN w; PROGNAME := PROGNAME w; PROGNAME_LEN :=
     PROGNAME_LEN w; PID := PID w; data_url := data_url w; control_url := control_url
     w; TSD_KEY_ONCE := TSD_KEY_ONCE w; ATFORK_ONCE := v; TSD := TSD w; IHT_DATA :=
     IHT_DATA w; REGISTERED_LOGGERS_ARRAY_SIZE := REGISTERED_LOGGERS_ARRAY_SIZE w;
     REGISTERED_LOGGERS := REGISTERED_LOGGERS w; REGISTERED_LOGGERS_NB :=
     REGISTERED_LOGGERS_NB w; loggers := loggers w; data_channel := data_channel w;
     control_channel := control_channel w; trace := trace w; tick := tick w; pf := pf
     w |}.

Definition set_TSD (v : option tsd_s) (w : world) : world :=
  {| STATE := STATE w; BXILOG_CONTEXT := BXILOG_CONTEXT w; FILENAME := FILENAME w;
     FILENAME_LEN := FILENAME_LEN w; PROGNAME := PROGNAME w; PROGNAME_LEN :=
     PROGNAME_LEN w; PID := PID w; data_url := data_url w; control_url := control_url
     w; TSD_KEY_ONCE := TSD_KEY_ONCE w; ATFORK_ONCE := ATFORK_ONCE w; TSD := v;
     IHT_DATA := IHT_DATA w; REGISTERED_LOGGERS_ARRAY_SIZE :=
     REGISTERED_LOGGERS_ARRAY_SIZE w; REGISTERED_LOGGERS := REGISTERED_LOGGERS w;
     REGISTERED_LOGGERS_NB := REGISTERED_LOGGERS_NB w; loggers := loggers w;
     data_channel := data_channel w; control_channel := control_channel w; trace :=
     trace w; tick := tick w; pf := pf w |}.

Definition set_IHT_DATA (v : iht_data_s) (w : world) : world :=
  {| STATE := STATE w; BXILOG_CONTEXT := BXILOG_CONTEXT w; FILENAME := FILENAME w;
     FILENAME_LEN := FILENAME_LEN w; PROGNAME := PROGNAME w; PROGNAME_LEN :=
     PROGNAME_LEN w; PID := PID w; data_url := data_url w; control_url := control_url
     w; TSD_KEY_ONCE := TSD_KEY_ONCE w; ATFORK_ONCE := ATFORK_ONCE w; TSD := TSD w;
     IHT_DATA := v; REGISTERED_LOGGERS_ARRAY_SIZE := REGISTERED_LOGGERS_ARRAY_SIZE w;
     REGISTERED_LOGGERS := REGISTERED_LOGGERS w; REGISTERED_LOGGERS_NB :=
     REGISTERED_LOGGERS_NB w; loggers := loggers w; data_channel := data_channel w;
     control_channel := control_channel w; trace := trace w; tick := tick w; pf := pf
     w |}.

Definition set_REGISTERED_LOGGERS_ARRAY_SIZE (v : nat) (w : world) : world :=
  {| STATE := STATE w; BXILOG_CONTEXT := BXILOG_CONTEXT w; FILENAME := FILENAME w;
     FILENAME_LEN := FILENAME_LEN w; PROGNAME := PROGNAME w; PROGNAME_LEN :=
     PROGNAME_LEN w; PID := PID w; data_url := data_url w; control_url := control_url
     w; TSD_KEY_ONCE := TSD_KEY_ONCE w; ATFORK_ONCE := ATFORK_ONCE w; TSD := TSD w;
     IHT_DATA := IHT_DATA w; REGISTERED_LOGGERS_ARRAY_SIZE := v; REGISTERED_LOGGERS :=
     REGISTERED_LOGGERS w; REGISTERED_LOGGERS_NB := REGISTERED_LOGGERS_NB w; loggers
     := loggers w; data_channel := data_channel w; control_channel := control_channel
     w; trace := trace w; tick := tick w; pf := pf w |}.

Definition set_REGISTERED_LOGGERS (v : option (list bxilog_p)) (w : world) : world :=
  {| STATE := STATE w; BXILOG_CONTEXT := BXILOG_CONTEXT w; FILENAME := FILENAME w;
     FILENAME_LEN := FILENAME_LEN w; PROGNAME := PROGNAME w; PROGNAME_LEN :=
     PROGNAME_LEN w; PID := PID w; data_url := data_url w; control_url := control_url
     w; TSD_KEY_ONCE := TSD_KEY_ONCE w; ATFORK_ONCE := ATFORK_ONCE w; TSD := TSD w;
     IHT_DATA := IHT_DATA w; REGISTERED_LOGGERS_ARRAY_SIZE :=
     REGISTERED_LOGGERS_ARRAY_SIZE w; REGISTERED_LOGGERS := v; REGISTERED_LOGGERS_NB
     := REGISTERED_LOGGERS_NB w; loggers := loggers w; data_channel := data_channel w;
     control_channel := control_channel w; trace := trace w; tick := tick w; pf := pf
     w |}.

Definition set_REGISTERED_LOGGERS_NB (v : nat) (w : world) : world :=
  {| STATE := STATE w; BXILOG_CONTEXT := BXILOG_CONTEXT w; FILENAME := FILENAME w;
     FILENAME_LEN := FILENAME_LEN w; PROGNAME := PROGNAME w; PROGNAME_LEN :=
     PROGNAME_LEN w; PID := PID w; data_url := data_url w; control_url := control_url
     w; TSD_KEY_ONCE := TSD_KEY_ONCE w; ATFORK_ONCE := ATFORK_ONCE w; TSD := TSD w;
     IHT_DATA := IHT_DATA w; REGISTERED_LOGGERS_ARRAY_SIZE :=
     REGISTERED_LOGGERS_ARRAY_SIZE w; REGISTERED_LOGGERS := REGISTERED_LOGGERS w;
     REGISTERED_LOGGERS_NB := v; loggers := loggers w; data_channel := data_channel w;
     control_channel := control_channel w; trace := trace w; tick := tick w; pf := pf
     w |}.

Definition set_loggers (v : gmap positive bxilog_s) (w : world) : world :=
  {| STATE := STATE w; BXILOG_CONTEXT := BXILOG_CONTEXT w; FILENAME := FILENAME w;
     FILENAME_LEN := FILENAME_LEN w; PROGNAME := PROGNAME w; PROGNAME_LEN :=
     PROGNAME_LEN w; PID := PID w; data_url := data_url w; control_url := control_url
     w; TSD_KEY_ONCE := TSD_KEY_ONCE w; ATFORK_ONCE := ATFORK_ONCE w; TSD := TSD w;
     IHT_DATA := IHT_DATA w; REGISTERED_LOGGERS_ARRAY_SIZE :=
     REGISTERED_LOGGERS_ARRAY_SIZE w; REGISTERED_LOGGERS := REGISTERED_LOGGERS w;
     REGISTERED_LOGGERS_NB := REGISTERED_LOGGERS_NB w; loggers := v; data_channel :=
     data_channel w; control_channel := control_channel w; trace := trace w; tick :=
     tick w; pf := pf w |}.

Definition set_data_channel (v : list frame) (w : world) : world :=
  {| STATE := STATE w; BXILOG_CONTEXT := BXILOG_CONTEXT w; FILENAME := FILENAME w;
     FILENAME_LEN := FILENAME_LEN w; PROGNAME := PROGNAME w; PROGNAME_LEN :=
     PROGNAME_LEN w; PID := PID w; data_url := data_url w; control_url := control_url
     w; TSD_KEY_ONCE := TSD_KEY_ONCE w; ATFORK_ONCE := ATFORK_ONCE w; TSD := TSD w;
     IHT_DATA := IHT_DATA w; REGISTERED_LOGGERS_ARRAY_SIZE :=
     REGISTERED_LOGGERS_ARRAY_SIZE w; REGISTERED_LOGGERS := REGISTERED_LOGGERS w;
     REGISTERED_LOGGERS_NB := REGISTERED_LOGGERS_NB w; loggers := loggers w;
     data_channel := v; control_channel := control_channel w; trace := trace w; tick
     := tick w; pf := pf w |}.

Definition set_control_channel (v : list string) (w : world) : world :=
  {| STATE := STATE w; BXILOG_CONTEXT := BXILOG_CONTEXT w; FILENAME := FILENAME w;
     FILENAME_LEN := FILENAME_LEN w; PROGNAME := PROGNAME w; PROGNAME_LEN :=
     PROGNAME_LEN w; PID := PID w; data_url := data_url w; control_url := control_url
     w; TSD_KEY_ONCE := TSD_KEY_ONCE w; ATFORK_ONCE := ATFORK_ONCE w; TSD := TSD w;
     IHT_DATA := IHT_DATA w; REGISTERED_LOGGERS_ARRAY_SIZE :=
     REGISTERED_LOGGERS_ARRAY_SIZE w; REGISTERED_LOGGERS := REGISTERED_LOGGERS w;
     REGISTERED_LOGGERS_NB := REGISTERED_LOGGERS_NB w; loggers := loggers w;
     data_channel := data_channel w; control_channel := v; trace := trace w; tick :=
     tick w; pf := pf w |}.

Definition set_trace (v : list event) (w : world) : world :=
  {| STATE := STATE w; BXILOG_CONTEXT := BXILOG_CONTEXT w; FILENAME := FILENAME w;
     FILENAME_LEN := FILENAME_LEN w; PROGNAME := PROGNAME w; PROGNAME_LEN :=
     PROGNAME_LEN w; PID := PID w; data_url := data_url w; control_url := control_url
     w; TSD_KEY_ONCE := TSD_KEY_ONCE w; ATFORK_ONCE := ATFORK_ONCE w; TSD := TSD w;
     IHT_DATA := IHT_DATA w; REGISTERED_LOGGERS_ARRAY_SIZE :=
     REGISTERED_LOGGERS_ARRAY_SIZE w; REGISTERED_LOGGERS := REGISTERED_LOGGERS w;
     REGISTERED_LOGGERS_NB := REGISTERED_LOGGERS_NB w; loggers := loggers w;
     data_channel := data_channel w; control_channel := control_channel w; trace := v;
     tick := tick w; pf := pf w |}.

Definition set_tick (v : nat) (w : world) : world :=
  {| STATE := STATE w; BXILOG_CONTEXT := BXILOG_CONTEXT w; FILENAME := FILENAME w;
     FILENAME_LEN := FILENAME_LEN w; PROGNAME := PROGNAME w; PROGNAME_LEN :=
     PROGNAME_LEN w; PID := PID w; data_url := data_url w; control_url := control_url
     w; TSD_KEY_ONCE := TSD_KEY_ONCE w; ATFORK_ONCE := ATFORK_ONCE w; TSD := TSD w;
     IHT_DATA := IHT_DATA w; REGISTERED_LOGGERS_ARRAY_SIZE :=
     REGISTERED_LOGGERS_ARRAY_SIZE w; REGISTERED_LOGGERS := REGISTERED_LOGGERS w;
     REGISTERED_LOGGERS_NB := REGISTERED_LOGGERS_NB w; loggers := loggers w;
     data_channel := data_channel w; control_channel := control_channel w; trace :=
     trace w; tick := v; pf := pf w |}.

(** ** The monad of C functions *)

Inductive abort_reason : Type :=
| AssertFailed (expr : string)   (* assert(3) failed: the process aborts *)
| InvalidPointer                 (* a NULL or dangling pointer was dereferenced *)
| OutOfBounds                    (* an access past the end of an allocation *)
| ProcessExit (status : Z).      (* exit(3), error(3) with a non-zero status *)

Inductive outcome (A : Type) : Type :=
| Ret (a : A) (w : world)            (* the function returned [a] *)
| Abort (r : abort_reason) (w : world) (* the process stopped in state [w] *)
| OutOfFuel.                         (* the recursion budget of the model ran out *)

Arguments Ret {A} a w.
Arguments Abort {A} r w.
Arguments OutOfFuel {A}.

Definition M (A : Type) : Type := world -> outcome A.

Definition ret {A : Type} (a : A) : M A := fun w => Ret a w.

Definition bind {A B : Type} (m : M A) (k : A -> M B) : M B :=
  fun w =>
    match m w with
    | Ret a w' => k a w'
    | Abort r w' => Abort r w'
    | OutOfFuel => OutOfFuel
    end.

Declare Scope M_scope.
Delimit Scope M_scope with M.
Bind Scope M_scope with M.

Notation "x <- c1 ;; c2" := (bind c1 (fun x => c2))
  (at level 100, c1 at next level, right associativity) : M_scope.
Notation "c1 ;; c2" := (bind c1 (fun _ => c2))
  (at level 100, c2 at level 200, right associativity) : M_scope.

Local Open Scope M_scope.

Definition gets {A : Type} (f : world -> A) : M A := fun w => Ret (f w) w.
Definition modify (f : world -> world) : M unit := fun w => Ret tt (f w).
Definition abort {A : Type} (r : abort_reason) : M A := fun w => Abort r w.

Definition assert_ (b : bool) (expr : string) : M unit :=
  if b then ret tt else abort (AssertFailed expr).

Definition emit (e : event) : M unit :=
  modify (fun w => set_trace (trace w ++ [e]) w).

(** A call into the platform: its answer is the one the platform gives at
    the current tick, and the tick advances. *)
Definition platform_call {A : Type} (f : platform -> nat -> A) : M A :=
  fun w => Ret (f (pf w) (tick w)) (set_tick (S (tick w)) w).

Definition fprintf_stderr (s : string) : M unit := emit (EvStderr s).

Definition pthread_mutex_lock (m : mutex) : M Z :=
  emit (EvLock m) ;; platform_call pthread_rc.

Definition pthread_mutex_unlock (m : mutex) : M Z :=
  emit (EvUnlock m) ;; platform_call pthread_rc.

(** ** C strings *)

Definition NUL : ascii := Ascii.zero.

Definition char0 (s : string) : ascii :=
  match s with EmptyString => NUL | String c _ => c end.

Definition str_tail (s : string) : string :=
  match s with EmptyString => EmptyString | String _ s' => s' end.

Fixpoint strlen (s : string) : nat :=
  match s with
  | EmptyString => 0
  | String c s' => if Ascii.eqb c NUL then 0 else S (strlen s')
  end.

(** [strncmp(s1, s2, n)]: bytes are compared as [unsigned char], the
    comparison stops at the first difference, at a NUL or after [n] bytes. *)
Fixpoint strncmp (s1 s2 : string) (n : nat) : Z :=
  match n with
  | O => 0%Z
  | S n' =>
    let c1 := char0 s1 in
    let c2 := char0 s2 in
    if negb (Ascii.eqb c1 c2)
    then (Z.of_nat (nat_of_ascii c1) - Z.of_nat (nat_of_ascii c2))%Z
    else if Ascii.eqb c1 NUL then 0%Z
    else strncmp (str_tail s1) (str_tail s2) n'
  end.

Definition strcmp (s1 s2 : string) : Z :=
  strncmp s1 s2 (S (Nat.max (strlen s1) (strlen s2))).

(** ** The registry of loggers *)

(** [REGISTERED_LOGGERS[i]] *)
Definition registered_load (i : nat) : M bxilog_p :=
  arr <- gets REGISTERED_LOGGERS ;;
  match arr with
  | None => abort InvalidPointer
  | Some a =>
    match a !! i with
    | Some p => ret p
    | None => abort OutOfBounds
    end
  end.

(** [REGISTERED_LOGGERS[i] = p] *)
Definition registered_store (i : nat) (p : bxilog_p) : M unit :=
  arr <- gets REGISTERED_LOGGERS ;;
  match arr with
  | None => abort InvalidPointer
  | Some a =>
    if decide (i < length a)
    then emit EvRegistry ;; modify (set_REGISTERED_LOGGERS (Some (<[i := p]> a)))
    else abort OutOfBounds
  end.

(** [*logger] *)
Definition deref (logger : bxilog_p) : M bxilog_s :=
  match logger with
  | None => abort InvalidPointer
  | Some a =>
    lg <- gets (fun w => loggers w !! a) ;;
    match lg with
    | Some l => ret l
    | None => abort InvalidPointer
    end
  end.

(** [logger->level = l] *)
Definition store_level (logger : bxilog_p) (l : bxilog_level_e) : M unit :=
  lg <- deref logger ;;
  match logger with
  | None => abort InvalidPointer
  | Some a => modify (fun w => set_loggers (<[a := with_level l lg]> (loggers w)) w)
  end.

Definition is_null (p : bxilog_p) : bool :=
  match p with None => true | Some _ => false end.

Definition ptr_eqb (p q : bxilog_p) : bool := bool_decide (p = q).

(** [bxilog_register].  The slots [bximem_realloc] adds are not initialised
    in C; none is read before it is written, they are [NULL] here. *)
Definition bxilog_register (logger : bxilog_p) : M unit :=
  assert_ (negb (is_null logger)) "logger != NULL" ;;
  rc <- pthread_mutex_lock register_lock ;;
  assert_ (0 =? rc)%Z "0 == rc" ;;
  arr <- gets REGISTERED_LOGGERS ;;
  nb <- gets REGISTERED_LOGGERS_NB ;;
  size <- gets REGISTERED_LOGGERS_ARRAY_SIZE ;;
  match arr with
  | None =>
    emit EvRegistry ;;
    modify (set_REGISTERED_LOGGERS (Some (replicate size None)))
  | Some a =>
    if size <=? nb then
      emit EvRegistry ;;
      modify (set_REGISTERED_LOGGERS_ARRAY_SIZE (size + 10)) ;;
      emit EvRegistry ;;
      modify (set_REGISTERED_LOGGERS (Some (resize (size + 10) None a))) ;;
      fprintf_stderr ("[I] Reallocation of " +:+ pretty (size + 10)
                      +:+ " slots for (currently) " +:+ pretty nb
                      +:+ " registered loggers" +:+ String "010" "")
    else ret tt
  end ;;
  registered_store nb logger ;;
  emit EvRegistry ;;
  modify (set_REGISTERED_LOGGERS_NB (S nb)) ;;
  rc <- pthread_mutex_unlock register_lock ;;
  assert_ (0 =? rc)%Z "0 == rc".

(** The [for] loop of [bxilog_unregister]: [k] iterations are left, [i] is
    the index, the result is [found]. *)
Fixpoint unregister_loop (logger : bxilog_p) (k i : nat) (found : bool) : M bool :=
  match k with
  | O => ret found
  | S k' =>
    p <- registered_load i ;;
    if ptr_eqb p logger
    then registered_store i None ;; unregister_loop logger k' (S i) true
    else unregister_loop logger k' (S i) found
  end.

(** [bxilog_unregister].  [REGISTERED_LOGGERS_NB--] only runs after an entry
    was found, hence with a positive counter. *)
Definition bxilog_unregister (logger : bxilog_p) : M unit :=
  assert_ (negb (is_null logger)) "logger != NULL" ;;
  rc <- pthread_mutex_lock register_lock ;;
  assert_ (0 =? rc)%Z "0 == rc" ;;
  nb <- gets REGISTERED_LOGGERS_NB ;;
  found <- unregister_loop logger nb 0 false ;;
  (if found
   then emit EvRegistry ;; modify (set_REGISTERED_LOGGERS_NB (Nat.pred nb))
   else lg <- deref logger ;;
        fprintf_stderr ("[W] Can't find registered logger: " +:+ name lg)) ;;
  nb' <- gets REGISTERED_LOGGERS_NB ;;
  (if nb' =? 0
   then emit EvRegistry ;; modify (set_REGISTERED_LOGGERS None)
   else ret tt) ;;
  rc <- pthread_mutex_unlock register_lock ;;
  assert_ (0 =? rc)%Z "0 == rc".

(** [bxilog_get_registered] *)
Definition bxilog_get_registered : M (option (list bxilog_p) * nat) :=
  arr <- gets REGISTERED_LOGGERS ;;
  nb <- gets REGISTERED_LOGGERS_NB ;;
  ret (arr, nb).

(** The inner [for] loop of [bxilog_cfg_registered], over the registered
    loggers: [k] iterations are left, [l] is the index. *)
Fixpoint cfg_loggers_loop (prefix : string) (len : nat) (lv : bxilog_level_e)
         (k l : nat) : M unit :=
  match k with
  | O => ret tt
  | S k' =>
    logger <- registered_load l ;;
    lg <- deref logger ;;
    (if (0 =? strncmp prefix (name lg) len)%Z
     then emit EvRegistry ;; store_level logger lv
     else ret tt) ;;
    cfg_loggers_loop prefix len lv k' (S l)
  end.

(** The outer [for] loop, over the items of [cfg]. *)
Fixpoint cfg_items_loop (cfg : list bxilog_cfg_item_s) : M unit :=
  match cfg with
  | [] => ret tt
  | item :: rest =>
    match logger_name_prefix item with
    | None => abort (AssertFailed "NULL != cfg[i]->logger_name_prefix")
    | Some prefix =>
      nb <- gets REGISTERED_LOGGERS_NB ;;
      cfg_loggers_loop prefix (strlen prefix) (cfg_level item) nb 0 ;;
      cfg_items_loop rest
    end
  end.

(** [bxilog_cfg_registered(n, cfg)]; [n] is the length of [cfg].  The first
    call on the mutex is [pthread_mutex_unlock], as in the C text. *)
Definition bxilog_cfg_registered (cfg : list bxilog_cfg_item_s) : M bxierr :=
  rc <- pthread_mutex_unlock register_lock ;;
  assert_ (0 =? rc)%Z "0 == rc" ;;
  cfg_items_loop cfg ;;
  rc <- pthread_mutex_unlock register_lock ;;
  assert_ (0 =? rc)%Z "0 == rc" ;;
  ret BXIERR_OK.

(** [bxilog_get_level] *)
Definition bxilog_get_level (logger : bxilog_p) : M bxilog_level_e :=
  assert_ (negb (is_null logger)) "NULL != logger" ;;
  lg <- deref logger ;;
  ret (level lg).

(** [bxilog_set_level] *)
Definition bxilog_set_level (logger : bxilog_p) (l : bxilog_level_e) : M unit :=
  assert_ (negb (is_null logger) && (level_num l <=? level_num BXILOG_CRITICAL)%Z)
          "NULL != logger && BXILOG_CRITICAL >= level" ;;
  store_level logger l.

(** Modelled from the spec: [bxilog_is_enabled_for] is defined inline in
    [bxi/base/log.h], absent from the sources; it returns
    [level <= logger->level]. *)
Definition bxilog_is_enabled_for (logger : bxilog_p) (l : bxilog_level_e) : M bool :=
  lg <- deref logger ;;
  ret (level_num l <=? level_num (level lg))%Z.


(** ** Thread-specific data and the channels *)

Definition DEFAULT_LOG_BUF_SIZE : nat := 128.
Definition MAX_DEPTH_ERR : nat := 5.
Definition RETRIES_MAX : Z := 3.
Definition RETRY_DELAY : Z := 500000.
Definition EX_SOFTWARE : Z := 70.

Definition INTERNAL_LOGGER_NAME : string := "bxilog".
Definition IHT_LOGGER_NAME : string := "bxilog.iht".
Definition READY_CTRL_MSG_REQ : string := "BC->IH: ready?".
Definition READY_CTRL_MSG_REP : string := "IH->BC: ready!".
Definition EXIT_CTRL_MSG_REQ : string := "BC->IH: exit?".
Definition FLUSH_CTRL_MSG_REQ : string := "BC->IH: flush?".
Definition FLUSH_CTRL_MSG_REP : string := "IH->BC: flushed!".

(** [SET_LOGGER(BXILOG_INTERNAL_LOGGER, "bxibase.log")]: a static logger
    object, here at address 1. *)
Definition BXILOG_INTERNAL_LOGGER : bxilog_p := Some 1%positive.

Definition state_num (s : bxilog_state_e) : Z :=
  match s with
  | UNSET => 0 | INITIALIZING => 1 | INITIALIZED => 2 | FINALIZING => 3
  | FINALIZED => 4 | ILLEGAL => 5 | FORKED => 6
  end%Z.

Definition state_eqb (s1 s2 : bxilog_state_e) : bool := bool_decide (s1 = s2).

Definition illegal_state_err (s : bxilog_state_e) : bxierr :=
  bxierr_new BXILOG_ILLEGAL_STATE_ERR ("Illegal state: " +:+ pretty (state_num s)).

(** [pthread_once(&once, routine)] *)
Definition pthread_once (once : world -> bool) (set_once : bool -> world -> world)
           (routine : M unit) : M Z :=
  rc <- platform_call pthread_rc ;;
  done_ <- gets once ;;
  (if (rc =? 0)%Z && negb done_
   then modify (set_once true) ;; routine
   else ret tt) ;;
  ret rc.

(** [_tsd_key_new]: a new key, whose value is [NULL] in every thread. *)
Definition _tsd_key_new : M unit :=
  rc <- platform_call pthread_rc ;;
  assert_ (0 =? rc)%Z "0 == rc" ;;
  modify (set_TSD None).

(** [_tsd_free].  The value of [TSD_KEY] is left as it is: it points to the
    released block. *)
Definition _tsd_free (tsd : tsd_s) : M unit :=
  err2 <- platform_call bxizmq_err ;;
  let err := BXIERR_CHAIN BXIERR_OK err2 in
  err2 <- platform_call bxizmq_err ;;
  let err := BXIERR_CHAIN err err2 in
  (if bxierr_isko err
   then fprintf_stderr "Error during zeromq cleanup"
   else ret tt) ;;
  modify (fun w =>
    set_TSD (match TSD w with
             | Some t => Some {| tsd_tid := tsd_tid t;
                                 tsd_thread_rank := tsd_thread_rank t;
                                 tsd_freed := true |}
             | None => None
             end) w).

(** [_get_tsd]: the error and [*result]. *)
Definition _get_tsd : M (bxierr * tsd_s) :=
  cur <- gets TSD ;;
  match cur with
  | Some tsd =>
    if tsd_freed tsd then abort InvalidPointer else ret (BXIERR_OK, tsd)
  | None =>
    let tsd0 := {| tsd_tid := 0; tsd_thread_rank := 0; tsd_freed := false |} in
    url <- gets data_url ;;
    assert_ (bool_decide (url <> None)) "NULL != data_url" ;;
    err <- platform_call bxizmq_err ;;
    if bxierr_isko err then ret (err, tsd0) else
    err <- platform_call bxizmq_err ;;
    if bxierr_isko err then ret (err, tsd0) else
    t <- gets (fun w => gettid (pf w)) ;;
    self <- gets (fun w => pthread_self (pf w)) ;;
    let tsd := {| tsd_tid := t; tsd_thread_rank := (self mod 65536)%Z;
                  tsd_freed := false |} in
    rc <- platform_call pthread_rc ;;
    assert_ (0 =? rc)%Z "0 == rc" ;;
    modify (set_TSD (Some tsd)) ;;
    ret (BXIERR_OK, tsd)
  end.

(** Modelled from the spec: [bxizmq_snd_str] of [bxi/base/zmq.h], on the
    control channel: when it succeeds the request is on the channel. *)
Definition bxizmq_snd_str (msg : string) : M bxierr :=
  err <- platform_call bxizmq_err ;;
  (if bxierr_isko err then ret tt
   else modify (fun w => set_control_channel (control_channel w ++ [msg]) w)) ;;
  ret err.

(** Modelled from the spec: [bxizmq_rcv_str], the reply of the handler. *)
Definition bxizmq_rcv_str : M (bxierr * option string) :=
  err <- platform_call bxizmq_err ;;
  s <- platform_call bxizmq_rcv ;;
  ret (err, s).

(** Modelled from the spec: [bxizmq_snd_data_zc] with [ZMQ_DONTWAIT],
    [RETRIES_MAX] and [RETRY_DELAY]: the frame is on the data channel when
    the call succeeds, and also when it reports how many retries it took. *)
Definition bxizmq_snd_data_zc (f : frame) : M bxierr :=
  err <- platform_call bxizmq_err ;;
  (if bxierr_isok err || bool_decide (bxierr_code_of err = Some BXIZMQ_RETRIES_MAX_ERR)
   then modify (fun w => set_data_channel (data_channel w ++ [f]) w)
   else ret tt) ;;
  ret err.

(** [memcpy(dst, s, n)] out of the C string [s]: its bytes and the
    terminating NUL are there, nothing is known to follow. *)
Definition memcpy_str (s : string) (n : nat) : M (list ascii) :=
  if decide (n <= S (String.length s))
  then ret (take n (list_ascii_of_string s ++ [NUL]))
  else abort OutOfBounds.

(** ** The producer side *)

Definition LOG_C : string := "log.c".

Section Vlog.

(** The recursive calls the function makes through the logging macros. *)
Variable rec : bxilog_p -> bxilog_level_e -> string -> nat -> string -> nat ->
               Z -> string -> M bxierr.

(** Modelled from the spec: the macros [DEBUG], [LOWEST], [WARNING], ...
    of [bxi/base/log.h] expand to [bxilog_log]: the record is emitted only
    when the logger is enabled for the level, and the error the logging
    call returns is dropped. *)
Definition bxilog_log_with (logger : bxilog_p) (l : bxilog_level_e)
           (func : string) (line : Z) (msg : string) : M unit :=
  enabled <- bxilog_is_enabled_for logger l ;;
  if enabled
  then _ <- rec logger l LOG_C (S (String.length LOG_C))
                func (S (String.length func)) line msg ;;
       ret tt
  else ret tt.

(** [bxilog_vlog_nolevelcheck]; [msg] is what [vsnprintf] makes of [fmt]
    and [arglist]. *)
Definition vlog_body (logger : bxilog_p) (l : bxilog_level_e)
           (filename : string) (filename_len : nat)
           (funcname : string) (funcname_len : nat)
           (line : Z) (msg : string) : M bxierr :=
  st <- gets STATE ;;
  if negb (state_eqb INITIALIZED st) then ret BXIERR_OK else
  r <- _get_tsd ;;
  let '(err, tsd) := r in
  if bxierr_isko err then ret err else
  let n := strlen msg in
  (* the [while (true)] loop around [vsnprintf]: one pass when the message
     fits the thread's buffer, two otherwise *)
  (if n <? DEFAULT_LOG_BUF_SIZE then ret tt
   else bxilog_log_with BXILOG_INTERNAL_LOGGER BXILOG_LOWEST
          "bxilog_vlog_nolevelcheck" 640
          ("Not enough space to log inside tsd log_buf ("
           +:+ pretty DEFAULT_LOG_BUF_SIZE +:+ " > " +:+ pretty (S n)
           +:+ "), mallocating a new one")) ;;
  let logmsg_len := S n in
  lg <- deref logger ;;
  let var_len := filename_len + funcname_len + name_length lg in
  t <- platform_call bxitime_get ;;
  let '(err, now) := t in
  (* TODO: be smarter here, if the time can't be fetched, just fake it! *)
  if bxierr_isko err then ret err else
  let hdr := {| hdr_level := l; detail_time := now;
                tid := tsd_tid tsd; thread_rank := tsd_thread_rank tsd;
                line_nb := line;
                filename_len := filename_len; funcname_len := funcname_len;
                logname_len := name_length lg; variable_len := var_len;
                logmsg_len := logmsg_len |} in
  d1 <- memcpy_str filename filename_len ;;
  d2 <- memcpy_str funcname funcname_len ;;
  d3 <- memcpy_str (name lg) (name_length lg) ;;
  d4 <- memcpy_str msg logmsg_len ;;
  err <- bxizmq_snd_data_zc {| header := hdr; data := d1 ++ d2 ++ d3 ++ d4 |} ;;
  if bxierr_isko err then
    if negb (bool_decide (bxierr_code_of err = Some BXIZMQ_RETRIES_MAX_ERR))
    then ret err
    else
      bxilog_log_with BXILOG_INTERNAL_LOGGER BXILOG_WARN
        "bxilog_vlog_nolevelcheck" 700
        ("Sending last log required "
         +:+ pretty (match err with Bxierr _ d _ _ => d | BXIERR_OK => 0%Z end)
         +:+ " retries.") ;;
      ret BXIERR_OK
  else ret BXIERR_OK.

End Vlog.

(** [bxilog_vlog_nolevelcheck].  The function calls itself through
    [LOWEST] and [WARNING]; [fuel] bounds the depth of these calls. *)
Fixpoint bxilog_vlog_nolevelcheck (fuel : nat) : bxilog_p -> bxilog_level_e ->
    string -> nat -> string -> nat -> Z -> string -> M bxierr :=
  vlog_body
    (match fuel with
     | O => fun _ _ _ _ _ _ _ _ _ => OutOfFuel
     | S fuel' => bxilog_vlog_nolevelcheck fuel'
     end).

(** [bxilog_log_nolevelcheck] *)
Definition bxilog_log_nolevelcheck (fuel : nat) := bxilog_vlog_nolevelcheck fuel.

Definition bxilog_log (fuel : nat) : bxilog_p -> bxilog_level_e -> string -> Z ->
    string -> M unit :=
  bxilog_log_with (bxilog_vlog_nolevelcheck fuel).

Definition DEBUG (fuel : nat) (logger : bxilog_p) := bxilog_log fuel logger BXILOG_DEBUG.
Definition CRITICAL (fuel : nat) (logger : bxilog_p) := bxilog_log fuel logger BXILOG_CRIT.

(** [bxilog_flush] *)
Definition bxilog_flush (fuel : nat) : M bxierr :=
  st <- gets STATE ;;
  if negb (state_eqb INITIALIZED st) then ret BXIERR_OK else
  DEBUG fuel BXILOG_INTERNAL_LOGGER "bxilog_flush" 573 "Requesting a flush()." ;;
  r <- _get_tsd ;;
  let '(err, tsd) := r in
  if bxierr_isko err then ret err else
  err <- bxizmq_snd_str FLUSH_CTRL_MSG_REQ ;;
  if bxierr_isko err then ret err else
  r <- bxizmq_rcv_str ;;
  let '(err, reply) := r in
  if bxierr_isko err then ret err else
  match reply with
  | None => abort InvalidPointer
  | Some reply =>
    if negb (0 =? strcmp FLUSH_CTRL_MSG_REP reply)%Z
    then ret (bxierr_new BXILOG_IHT2BC_PROTO_ERR
                ("Wrong message received in reply to " +:+ FLUSH_CTRL_MSG_REQ +:+ ": "
                 +:+ reply +:+ ". Expecting: " +:+ FLUSH_CTRL_MSG_REP))
    else ret BXIERR_OK
  end.

(** ** The lifecycle controller *)

(** [_create_iht] *)
Definition _create_iht : M bxierr :=
  rc <- platform_call pthread_rc ;;
  let err :=
    if negb (0 =? rc)%Z
    then BXIERR_CHAIN BXIERR_OK
           (bxierr_fromidx rc "Calling pthread_attr_init() failed")
    else BXIERR_OK in
  rc <- platform_call pthread_rc ;;
  if negb (0 =? rc)%Z
  then ret (BXIERR_CHAIN err (bxierr_fromidx rc "Calling pthread_attr_init() failed"))
  else emit EvThreadCreate ;; ret err.

(** [_init] *)
Definition _init : M bxierr :=
  rc <- pthread_mutex_lock BXILOG_INITIALIZED_MUTEX ;;
  if negb (0 =? rc)%Z
  then ret (bxierr_fromidx rc "Calling pthread_mutex_lock() failed") else
  pid <- gets (fun w => getpid (pf w)) ;;
  modify (set_PID pid) ;;
  st <- gets STATE ;;
  if negb (state_eqb UNSET st) && negb (state_eqb FINALIZED st)
  then modify (set_STATE ILLEGAL) ;; ret (illegal_state_err st) else
  modify (set_STATE INITIALIZING) ;;
  ctx <- gets BXILOG_CONTEXT ;;
  assert_ (negb ctx) "NULL == BXILOG_CONTEXT" ;;
  ctx <- platform_call zmq_ctx_new ;;
  modify (set_BXILOG_CONTEXT ctx) ;;
  if negb ctx
  then modify (set_STATE ILLEGAL) ;; ret (bxierr_errno "Can't create a zmq context") else
  modify (set_data_url (Some ("inproc://" +:+ pretty pid +:+ "_data"))) ;;
  modify (set_control_url (Some ("inproc://" +:+ pretty pid +:+ "_control"))) ;;
  err <- _create_iht ;;
  if bxierr_isko err then ret err else
  rc <- pthread_mutex_unlock BXILOG_INITIALIZED_MUTEX ;;
  if negb (0 =? rc)%Z
  then modify (set_STATE ILLEGAL) ;;
       ret (bxierr_fromidx rc "Calling pthread_mutex_unlock() failed") else
  rc <- pthread_once TSD_KEY_ONCE set_TSD_KEY_ONCE _tsd_key_new ;;
  if negb (0 =? rc)%Z
  then modify (set_STATE ILLEGAL) ;;
       ret (bxierr_fromidx rc "Calling pthread_mutex_unlock() failed") else
  r <- _get_tsd ;;
  let '(err, tsd) := r in
  if bxierr_isko err then ret err else
  err <- bxizmq_snd_str READY_CTRL_MSG_REQ ;;
  if bxierr_isko err then ret err else
  r <- bxizmq_rcv_str ;;
  let '(err, ready) := r in
  if bxierr_isko err then ret err else
  match ready with
  | None => abort (AssertFailed "NULL != ready")
  | Some ready =>
    if negb (0 =? strcmp ready READY_CTRL_MSG_REP)%Z
    then abort (ProcessExit EX_SOFTWARE)
    else ret err
  end.

(** [_end_iht] *)
Definition _end_iht : M bxierr :=
  r <- _get_tsd ;;
  let '(err, tsd) := r in
  if bxierr_isko err then ret err else
  err <- bxizmq_snd_str EXIT_CTRL_MSG_REQ ;;
  err <- (if bool_decide (bxierr_code_of err = Some BXIZMQ_RETRIES_MAX_ERR)
          then fprintf_stderr ("Sending " +:+ EXIT_CTRL_MSG_REQ +:+ " required retries") ;;
               ret BXIERR_OK
          else ret err) ;;
  _tsd_free tsd ;;
  ret err.

(** [_finalize] *)
Definition _finalize : M bxierr :=
  st <- gets STATE ;;
  if negb (state_eqb INITIALIZED st)
  then modify (set_STATE ILLEGAL) ;; ret (illegal_state_err st) else
  modify (set_STATE FINALIZING) ;;
  err <- _end_iht ;;
  rc <- platform_call pthread_rc ;;
  iht_err <- platform_call pthread_join_retval ;;
  err <- (if negb (0 =? rc)%Z
          then ret (BXIERR_CHAIN err
                      (bxierr_fromidx rc "Can't join the internal handler thread."))
          else emit EvThreadJoin ;; ret (BXIERR_CHAIN err iht_err)) ;;
  rc <- platform_call zmq_rc ;;
  let err := if (rc =? -1)%Z
             then BXIERR_CHAIN err (bxierr_fromidx rc "Can't destroy context")
             else err in
  modify (set_BXILOG_CONTEXT false) ;;
  modify (set_TSD_KEY_ONCE false) ;;
  modify (set_data_url None) ;;
  modify (set_control_url None) ;;
  ret err.

(** [_install_fork_handlers] *)
Definition _install_fork_handlers : M unit :=
  rc <- platform_call pthread_rc ;;
  assert_ (0 =? rc)%Z "0 == rc".

(** [bxilog_init(progname, fn)] *)
Definition bxilog_init (fuel : nat) (progname fn : option string) : M bxierr :=
  st <- gets STATE ;;
  if negb (state_eqb UNSET st) && negb (state_eqb FINALIZED st)
  then ret (illegal_state_err st) else
  match fn with
  | None => ret (bxierr_new BXILOG_CONFIG_ERR "Bad configuration")
  | Some fn =>
    modify (set_FILENAME (Some fn)) ;;
    modify (set_FILENAME_LEN (strlen fn)) ;;
    match progname with
    | None => abort InvalidPointer
    | Some progname =>
      modify (set_PROGNAME (Some progname)) ;;
      modify (set_PROGNAME_LEN (strlen progname + 1)) ;;
      err <- _init ;;
      if bxierr_isko err then ret err else
      st <- gets STATE ;;
      assert_ (state_eqb INITIALIZING st) "INITIALIZING == STATE" ;;
      rc <- pthread_once ATFORK_ONCE set_ATFORK_ONCE _install_fork_handlers ;;
      if negb (0 =? rc)%Z
      then ret (bxierr_fromidx rc "Calling pthread_once() failed") else
      modify (set_STATE INITIALIZED) ;;
      DEBUG fuel BXILOG_INTERNAL_LOGGER "bxilog_init" 534 "Initialization done." ;;
      ret BXIERR_OK
    end
  end.

(** [bxilog_finalize] *)
Definition bxilog_finalize (fuel : nat) : M bxierr :=
  st <- gets STATE ;;
  if negb (state_eqb INITIALIZED st) then ret (illegal_state_err st) else
  DEBUG fuel BXILOG_INTERNAL_LOGGER "bxilog_finalize" 545 "Exiting bxilog" ;;
  err <- _finalize ;;
  if bxierr_isko err then ret err else
  st <- gets STATE ;;
  assert_ (state_eqb FINALIZING st) "FINALIZING == STATE" ;;
  modify (set_FILENAME None) ;;
  modify (set_PROGNAME None) ;;
  modify (set_STATE FINALIZED) ;;
  ret err.

(** ** The internal handler thread *)

Definition YEAR_SIZE : nat := 4.
Definition MONTH_SIZE : nat := 2.
Definition DAY_SIZE : nat := 2.
Definition HOUR_SIZE : nat := 2.
Definition MINUTE_SIZE : nat := 2.
Definition SECOND_SIZE : nat := 2.
Definition SUBSECOND_SIZE : nat := 9.
Definition PID_SIZE : nat := 5.
Definition TID_SIZE : nat := 5.
Definition THREAD_RANK_SIZE : nat := 5.

(** [FIXED_LOG_SIZE], the variant compiled on Linux. *)
Definition FIXED_LOG_SIZE : nat :=
  2 + YEAR_SIZE + MONTH_SIZE + DAY_SIZE +
  1 + HOUR_SIZE + MINUTE_SIZE + SECOND_SIZE + 1 + SUBSECOND_SIZE +
  1 + PID_SIZE + 1 + TID_SIZE + 1 + THREAD_RANK_SIZE +
  1 + 1 + 1 + 1 + 1 + 1.

Definition LF : ascii := "010"%char.
Definition SLASH : ascii := "/"%char.

(** The C string that starts at offset [off] of [buf]: the bytes up to the
    first NUL; [None] when the buffer ends before a NUL is met. *)
Fixpoint cstring (l : list ascii) : option string :=
  match l with
  | [] => None
  | c :: l' => if Ascii.eqb c NUL then Some EmptyString else String c <$> cstring l'
  end.

Definition cstring_at (buf : list ascii) (off : nat) : option string :=
  cstring (drop off buf).

(** [%0*d] and [%0*ld]: at least [w] characters, zeros on the left, the
    sign first. *)
Definition pad0 (w : nat) (digits : string) : string :=
  string_of_list_ascii (replicate (w - String.length digits) "0"%char) +:+ digits.

Definition fmt_0d (w : nat) (v : Z) : string :=
  if (v <? 0)%Z then "-" +:+ pad0 (w - 1) (pretty (Z.to_N (- v)))
  else pad0 w (pretty (Z.to_N v)).

(** [%0*u] of a 32-bit argument *)
Definition fmt_0u (w : nat) (v : Z) : string :=
  pad0 w (pretty (Z.to_N (v mod 2 ^ 32))).

(** [%d] *)
Definition fmt_d (v : Z) : string := fmt_0d 0 v.

(** The text [LOG_FMT] expands to. *)
Definition log_fmt (lvl : ascii) (now : tm) (nsec : Z) (pid tid' rank' : Z)
           (progname filename : string) (line : Z)
           (funcname loggername logmsg : string) : string :=
  String lvl "|"
  +:+ fmt_0d YEAR_SIZE (tm_year now + 1900) +:+ fmt_0d MONTH_SIZE (tm_mon now + 1)
  +:+ fmt_0d DAY_SIZE (tm_mday now) +:+ "T"
  +:+ fmt_0d HOUR_SIZE (tm_hour now) +:+ fmt_0d MINUTE_SIZE (tm_min now)
  +:+ fmt_0d SECOND_SIZE (tm_sec now) +:+ "." +:+ fmt_0d SUBSECOND_SIZE nsec +:+ "|"
  +:+ fmt_0u PID_SIZE pid +:+ "." +:+ fmt_0u TID_SIZE tid' +:+ "="
  +:+ fmt_0u THREAD_RANK_SIZE rank' +:+ ":" +:+ progname +:+ "|"
  +:+ filename +:+ ":" +:+ fmt_d line +:+ "@" +:+ funcname +:+ "|"
  +:+ loggername +:+ "|" +:+ logmsg +:+ String LF "".

(** [snprintf(buf, n, ...)] of [text]: what is left in [buf]. *)
Definition snprintf_buf (n : nat) (text : string) : list ascii :=
  match n with
  | O => []
  | S n' => take n' (list_ascii_of_string text) ++ [NUL]
  end.

(** [_mkmsg]: the buffer [buf] and the returned length. *)
Definition _mkmsg (n : nat) (lvl : ascii) (detail : timespec) (tid' rank' : Z)
           (filename : string) (line : Z) (funcname loggername logmsg : string)
  : M (list ascii * nat) :=
  now <- gets (fun w => localtime_r (pf w) (tv_sec detail)) ;;
  match now with
  | None => abort (AssertFailed "NULL != now")
  | Some now =>
    pid <- gets PID ;;
    prog <- gets PROGNAME ;;
    match prog with
    | None => abort InvalidPointer
    | Some prog =>
      let text := log_fmt lvl now (tv_nsec detail) pid tid' rank' prog
                          filename line funcname loggername logmsg in
      let written := String.length text in
      assert_ (written <=? n) "written <= (int)n" ;;
      ret (snprintf_buf n text, written)
    end
  end.

(** [write(fildes, buf, count)] with [count] the length of [buf] *)
Definition sys_write_call (fildes : Z) (buf : list ascii) : M Z :=
  r <- platform_call sys_write ;;
  let res := match r with
             | None => (-1)%Z
             | Some k => Z.of_nat (Nat.min k (length buf))
             end in
  emit (EvWrite fildes buf res) ;;
  ret res.

Definition read_cstring (buf : list ascii) (off : nat) : M string :=
  match cstring_at buf off with
  | Some s => ret s
  | None => abort OutOfBounds
  end.

(** The end of [_log_single_line]: the [write] of the [loglen] first bytes
    of the rendered buffer [msg] to the sink, and what follows it. *)
Definition write_line (msg : list ascii) (loglen : nat) : M unit :=
  out <- gets (fun w => fd (IHT_DATA w)) ;;
  written <- sys_write_call out (take loglen msg) ;;
  if (written <=? 0)%Z then
    fn <- gets FILENAME ;;
    let str := "[W] Can't write to " +:+ default "(null)" fn
               +:+ ", writing to stderr instead." +:+ String LF "" in
    n <- sys_write_call STDERR_FILENO (list_ascii_of_string str ++ [NUL]) ;;
    assert_ (0 <=? n)%Z "n >= 0" ;;
    n <- sys_write_call STDERR_FILENO (take loglen msg) ;;
    assert_ (0 <=? n)%Z "n >= 0"
  else ret tt.

(** [_log_single_line] once its four strings are read: the size of the
    buffer, [_mkmsg], and the write. *)
Definition log_line (hdr : log_header_s) (fname func lname text : string)
           (line_len : nat) : M unit :=
  plen <- gets PROGNAME_LEN ;;
  let size := FIXED_LOG_SIZE + plen + variable_len hdr + line_len + 1 in
  r <- _mkmsg size (LOG_LEVEL_STR (hdr_level hdr)) (detail_time hdr)
              (tid hdr) (thread_rank hdr) fname (line_nb hdr) func lname text ;;
  let '(msg, loglen) := r in
  write_line msg loglen.

(** [_log_single_line]: the four strings are pointers into the frame
    [buf], given as offsets. *)
Definition _log_single_line (buf : list ascii) (hdr : log_header_s)
           (filename funcname loggername line : nat) (line_len : nat) : M unit :=
  fname <- read_cstring buf filename ;;
  func <- read_cstring buf funcname ;;
  lname <- read_cstring buf loggername ;;
  text <- read_cstring buf line ;;
  log_line hdr fname func lname text line_len.

(** The loop of [_basename]: the final value of [c]. *)
Fixpoint basename_loop (buf : list ascii) (path c : nat) : M nat :=
  match c with
  | O => ret 0
  | S c' =>
    match buf !! (path + c) with
    | None => abort OutOfBounds
    | Some ch => if Ascii.eqb ch SLASH then ret (c + 1) else basename_loop buf path c'
    end
  end.

(** [_basename(path, path_len)], [path] an offset into [buf]. *)
Definition _basename (buf : list ascii) (path path_len : nat) : M nat :=
  assert_ (0 <? path_len) "path != NULL && path_len > 0" ;;
  c <- basename_loop buf path path_len ;;
  ret (path + c).

(** The [while (true)] loop of [_process_data] that cuts the message into
    lines.  Each pass reads one byte of the frame; a pass that reads past
    the end of the frame aborts, so [S (length buf)] passes always suffice. *)
Fixpoint split_loop (fuel : nat) (hdr : log_header_s)
         (filename funcname loggername : nat)
         (buf : list ascii) (s next len : nat) : M unit :=
  match fuel with
  | O => fun _ => OutOfFuel
  | S fuel' =>
    match buf !! next with
    | None => abort OutOfBounds
    | Some c =>
      if Ascii.eqb c NUL then
        _log_single_line buf hdr filename funcname loggername s len
      else if Ascii.eqb c LF then
        let buf' := <[next := NUL]> buf in
        _log_single_line buf' hdr filename funcname loggername s len ;;
        split_loop fuel' hdr filename funcname loggername buf' (next + 1) (next + 1) 1
      else
        split_loop fuel' hdr filename funcname loggername buf s (next + 1) (len + 1)
    end
  end.

(** The end of [_process_data]: the message is released. *)
Definition release_msg : M bxierr :=
  err <- platform_call bxizmq_err ;;
  (if bxierr_isko err
   then n <- sys_write_call STDERR_FILENO (list_ascii_of_string "[W] Can'") ;;
        assert_ (0 <=? n)%Z "n >= 0"
   else ret tt) ;;
  ret BXIERR_OK.

(** [_process_data] *)
Definition _process_data : M bxierr :=
  rc <- platform_call zmq_rc ;;
  if negb (0 =? rc)%Z then ret (bxierr_errno "Can't initialize message content") else
  rc <- platform_call zmq_rc ;;
  chan <- gets data_channel ;;
  match chan with
  | [] => ret (bxierr_errno "Problem while receiving header")
  | zmsg :: rest =>
    if (rc =? -1)%Z then ret (bxierr_errno "Problem while receiving header") else
    modify (set_data_channel rest) ;;
    let hdr := header zmsg in
    let buf := data zmsg in
    let filename := 0 in
    let funcname := filename + filename_len hdr in
    let loggername := funcname + funcname_len hdr in
    let logmsg := loggername + logname_len hdr in
    filename <- _basename buf filename (filename_len hdr) ;;
    split_loop (S (length buf)) hdr filename funcname loggername buf logmsg logmsg 0 ;;
    release_msg
  end.

(** [_iht_log] *)
Definition _iht_log (l : bxilog_level_e) (str : string) : M bxierr :=
  t <- platform_call bxitime_get ;;
  let '(err, now) := t in
  now <- (if bxierr_isko err
          then fprintf_stderr "Calling bxitime_get() failed" ;;
               ret {| tv_sec := 0; tv_nsec := 0 |}
          else ret now) ;;
  plen <- gets PROGNAME_LEN ;;
  flen <- gets FILENAME_LEN ;;
  fn <- gets FILENAME ;;
  let size := FIXED_LOG_SIZE + plen + flen + S (String.length "_iht_log")
              + S (String.length IHT_LOGGER_NAME) + strlen str + 1 in
  match fn with
  | None => abort InvalidPointer
  | Some fn =>
    itid <- gets (fun w => iht_tid (IHT_DATA w)) ;;
    irank <- gets (fun w => rank (IHT_DATA w)) ;;
    r <- _mkmsg size (LOG_LEVEL_STR l) now itid irank fn 1468 "_iht_log"
                IHT_LOGGER_NAME str ;;
    let '(msg, written) := r in
    out <- gets (fun w => fd (IHT_DATA w)) ;;
    written <- sys_write_call out (take written msg) ;;
    if (written <=? 0)%Z
    then ret (bxierr_errno ("Can't log to " +:+ fn))
    else ret BXIERR_OK
  end.

(** ** What the properties are stated with *)

(** The rule list of the filter scenario. *)
Definition filter_rules : list bxilog_cfg_item_s :=
  [ {| logger_name_prefix := Some ""; cfg_level := BXILOG_LOWEST |};
    {| logger_name_prefix := Some "a"; cfg_level := BXILOG_OUTPUT |};
    {| logger_name_prefix := Some "a.b"; cfg_level := BXILOG_WARNING |} ].

(** A rule matches a logger name when its prefix is a prefix of the name. *)
Definition rule_matches (nm : string) (item : bxilog_cfg_item_s) : bool :=
  match logger_name_prefix item with
  | Some p => String.prefix p nm
  | None => false
  end.

(** The level of the last rule, in list order, that matches the name. *)
Definition last_matching_level (cfg : list bxilog_cfg_item_s) (nm : string)
  : option bxilog_level_e :=
  cfg_level <$> last (List.filter (rule_matches nm) cfg).

(** A prefix that is a C string: no NUL inside. *)
Fixpoint no_nul (s : string) : bool :=
  match s with
  | EmptyString => true
  | String c s' => negb (Ascii.eqb c NUL) && no_nul s'
  end.

Definition cfg_well_formed (cfg : list bxilog_cfg_item_s) : bool :=
  forallb (fun item => match logger_name_prefix item with
                       | Some p => no_nul p
                       | None => false
                       end) cfg.

(** Entry [i] of the registered-loggers array is not [NULL]. *)
Definition entry_nonnull (w : world) (i : nat) : bool :=
  match REGISTERED_LOGGERS w with
  | Some arr => match arr !! i with Some (Some _) => true | _ => false end
  | None => false
  end.

(** The first [REGISTERED_LOGGERS_NB] entries are not [NULL]. *)
Definition entries_nonnull (w : world) : bool :=
  forallb (entry_nonnull w) (seq 0 (REGISTERED_LOGGERS_NB w)).

(** Entry [i] points to a logger object. *)
Definition entry_valid (w : world) (i : nat) : bool :=
  match REGISTERED_LOGGERS w with
  | Some arr =>
    match arr !! i with
    | Some (Some a) => bool_decide (is_Some (loggers w !! a))
    | _ => false
    end
  | None => false
  end.

(** The first [REGISTERED_LOGGERS_NB] entries point to logger objects. *)
Definition entries_valid (w : world) : bool :=
  forallb (entry_valid w) (seq 0 (REGISTERED_LOGGERS_NB w)).

(** The logger at address [a] is registered. *)
Definition registered (w : world) (a : positive) : Prop :=
  exists arr i, REGISTERED_LOGGERS w = Some arr /\ i < REGISTERED_LOGGERS_NB w /\
                arr !! i = Some (Some a).

(** How often the logger [p] occurs among the first [nb] entries. *)
Definition occurrences (w : world) (p : bxilog_p) : nat :=
  match REGISTERED_LOGGERS w with
  | Some arr => length (List.filter (ptr_eqb p) (take (REGISTERED_LOGGERS_NB w) arr))
  | None => 0
  end.

(** The platform's pthread calls all succeed. *)
Definition pthread_ok (w : world) : Prop := forall t, pthread_rc (pf w) t = 0%Z.

(** The locking discipline of the registry, read off a trace: the mutex is
    taken before it is released, never taken twice, every store into the
    registry happens while it is held ([held] tells whether it is held
    before the trace), and it is free at the end. *)
Fixpoint lock_discipline (held : bool) (tr : list event) : bool :=
  match tr with
  | [] => negb held
  | EvLock register_lock :: tr' => negb held && lock_discipline true tr'
  | EvUnlock register_lock :: tr' => held && lock_discipline false tr'
  | EvRegistry :: tr' => held && lock_discipline held tr'
  | _ :: tr' => lock_discipline held tr'
  end.

Definition is_lock (e : event) : bool :=
  match e with EvLock register_lock => true | _ => false end.

(** A platform on which every call succeeds: the clock reads the epoch,
    the handler thread answers [ready!], [write] takes everything. *)
Definition friendly : platform :=
  {| pthread_rc := fun _ => 0%Z;
     bxitime_get := fun _ => (BXIERR_OK, {| tv_sec := 0; tv_nsec := 0 |});
     zmq_ctx_new := fun _ => true;
     zmq_rc := fun _ => 0%Z;
     bxizmq_err := fun _ => BXIERR_OK;
     bxizmq_rcv := fun _ => Some READY_CTRL_MSG_REP;
     pthread_join_retval := fun _ => BXIERR_OK;
     sys_write := fun _ => Some 4096;
     localtime_r := fun _ => Some {| tm_year := 70; tm_mon := 0; tm_mday := 1;
                                     tm_hour := 0; tm_min := 0; tm_sec := 0 |};
     getpid := 4242; gettid := 4243; pthread_self := 7 |}.

(** The process as it starts, with the internal logger as only object. *)
Definition initial_world (p : platform) : world :=
  {| STATE := UNSET; BXILOG_CONTEXT := false;
     FILENAME := None; FILENAME_LEN := 8; PROGNAME := None; PROGNAME_LEN := 8;
     PID := 0; data_url := None; control_url := None;
     TSD_KEY_ONCE := false; ATFORK_ONCE := false; TSD := None;
     IHT_DATA := {| fd := 0; iht_tid := 0; rank := 0 |};
     REGISTERED_LOGGERS_ARRAY_SIZE := 64;
     REGISTERED_LOGGERS := None; REGISTERED_LOGGERS_NB := 0;
     loggers := {[ 1%positive := {| name := "bxibase.log"; name_length := 12;
                                    level := BXILOG_TRACE |} ]};
     data_channel := []; control_channel := []; trace := []; tick := 0; pf := p |}.

Definition new_logger (nm : string) : bxilog_s :=
  {| name := nm; name_length := String.length nm + 1; level := BXILOG_TRACE |}.

(** Four loggers named as in the filter scenario, all registered. *)
Definition scenario_world : world :=
  set_REGISTERED_LOGGERS_NB 4
    (set_REGISTERED_LOGGERS (Some [Some 2; Some 3; Some 4; Some 5]%positive)
       (set_REGISTERED_LOGGERS_ARRAY_SIZE 4
          (set_loggers {[ 2%positive := new_logger "a.b.x";
                          3%positive := new_logger "a.c";
                          4%positive := new_logger "a.b";
                          5%positive := new_logger "z" ]}
             (initial_world friendly)))).

(** The logger address held by entry [i], if the entry is not [NULL]. *)
Definition registered_at (w : world) (i : nat) : option positive :=
  match REGISTERED_LOGGERS w with
  | Some arr => match arr !! i with Some (Some a) => Some a | _ => None end
  | None => None
  end.

(** What one rule does to one logger in [bxilog_cfg_registered]. *)
Definition cfg_upd (p : string) (lv : bxilog_level_e) (lg : bxilog_s) : bxilog_s :=
  if (0 =? strncmp p (name lg) (strlen p))%Z then with_level lv lg else lg.

(** What the rules of [cfg] do to one logger, one after the other. *)
Definition apply_rules (cfg : list bxilog_cfg_item_s) (lg : bxilog_s) : bxilog_s :=
  fold_left (fun lg item =>
               match logger_name_prefix item with
               | Some p => cfg_upd p (cfg_level item) lg
               | None => lg
               end) cfg lg.

(** The filter scenario after [bxilog_cfg_registered(3, filter_rules)]. *)
Definition scenario_configured : world :=
  match bxilog_cfg_registered filter_rules scenario_world with
  | Ret _ w' => w'
  | _ => scenario_world
  end.

(** Two loggers, at addresses 2 and 3, registered one after the other. *)
Definition two_registered : world :=
  let w0 := set_loggers {[ 2%positive := new_logger "first";
                           3%positive := new_logger "second" ]}
                        (initial_world friendly) in
  match (bxilog_register (Some 2%positive) ;; bxilog_register (Some 3%positive)) w0 with
  | Ret _ w' => w'
  | _ => w0
  end.

Definition is_registry_store (e : event) : bool :=
  match e with EvRegistry => true | _ => false end.

(** [two_registered] after [bxilog_unregister] of the first logger. *)
Definition first_unregistered : world :=
  match bxilog_unregister (Some 2%positive) two_registered with
  | Ret _ w' => w'
  | _ => two_registered
  end.

(** Every platform call of the lifecycle succeeds. *)
Definition platform_ok (p : platform) : Prop :=
  (forall t, pthread_rc p t = 0%Z) /\
  (forall t, zmq_ctx_new p t = true) /\
  (forall t, zmq_rc p t = 0%Z) /\
  (forall t, bxizmq_err p t = BXIERR_OK) /\
  (forall t, bxizmq_rcv p t = Some READY_CTRL_MSG_REP) /\
  (forall t, pthread_join_retval p t = BXIERR_OK).

(** The internal logger is a logger object whose [name_length] does not
    exceed the size of its name. *)
Definition internal_logger_ok (w : world) : Prop :=
  exists lg, loggers w !! 1%positive = Some lg /\
             name_length lg <= S (String.length (name lg)).

(** What a logging call leaves untouched. *)
Definition log_frame (w w' : world) : Prop :=
  STATE w' = STATE w /\ pf w' = pf w /\ loggers w' = loggers w /\
  BXILOG_CONTEXT w' = BXILOG_CONTEXT w /\ data_url w' = data_url w /\
  TSD_KEY_ONCE w' = TSD_KEY_ONCE w /\ ATFORK_ONCE w' = ATFORK_ONCE w /\
  control_channel w' = control_channel w /\
  (forall t, TSD w = Some t -> TSD w' = Some t).

(** The process after [bxilog_init("prog", "-")] on the platform [p]. *)
Definition initialized_world (p : platform) : world :=
  match bxilog_init 0 (Some "prog") (Some "-") (initial_world p) with
  | Ret _ w' => w'
  | _ => initial_world p
  end.

(** A platform whose clock cannot be read. *)
Definition clockless : platform :=
  {| pthread_rc := pthread_rc friendly;
     bxitime_get := fun _ => (bxierr_errno "Calling clock_gettime() failed",
                              {| tv_sec := 0; tv_nsec := 0 |});
     zmq_ctx_new := zmq_ctx_new friendly;
     zmq_rc := zmq_rc friendly;
     bxizmq_err := bxizmq_err friendly;
     bxizmq_rcv := bxizmq_rcv friendly;
     pthread_join_retval := pthread_join_retval friendly;
     sys_write := sys_write friendly;
     localtime_r := localtime_r friendly;
     getpid := getpid friendly; gettid := gettid friendly;
     pthread_self := pthread_self friendly |}.

(** A platform on which the handler thread hands back an error when it is
    joined. *)
Definition handler_failed : platform :=
  {| pthread_rc := pthread_rc friendly;
     bxitime_get := bxitime_get friendly;
     zmq_ctx_new := zmq_ctx_new friendly;
     zmq_rc := zmq_rc friendly;
     bxizmq_err := bxizmq_err friendly;
     bxizmq_rcv := bxizmq_rcv friendly;
     pthread_join_retval := fun _ => bxierr_gen "Too many errors, aborting.";
     sys_write := sys_write friendly;
     localtime_r := localtime_r friendly;
     getpid := getpid friendly; gettid := gettid friendly;
     pthread_self := pthread_self friendly |}.



(** The basename of a path: what follows its last ['/'], the whole path
    when it has none. *)
Fixpoint has_slash (s : string) : bool :=
  match s with
  | EmptyString => false
  | String c s' => Ascii.eqb c SLASH || has_slash s'
  end.

Fixpoint basename_spec (s : string) : string :=
  match s with
  | EmptyString => EmptyString
  | String c s' =>
    if has_slash s' then basename_spec s'
    else if Ascii.eqb c SLASH then s' else s
  end.

(** The bytes of a C string, with its NUL. *)
Definition c_str (s : string) : list ascii := list_ascii_of_string s ++ [NUL].

(** The frame the producer builds for a record. *)
Definition make_frame (l : bxilog_level_e) (now : timespec) (tid' rank' line : Z)
           (filename funcname loggername msg : string) : frame :=
  {| header := {| hdr_level := l; detail_time := now; tid := tid';
                  thread_rank := rank'; line_nb := line;
                  filename_len := S (String.length filename);
                  funcname_len := S (String.length funcname);
                  logname_len := S (String.length loggername);
                  variable_len := S (String.length filename)
                                  + S (String.length funcname)
                                  + S (String.length loggername);
                  logmsg_len := S (String.length msg) |};
     data := c_str filename ++ c_str funcname ++ c_str loggername ++ c_str msg |}.

(** The handler's view of the process [initialized_world p], writing to
    standard output, with the frames [frames] on the data channel. *)
Definition handler_world (p : platform) (frames : list frame) : world :=
  set_data_channel frames
    (set_IHT_DATA {| fd := STDOUT_FILENO; iht_tid := 4244; rank := 8 |}
       (set_trace [] (initialized_world p))).

(** The buffers written to the file descriptor [fildes], in order. *)
Definition writes_to (fildes : Z) (tr : list event) : list (list ascii) :=
  omap (fun e => match e with
                 | EvWrite f buf _ => if (f =? fildes)%Z then Some buf else None
                 | _ => None
                 end) tr.

(** A platform whose [write] takes three bytes at a time. *)
Definition short_writer : platform :=
  {| pthread_rc := pthread_rc friendly;
     bxitime_get := bxitime_get friendly;
     zmq_ctx_new := zmq_ctx_new friendly;
     zmq_rc := zmq_rc friendly;
     bxizmq_err := bxizmq_err friendly;
     bxizmq_rcv := bxizmq_rcv friendly;
     pthread_join_retval := pthread_join_retval friendly;
     sys_write := fun _ => Some 3;
     localtime_r := localtime_r friendly;
     getpid := getpid friendly; gettid := gettid friendly;
     pthread_self := pthread_self friendly |}.

(** The note [_log_single_line] writes to standard error. *)
Definition cant_write_note (w : world) : list ascii :=
  list_ascii_of_string ("[W] Can't write to " +:+ default "(null)" (FILENAME w)
                        +:+ ", writing to stderr instead." +:+ String LF "")
  ++ [NUL].

(** The result of [write(2)] of [buf] when the platform answers [r]. *)
Definition write_result (r : option nat) (buf : list ascii) : Z :=
  match r with
  | None => (-1)%Z
  | Some k => Z.of_nat (Nat.min k (length buf))
  end.

(** A platform whose first [write] fails and whose later ones succeed. *)
Definition first_write_fails : platform :=
  {| pthread_rc := pthread_rc friendly;
     bxitime_get := bxitime_get friendly;
     zmq_ctx_new := zmq_ctx_new friendly;
     zmq_rc := zmq_rc friendly;
     bxizmq_err := bxizmq_err friendly;
     bxizmq_rcv := bxizmq_rcv friendly;
     pthread_join_retval := pthread_join_retval friendly;
     sys_write := fun t => match t with O => None | S _ => Some 4096 end;
     localtime_r := localtime_r friendly;
     getpid := getpid friendly; gettid := gettid friendly;
     pthread_self := pthread_self friendly |}.

Definition epoch : timespec := {| tv_sec := 0; tv_nsec := 0 |}.

(** A record logged from [/foo.c], line 10. *)
Definition slash_frame : frame :=
  make_frame BXILOG_INFO epoch 4243 7 10 "/foo.c" "fn" "l" "hello".

(** A record with a two-line message, logged from [src/a.c], line 10. *)
Definition two_line_frame : frame :=
  make_frame BXILOG_INFO epoch 4243 7 10 "src/a.c" "fn" "l"
             ("x" +:+ String LF "y").

(** The same message logged from line 10000 of [a.c]. *)
Definition far_line_frame : frame :=
  make_frame BXILOG_INFO epoch 4243 7 10000 "a.c" "fn" "l"
             ("x" +:+ String LF "y").

(** The same message logged from line 1000 of [a.c]. *)
Definition line_1000_frame : frame :=
  make_frame BXILOG_INFO epoch 4243 7 1000 "a.c" "fn" "l"
             ("x" +:+ String LF "y").

Definition trace_of {A : Type} (o : outcome A) : list event :=
  match o with
  | Ret _ w => trace w
  | Abort _ w => trace w
  | OutOfFuel => []
  end.



(** The number of line feeds of a message. *)
Fixpoint count_lf (l : list ascii) : nat :=
  match l with
  | [] => 0
  | c :: l' => (if Ascii.eqb c LF then 1 else 0) + count_lf l'
  end.


(** No NUL in a list of bytes. *)
Definition nul_free (l : list ascii) : Prop := Forall (fun c => c <> NUL) l.

(** The line [LOG_FMT] makes of one segment of a record, in the process
    [w] and the time zone of its platform. *)
Definition render (w : world) (hdr : log_header_s) (fname func lname : string)
           (seg : list ascii) : option string :=
  match localtime_r (pf w) (tv_sec (detail_time hdr)), PROGNAME w with
  | Some now, Some prog =>
    Some (log_fmt (LOG_LEVEL_STR (hdr_level hdr)) now (tv_nsec (detail_time hdr))
                  (PID w) (tid hdr) (thread_rank hdr) prog fname (line_nb hdr)
                  func lname (string_of_list_ascii seg))
  | _, _ => None
  end.




(** ** A registry with a hole *)

(** Two loggers of the filter scenario, [a.c] at address 2 and [a.b.x] at
    address 3, not registered yet. *)
Definition filter_pair : world :=
  set_loggers {[ 2%positive := new_logger "a.c";
                 3%positive := new_logger "a.b.x" ]}
              (initial_world friendly).

(** [filter_pair] after [bxilog_register] of the two loggers. *)
Definition filter_pair_registered : world :=
  match (bxilog_register (Some 2%positive) ;; bxilog_register (Some 3%positive))
          filter_pair with
  | Ret _ w' => w'
  | _ => filter_pair
  end.

(** [filter_pair_registered] after [bxilog_unregister] of the first
    logger: the second is the only registered logger. *)
Definition filter_pair_unregistered : world :=
  match bxilog_unregister (Some 2%positive) filter_pair_registered with
  | Ret _ w' => w'
  | _ => filter_pair_registered
  end.
(** ** Level names *)

(** [_LOG_LEVEL_NAMES] *)
Definition _LOG_LEVEL_NAMES : list string :=
  ["panic"; "alert"; "critical"; "error"; "warning"; "notice"; "output"; "info";
   "debug"; "fine"; "trace"; "lowest"].

(** [bxilog_get_all_level_names]: [*names] and the returned count. *)
Definition bxilog_get_all_level_names : list string * nat :=
  (_LOG_LEVEL_NAMES, length _LOG_LEVEL_NAMES).

(** [tolower(3)] in the C locale. *)
Definition tolower (c : ascii) : ascii :=
  let n := nat_of_ascii c in
  if (65 <=? n) && (n <=? 90) then ascii_of_nat (n + 32) else c.

(** [strncasecmp(s1, s2, n)]: as [strncmp], on the lower-cased bytes. *)
Fixpoint strncasecmp (s1 s2 : string) (n : nat) : Z :=
  match n with
  | O => 0%Z
  | S n' =>
    let c1 := tolower (char0 s1) in
    let c2 := tolower (char0 s2) in
    if negb (Ascii.eqb c1 c2)
    then (Z.of_nat (nat_of_ascii c1) - Z.of_nat (nat_of_ascii c2))%Z
    else if Ascii.eqb c1 NUL then 0%Z
    else strncasecmp (str_tail s1) (str_tail s2) n'
  end.

Definition strcasecmp (s1 s2 : string) : Z :=
  strncasecmp s1 s2 (S (Nat.max (strlen s1) (strlen s2))).

(** [bxilog_get_level_from_str(level_str, &level)]: the returned error and
    the value left in [*level]. *)
Definition bxilog_get_level_from_str (level_str : string) : bxierr * bxilog_level_e :=
  let same (nm : string) := (0 =? strcasecmp nm level_str)%Z in
  if same "panic" || same "emergency" then (BXIERR_OK, BXILOG_PANIC)
  else if same "alert" then (BXIERR_OK, BXILOG_ALERT)
  else if same "critical" || same "crit" then (BXIERR_OK, BXILOG_CRIT)
  else if same "error" || same "err" then (BXIERR_OK, BXILOG_ERR)
  else if same "warning" || same "warn" then (BXIERR_OK, BXILOG_WARN)
  else if same "notice" then (BXIERR_OK, BXILOG_NOTICE)
  else if same "output" || same "out" then (BXIERR_OK, BXILOG_OUTPUT)
  else if same "info" then (BXIERR_OK, BXILOG_INFO)
  else if same "debug" then (BXIERR_OK, BXILOG_DEBUG)
  else if same "fine" then (BXIERR_OK, BXILOG_FINE)
  else if same "trace" then (BXIERR_OK, BXILOG_TRACE)
  else if same "lowest" then (BXIERR_OK, BXILOG_LOWEST)
  else (bxierr_gen ("Bad log level name: " +:+ level_str), BXILOG_LOWEST).

(** The name of a level in [_LOG_LEVEL_NAMES]. *)
Definition level_name (l : bxilog_level_e) : string :=
  nth (Z.to_nat (level_num l)) _LOG_LEVEL_NAMES "".

(** A string with its letters in lower case. *)
Fixpoint lower (s : string) : string :=
  match s with
  | EmptyString => EmptyString
  | String c s' => String (tolower c) (lower s')
  end.

(** The names [bxilog_get_level_from_str] knows, with their levels. *)
Definition level_aliases : list (string * bxilog_level_e) :=
  [("panic", BXILOG_PANIC); ("emergency", BXILOG_PANIC); ("alert", BXILOG_ALERT);
   ("critical", BXILOG_CRIT); ("crit", BXILOG_CRIT); ("error", BXILOG_ERR);
   ("err", BXILOG_ERR); ("warning", BXILOG_WARN); ("warn", BXILOG_WARN);
   ("notice", BXILOG_NOTICE); ("output", BXILOG_OUTPUT); ("out", BXILOG_OUTPUT);
   ("info", BXILOG_INFO); ("debug", BXILOG_DEBUG); ("fine", BXILOG_FINE);
   ("trace", BXILOG_TRACE); ("lowest", BXILOG_LOWEST)]%string.

(** The level listed for a lower-case name. *)
Fixpoint alias_level (al : list (string * bxilog_level_e)) (s : string)
  : option bxilog_level_e :=
  match al with
  | [] => None
  | (nm, l) :: rest => if String.eqb nm s then Some l else alias_level rest s
  end.
(** ** The registry, well formed *)

(** The array of registered loggers, when it is allocated, has
    [REGISTERED_LOGGERS_ARRAY_SIZE] slots and the counter does not exceed
    them; when it is not, the counter is 0. *)
Definition registry_wf (w : world) : Prop :=
  0 < REGISTERED_LOGGERS_ARRAY_SIZE w /\
  match REGISTERED_LOGGERS w with
  | Some arr => length arr = REGISTERED_LOGGERS_ARRAY_SIZE w /\
                REGISTERED_LOGGERS_NB w <= REGISTERED_LOGGERS_ARRAY_SIZE w
  | None => REGISTERED_LOGGERS_NB w = 0
  end.

(** What the process did between the states [w] and [w']. *)
Definition trace_since (w w' : world) : list event :=
  drop (length (trace w)) (trace w').
(** ** Logger objects and the rank of a thread *)

(** [strdup(s)]: the bytes of [s] up to its first NUL. *)
Fixpoint strdup (s : string) : string :=
  match s with
  | EmptyString => EmptyString
  | String c s' => if Ascii.eqb c NUL then EmptyString else String c (strdup s')
  end.

(** Modelled from the spec: [bximem_calloc] of [bxi/base/mem.h], for a
    logger object: it hands back the address of a block that was not
    allocated. *)
Definition bximem_calloc : M positive :=
  gets (fun w => fresh (dom (loggers w))).

(** [bxilog_new(logger_name)] *)
Definition bxilog_new (logger_name : string) : M bxilog_p :=
  self <- bximem_calloc ;;
  modify (fun w => set_loggers
                     (<[self := {| name := strdup logger_name;
                                   name_length := strlen logger_name + 1;
                                   level := BXILOG_TRACE |}]> (loggers w)) w) ;;
  ret (Some self).

(** Modelled from the spec: the macro [BXIFREE] of [bxi/base/mem.h]
    releases the block and stores [NULL] in the pointer.
    [bxilog_destroy(self_p)]: [p] is the pointer [*self_p] holds, the result
    is what it holds afterwards. *)
Definition bxilog_destroy (p : bxilog_p) : M bxilog_p :=
  _ <- deref p ;;
  match p with
  | None => abort InvalidPointer
  | Some a => modify (fun w => set_loggers (delete a (loggers w)) w)
  end ;;
  ret None.

(** [bxilog_set_thread_rank(rank)].  The parameter is a [uint16_t]: the
    value the caller gives is reduced modulo 2^16 when it is passed. *)
Definition bxilog_set_thread_rank (rank : Z) : M bxierr :=
  let rank := (rank mod 65536)%Z in
  r <- _get_tsd ;;
  let '(err, tsd) := r in
  if bxierr_isko err then ret err else
  modify (fun w =>
    set_TSD (match TSD w with
             | Some t => Some {| tsd_tid := tsd_tid t;
                                 tsd_thread_rank := rank;
                                 tsd_freed := tsd_freed t |}
             | None => None
             end) w) ;;
  ret BXIERR_OK.

(** [bxilog_get_thread_rank(rank_p)]: the error and what is stored in
    [*rank_p], if anything. *)
Definition bxilog_get_thread_rank : M (bxierr * option Z) :=
  r <- _get_tsd ;;
  let '(err, tsd) := r in
  if bxierr_isko err then ret (err, None) else
  ret (BXIERR_OK, Some (tsd_thread_rank tsd)).

(** The frames a run put on the data channel. *)
Definition frames_since (w w' : world) : list frame :=
  drop (length (data_channel w)) (data_channel w').
(** ** The fork handlers *)

(** [error(status, 0, msg)] of glibc: the message goes to standard error
    and, [status] not being 0, the process exits with it. *)
Definition error_ (status : Z) (msg : string) : M unit :=
  fprintf_stderr msg ;;
  if (status =? 0)%Z then ret tt else abort (ProcessExit status).

(** [_parent_before_fork] *)
Definition _parent_before_fork (fuel : nat) : M unit :=
  st <- gets STATE ;;
  (if state_eqb INITIALIZING st || state_eqb FINALIZING st
   then error_ EX_SOFTWARE ("Forking while bxilog is in state "
                            +:+ pretty (state_num st) +:+ "! Aborting.")
   else ret tt) ;;
  st <- gets STATE ;;
  if negb (state_eqb INITIALIZED st) then ret tt else
  DEBUG fuel BXILOG_INTERNAL_LOGGER "_parent_before_fork" 1660
        ("Preparing for a fork() (state == " +:+ pretty (state_num st) +:+ ")") ;;
  _ <- _finalize ;;
  st <- gets STATE ;;
  (if negb (state_eqb FINALIZING st)
   then error_ EX_SOFTWARE ("Forking should leads bxilog to reach state "
                            +:+ pretty (state_num FINALIZING)
                            +:+ " (current state is " +:+ pretty (state_num st) +:+ ")!")
   else ret tt) ;;
  modify (set_STATE FORKED).

(** [_parent_after_fork] *)
Definition _parent_after_fork (fuel : nat) : M unit :=
  st <- gets STATE ;;
  if negb (state_eqb FORKED st) then ret tt else
  modify (set_STATE FINALIZED) ;;
  _ <- _init ;;
  st <- gets STATE ;;
  (if negb (state_eqb INITIALIZING st)
   then error_ EX_SOFTWARE ("Forking should leads bxilog to reach state "
                            +:+ pretty (state_num INITIALIZING)
                            +:+ " (current state is " +:+ pretty (state_num st) +:+ ")!")
   else ret tt) ;;
  modify (set_STATE INITIALIZED) ;;
  DEBUG fuel BXILOG_INTERNAL_LOGGER "_parent_after_fork" 1683 "Ready after a fork()".

(** [_child_after_fork] *)
Definition _child_after_fork : M unit :=
  st <- gets STATE ;;
  if negb (state_eqb FORKED st) then ret tt else
  modify (set_FILENAME None) ;;
  modify (set_PROGNAME None) ;;
  modify (set_STATE FINALIZED).

(** The messages a run wrote with [fprintf(stderr, ...)] and [error]. *)
Definition stderr_since (w w' : world) : list string :=
  omap (fun e => match e with EvStderr s => Some s | _ => None end) (trace_since w w').

(** What [bxilog_init] needs to succeed, besides a platform that works. *)
Definition ready_for_init (w : world) : Prop :=
  (STATE w = UNSET \/ STATE w = FINALIZED) /\
  BXILOG_CONTEXT w = false /\ TSD_KEY_ONCE w = false /\ internal_logger_ok w.
(** ** Exiting, asserting and reporting *)

(** Modelled from the spec: the macro [bxilog_log] of [bxi/base/log.h],
    with the place of the call given by the caller: the record is emitted
    only when the logger is enabled for the level, and the error of the
    logging call is dropped. *)
Definition bxilog_log_at (fuel : nat) (logger : bxilog_p) (l : bxilog_level_e)
           (file : string) (filelen : nat) (func : string) (funclen : nat)
           (line : Z) (msg : string) : M unit :=
  enabled <- bxilog_is_enabled_for logger l ;;
  if enabled
  then _ <- bxilog_log_nolevelcheck fuel logger l file filelen func funclen line msg ;;
       ret tt
  else ret tt.

(** Modelled from the spec: [bxitime_sleep] of [bxi/base/time.h], a call
    into the platform; its caller destroys the error it returns. *)
Definition bxitime_sleep : M unit := platform_call (fun _ _ => tt).

Section Exit.

(** What [bxi/base/err.h], absent from the sources, provides: the text of
    an error ([bxierr_str], [bxierr_str_limit] with BXIERR_ALL_CAUSES), the
    code of a failed assertion and the text that ends its message. *)
Variable bxierr_str : bxierr -> string.
Variable BXIASSERT_CODE : bxierr_code.
Variable BXIBUG_STD_MSG : string.

(** [bxilog_exit].  The error of [bxitime_sleep] and that of
    [bxilog_flush] are destroyed; the function ends in [exit(exit_code)]. *)
Definition bxilog_exit (fuel : nat) (exit_code : Z) (err : bxierr) (logger : bxilog_p)
           (l : bxilog_level_e) (file : string) (filelen : nat)
           (func : string) (funclen : nat) (line : Z) : M unit :=
  assert_ (negb (is_null logger)) "NULL != logger" ;;
  let str := bxierr_str err in
  bxilog_log_at fuel logger l file filelen func funclen line
                ("Exiting with code " +:+ fmt_d exit_code +:+ ", Error is: " +:+ str) ;;
  bxitime_sleep ;;
  _ <- bxilog_flush fuel ;;
  abort (ProcessExit exit_code).

(** [bxilog_assert] *)
Definition bxilog_assert (fuel : nat) (logger : bxilog_p) (result : bool)
           (file : string) (filelen : nat) (func : string) (funclen : nat)
           (line : Z) (expr : string) : M unit :=
  if negb result then
    let err := bxierr_new BXIASSERT_CODE
                 ("From file " +:+ file +:+ ":" +:+ fmt_d line +:+ ": assertion "
                  +:+ expr +:+ " is false." +:+ BXIBUG_STD_MSG) in
    bxilog_exit fuel EX_SOFTWARE err logger BXILOG_CRITICAL file filelen func funclen line
  else ret tt.

(** [bxilog_report]; [msg] is what [bxistr_vnew] makes of [fmt] and its
    arguments. *)
Definition bxilog_report (fuel : nat) (logger : bxilog_p) (l : bxilog_level_e)
           (err : bxierr) (file : string) (filelen : nat)
           (func : string) (funclen : nat) (line : Z) (msg : string) : M unit :=
  enabled <- bxilog_is_enabled_for logger l ;;
  if enabled && bxierr_isko err then
    logerr <- bxilog_log_nolevelcheck fuel logger l file filelen func funclen line
                                      (msg +:+ ": " +:+ bxierr_str err) ;;
    if bxierr_isko logerr
    then fprintf_stderr ("Can't produce a log: " +:+ bxierr_str logerr)
    else ret tt
  else ret tt.

End Exit.
(** ** Other platforms and what a run leaves behind *)

(** The process [w] on the platform [p]. *)
Definition with_platform (p : platform) (w : world) : world :=
  {| STATE := STATE w; BXILOG_CONTEXT := BXILOG_CONTEXT w;
     FILENAME := FILENAME w; FILENAME_LEN := FILENAME_LEN w;
     PROGNAME := PROGNAME w; PROGNAME_LEN := PROGNAME_LEN w;
     PID := PID w; data_url := data_url w; control_url := control_url w;
     TSD_KEY_ONCE := TSD_KEY_ONCE w; ATFORK_ONCE := ATFORK_ONCE w; TSD := TSD w;
     IHT_DATA := IHT_DATA w;
     REGISTERED_LOGGERS_ARRAY_SIZE := REGISTERED_LOGGERS_ARRAY_SIZE w;
     REGISTERED_LOGGERS := REGISTERED_LOGGERS w;
     REGISTERED_LOGGERS_NB := REGISTERED_LOGGERS_NB w;
     loggers := loggers w;
     data_channel := data_channel w; control_channel := control_channel w;
     trace := trace w; tick := tick w; pf := p |}.

(** A platform on which the handler thread answers [flushed!]. *)
Definition flushing : platform :=
  {| pthread_rc := pthread_rc friendly;
     bxitime_get := bxitime_get friendly;
     zmq_ctx_new := zmq_ctx_new friendly;
     zmq_rc := zmq_rc friendly;
     bxizmq_err := bxizmq_err friendly;
     bxizmq_rcv := fun _ => Some FLUSH_CTRL_MSG_REP;
     pthread_join_retval := pthread_join_retval friendly;
     sys_write := sys_write friendly;
     localtime_r := localtime_r friendly;
     getpid := getpid friendly; gettid := gettid friendly;
     pthread_self := pthread_self friendly |}.

(** An outcome that is not a return. *)
Definition stopped {A : Type} (o : outcome A) : Prop :=
  match o with Ret _ _ => False | _ => True end.

(** The size [_log_single_line] gives the buffer of a line. *)
Definition line_buffer_size (w : world) (hdr : log_header_s) (line_len : nat) : nat :=
  FIXED_LOG_SIZE + PROGNAME_LEN w + variable_len hdr + line_len + 1.



(** The buffers of all the [write] calls of a trace, with their file
    descriptors. *)
Definition all_writes (tr : list event) : list (Z * list ascii) :=
  omap (fun e => match e with EvWrite f buf _ => Some (f, buf) | _ => None end) tr.
(** ** Proofs: C strings *)

Lemma nat_of_ascii_inj (c d : ascii) : nat_of_ascii c = nat_of_ascii d -> c = d.
Proof.
  intros H. rewrite <- (ascii_nat_embedding c), <- (ascii_nat_embedding d).
  now rewrite H.
Qed.

Lemma strncmp_prefix (p s : string) :
  no_nul p = true ->
  (0 =? strncmp p s (strlen p))%Z = String.prefix p s.
Proof.
  revert s. induction p as [|c p IH]; intros s Hp.
  - destruct s; reflexivity.
  - cbn [no_nul] in Hp. apply andb_true_iff in Hp as [Hc Hp].
    apply negb_true_iff in Hc. cbn [strlen]. rewrite Hc. cbn [strncmp char0 str_tail].
    destruct s as [|d s]; cbn [char0 str_tail String.prefix].
    + rewrite Hc. cbn [negb].
      destruct (Z.eqb_spec 0 (Z.of_nat (nat_of_ascii c) - Z.of_nat (nat_of_ascii NUL))) as [E|E];
        [|reflexivity].
      exfalso. apply Ascii.eqb_neq in Hc. apply Hc, nat_of_ascii_inj. lia.
    + destruct (ascii_dec c d) as [->|Hcd].
      * rewrite Ascii.eqb_refl. cbn [negb]. rewrite Hc. apply IH, Hp.
      * apply Ascii.eqb_neq in Hcd as Hcd'. rewrite Hcd'. cbn [negb].
        destruct (Z.eqb_spec 0 (Z.of_nat (nat_of_ascii c) - Z.of_nat (nat_of_ascii d))) as [E|E];
          [|reflexivity].
        exfalso. apply Hcd, nat_of_ascii_inj. lia.
Qed.

(** ** Proofs: the monad *)

Lemma bind_Ret {A B : Type} (m : M A) (k : A -> M B) (w w1 : world) (a : A) :
  m w = Ret a w1 -> bind m k w = k a w1.
Proof. intros H. unfold bind. now rewrite H. Qed.


Ltac munfold :=
  unfold pthread_mutex_lock, pthread_mutex_unlock, fprintf_stderr, assert_, emit,
         platform_call, abort, modify, gets, ret, bind in *.

(** Reduce the projections of updated worlds, and nothing else. *)
Ltac wsimpl :=
  cbn [
       STATE BXILOG_CONTEXT FILENAME FILENAME_LEN PROGNAME PROGNAME_LEN PID
       data_url control_url TSD_KEY_ONCE ATFORK_ONCE TSD IHT_DATA
       REGISTERED_LOGGERS_ARRAY_SIZE REGISTERED_LOGGERS REGISTERED_LOGGERS_NB
       loggers data_channel control_channel trace tick pf set_STATE
       set_BXILOG_CONTEXT set_FILENAME set_FILENAME_LEN set_PROGNAME
       set_PROGNAME_LEN set_PID set_data_url set_control_url set_TSD_KEY_ONCE
       set_ATFORK_ONCE set_TSD set_IHT_DATA set_REGISTERED_LOGGERS_ARRAY_SIZE
       set_REGISTERED_LOGGERS set_REGISTERED_LOGGERS_NB set_loggers
       set_data_channel set_control_channel set_trace set_tick] in *.

Ltac mstep1 :=
  munfold; cbv beta iota in *; wsimpl;
  cbn [negb andb orb bxierr_isko bxierr_isok bxierr_code_of] in *.

Ltac mstep := mstep1; repeat (progress mstep1).
(** ** Proofs: the registry *)

Lemma entries_valid_spec (w : world) :
  entries_valid w = true <->
  forall i, i < REGISTERED_LOGGERS_NB w ->
            exists a lg, registered_at w i = Some a /\ loggers w !! a = Some lg.
Proof.
  unfold entries_valid. rewrite forallb_forall. split.
  - intros H i Hi. specialize (H i). rewrite in_seq in H.
    assert (Hv : entry_valid w i = true) by (apply H; lia).
    unfold entry_valid in Hv. unfold registered_at.
    destruct (REGISTERED_LOGGERS w) as [arr|]; [|discriminate].
    destruct (arr !! i) as [[a|]|]; try discriminate.
    apply bool_decide_eq_true in Hv as [lg Hlg]. eauto.
  - intros H i Hi. apply in_seq in Hi. destruct (H i) as (a & lg & Ha & Hlg); [lia|].
    unfold entry_valid. unfold registered_at in Ha.
    destruct (REGISTERED_LOGGERS w) as [arr|]; [|discriminate].
    destruct (arr !! i) as [[a'|]|]; try discriminate.
    injection Ha as ->. apply bool_decide_eq_true. eauto.
Qed.

Lemma cfg_upd_idem (p : string) (lv : bxilog_level_e) (lg : bxilog_s) :
  cfg_upd p lv (cfg_upd p lv lg) = cfg_upd p lv lg.
Proof.
  unfold cfg_upd. destruct (0 =? strncmp p (name lg) (strlen p))%Z eqn:E.
  - change (name (with_level lv lg)) with (name lg). now rewrite E.
  - now rewrite E.
Qed.

Lemma cfg_upd_name (p : string) (lv : bxilog_level_e) (lg : bxilog_s) :
  name (cfg_upd p lv lg) = name lg.
Proof. unfold cfg_upd. now destruct (0 =? _)%Z. Qed.

(** One iteration of the inner loop leaves the logger at entry [l] updated
    by the rule, and nothing else changed in the heap of loggers. *)
Lemma cfg_loggers_step (p : string) (lv : bxilog_level_e) (l : nat) (w : world)
      (a : positive) (lg : bxilog_s) (k : unit -> M unit) :
  registered_at w l = Some a -> loggers w !! a = Some lg ->
  exists w1,
    ((logger <- registered_load l ;;
      lg <- deref logger ;;
      (if (0 =? strncmp p (name lg) (strlen p))%Z
       then emit EvRegistry ;; store_level logger lv
       else ret tt) ;;
      k tt) w = k tt w1) /\
    REGISTERED_LOGGERS w1 = REGISTERED_LOGGERS w /\
    REGISTERED_LOGGERS_NB w1 = REGISTERED_LOGGERS_NB w /\
    pf w1 = pf w /\
    loggers w1 = <[a := cfg_upd p lv lg]> (loggers w).
Proof.
  intros Ha Hlg. unfold registered_at in Ha.
  destruct (REGISTERED_LOGGERS w) as [arr|] eqn:Harr; [|discriminate].
  destruct (arr !! l) as [[a'|]|] eqn:Hl; try discriminate. injection Ha as ->.
  unfold cfg_upd. destruct (0 =? strncmp p (name lg) (strlen p))%Z eqn:E.
  - eexists. split.
    + unfold registered_load, store_level, deref. mstep.
      rewrite Harr. mstep. rewrite Hl. mstep. rewrite Hlg. mstep. rewrite E. mstep.
      rewrite Hlg. reflexivity.
    + cbn. auto.
  - exists w. split.
    + unfold registered_load, deref. mstep.
      rewrite Harr. mstep. rewrite Hl. mstep. rewrite Hlg. mstep. rewrite E. reflexivity.
    + repeat split; auto. symmetry. now apply insert_id.
Qed.

Lemma cfg_loggers_loop_spec (p : string) (lv : bxilog_level_e) (k : nat) :
  forall (l : nat) (w : world),
    (forall i, l <= i < l + k ->
               exists a lg, registered_at w i = Some a /\ loggers w !! a = Some lg) ->
    exists w',
      cfg_loggers_loop p (strlen p) lv k l w = Ret tt w' /\
      REGISTERED_LOGGERS w' = REGISTERED_LOGGERS w /\
      REGISTERED_LOGGERS_NB w' = REGISTERED_LOGGERS_NB w /\
      pf w' = pf w /\
      (forall a, loggers w' !! a = loggers w !! a \/
                 loggers w' !! a = cfg_upd p lv <$> loggers w !! a) /\
      (forall i a, l <= i < l + k -> registered_at w i = Some a ->
                   loggers w' !! a = cfg_upd p lv <$> loggers w !! a).
Proof.
  induction k as [|k IH]; intros l w Hval.
  - exists w. cbn. repeat split; auto. intros; lia.
  - destruct (Hval l) as (a & lg & Ha & Hlg); [lia|].
    cbn [cfg_loggers_loop].
    destruct (cfg_loggers_step p lv l w a lg
                (fun _ => cfg_loggers_loop p (strlen p) lv k (S l)) Ha Hlg)
      as (w1 & Hstep & Harr1 & Hnb1 & Hpf1 & Hheap1).
    rewrite Hstep.
    assert (Hreg1 : forall i, registered_at w1 i = registered_at w i)
      by (intros i; unfold registered_at; now rewrite Harr1).
    destruct (IH (S l) w1) as (w' & Hrun & Harr' & Hnb' & Hpf' & Hany & Hrange).
    { intros i Hi. destruct (Hval i) as (a' & lg' & Ha' & Hlg'); [lia|].
      rewrite Hreg1, Hheap1. destruct (decide (a = a')) as [<-|Hne].
      - exists a, (cfg_upd p lv lg). now rewrite lookup_insert_eq.
      - exists a', lg'. now rewrite lookup_insert_ne. }
    exists w'. split; [exact Hrun|].
    split; [congruence|]. split; [congruence|]. split; [congruence|].
    assert (Hat : forall a0, loggers w' !! a0 = loggers w1 !! a0 \/
                             loggers w' !! a0 = cfg_upd p lv <$> loggers w1 !! a0 ->
                             a0 = a -> loggers w' !! a0 = cfg_upd p lv <$> loggers w !! a0).
    { intros a0 H ->. rewrite Hheap1, lookup_insert_eq in H. rewrite Hlg. cbn in *.
      rewrite cfg_upd_idem in H. now destruct H. }
    split.
    + intros a0. destruct (decide (a0 = a)) as [->|Hne].
      * right. now apply Hat.
      * specialize (Hany a0). rewrite Hheap1, lookup_insert_ne in Hany by congruence.
        exact Hany.
    + intros i a0 Hi Ha0. destruct (decide (a0 = a)) as [->|Hne].
      * now apply Hat.
      * assert (i <> l) by (intros ->; congruence).
        rewrite (Hrange i a0); [|lia|now rewrite Hreg1].
        now rewrite Hheap1, lookup_insert_ne by congruence.
Qed.

Lemma apply_rules_cons (item : bxilog_cfg_item_s) (rest : list bxilog_cfg_item_s)
      (lg : bxilog_s) (p : string) :
  logger_name_prefix item = Some p ->
  apply_rules (item :: rest) lg = apply_rules rest (cfg_upd p (cfg_level item) lg).
Proof. intros H. unfold apply_rules. cbn. now rewrite H. Qed.

Lemma cfg_items_loop_spec (cfg : list bxilog_cfg_item_s) :
  forall w : world,
    cfg_well_formed cfg = true ->
    (forall i, i < REGISTERED_LOGGERS_NB w ->
               exists a lg, registered_at w i = Some a /\ loggers w !! a = Some lg) ->
    exists w',
      cfg_items_loop cfg w = Ret tt w' /\
      REGISTERED_LOGGERS w' = REGISTERED_LOGGERS w /\
      REGISTERED_LOGGERS_NB w' = REGISTERED_LOGGERS_NB w /\
      pf w' = pf w /\
      (forall i a, i < REGISTERED_LOGGERS_NB w -> registered_at w i = Some a ->
                   loggers w' !! a = apply_rules cfg <$> loggers w !! a).
Proof.
  induction cfg as [|item rest IH]; intros w Hwf Hval.
  - exists w. cbn. repeat split; auto. intros i a Hi Ha.
    destruct (Hval i Hi) as (a' & lg & Ha' & Hlg).
    assert (a' = a) by congruence. subst. now rewrite Hlg.
  - cbn [cfg_well_formed forallb] in Hwf. apply andb_true_iff in Hwf as [Hitem Hwf].
    destruct (logger_name_prefix item) as [p|] eqn:Hp; [|discriminate].
    cbn [cfg_items_loop]. rewrite Hp.
    destruct (cfg_loggers_loop_spec p (cfg_level item) (REGISTERED_LOGGERS_NB w) 0 w)
      as (w1 & Hrun & Harr1 & Hnb1 & Hpf1 & Hany & Hrange).
    { intros i Hi. apply Hval. lia. }
    assert (Hreg1 : forall i, registered_at w1 i = registered_at w i)
      by (intros i; unfold registered_at; now rewrite Harr1).
    destruct (IH w1 Hwf) as (w' & Hrun' & Harr' & Hnb' & Hpf' & Hres).
    { intros i Hi. rewrite Hnb1 in Hi. destruct (Hval i Hi) as (a & lg & Ha & Hlg).
      exists a, (cfg_upd p (cfg_level item) lg). rewrite Hreg1. split; [exact Ha|].
      rewrite (Hrange i a); [|lia|exact Ha]. now rewrite Hlg. }
    exists w'. split.
    { unfold bind at 1. unfold gets. cbn. unfold bind. now rewrite Hrun. }
    split; [congruence|]. split; [congruence|]. split; [congruence|].
    intros i a Hi Ha. rewrite (Hres i a); [|congruence|now rewrite Hreg1].
    rewrite (Hrange i a); [|lia|exact Ha].
    destruct (loggers w !! a) as [lg|]; [|reflexivity].
    cbn [fmap option_fmap option_map].
    now rewrite (apply_rules_cons item rest lg p Hp).
Qed.

Lemma apply_rules_name (cfg : list bxilog_cfg_item_s) :
  forall lg, name (apply_rules cfg lg) = name lg.
Proof.
  induction cfg as [|item rest IH]; intros lg; [reflexivity|].
  unfold apply_rules in *. cbn. rewrite IH.
  destruct (logger_name_prefix item); [apply cfg_upd_name|reflexivity].
Qed.

Lemma apply_rules_name_length (cfg : list bxilog_cfg_item_s) :
  forall lg, name_length (apply_rules cfg lg) = name_length lg.
Proof.
  induction cfg as [|item rest IH]; intros lg; [reflexivity|].
  unfold apply_rules in *. cbn. rewrite IH.
  destruct (logger_name_prefix item); [|reflexivity].
  unfold cfg_upd. now destruct (0 =? _)%Z.
Qed.

(** The level a logger ends with is that of the last rule matching its
    name, and its own when no rule matches. *)
Lemma apply_rules_level (cfg : list bxilog_cfg_item_s) :
  forall lg,
    cfg_well_formed cfg = true ->
    level (apply_rules cfg lg) =
    default (level lg) (last_matching_level cfg (name lg)).
Proof.
  induction cfg as [|item rest IH]; intros lg Hwf; [reflexivity|].
  cbn [cfg_well_formed forallb] in Hwf. apply andb_true_iff in Hwf as [Hitem Hwf].
  destruct (logger_name_prefix item) as [p|] eqn:Hp; [|discriminate].
  rewrite (apply_rules_cons item rest lg p Hp), IH by exact Hwf.
  rewrite cfg_upd_name. unfold last_matching_level. cbn [List.filter].
  unfold rule_matches at 2. rewrite Hp. unfold cfg_upd.
  rewrite (strncmp_prefix p (name lg) Hitem).
  destruct (String.prefix p (name lg)); [|reflexivity].
  rewrite last_cons. now destruct (last (List.filter (rule_matches (name lg)) rest)).
Qed.
Lemma apply_rules_with_level (cfg : list bxilog_cfg_item_s) (lg : bxilog_s) :
  apply_rules cfg lg = with_level (level (apply_rules cfg lg)) lg.
Proof.
  pose proof (apply_rules_name cfg lg) as Hn.
  pose proof (apply_rules_name_length cfg lg) as Hl.
  destruct (apply_rules cfg lg) as [n l lv]. cbn in *. subst. reflexivity.
Qed.

(** [bxilog_cfg_registered] on a registry whose entries point to loggers:
    every registered logger ends with the level of the last rule matching
    its name, or keeps its level when there is none. *)
Lemma cfg_registered_last_match (cfg : list bxilog_cfg_item_s) (w : world) :
  cfg_well_formed cfg = true -> entries_valid w = true -> pthread_ok w ->
  exists w',
    bxilog_cfg_registered cfg w = Ret BXIERR_OK w' /\
    REGISTERED_LOGGERS w' = REGISTERED_LOGGERS w /\
    REGISTERED_LOGGERS_NB w' = REGISTERED_LOGGERS_NB w /\
    forall i a lg,
      i < REGISTERED_LOGGERS_NB w -> registered_at w i = Some a ->
      loggers w !! a = Some lg ->
      loggers w' !! a =
      Some (with_level (default (level lg) (last_matching_level cfg (name lg))) lg).
Proof.
  intros Hwf Hval Hrc. pose proof (proj1 (entries_valid_spec w) Hval) as Hval'.
  unfold bxilog_cfg_registered. mstep. rewrite !Hrc. cbn [Z.eqb]. mstep.
  edestruct (cfg_items_loop_spec cfg) as (w1 & Hrun & Harr & Hnb & Hpf & Hres);
    [exact Hwf| |rewrite Hrun].
  { wsimpl. exact Hval'. }
  wsimpl. rewrite Hpf. wsimpl. rewrite Hrc. cbn [Z.eqb]. mstep.
  eexists. split; [reflexivity|]. wsimpl.
  split; [exact Harr|]. split; [exact Hnb|].
  intros i a lg Hi Ha Hlg. rewrite (Hres i a Hi Ha). wsimpl. rewrite Hlg.
  cbn [fmap option_fmap option_map]. f_equal.
  rewrite apply_rules_with_level. f_equal. now apply apply_rules_level.
Qed.

Lemma last_matching_filter_rules (nm : string) :
  last_matching_level filter_rules nm =
  Some (if String.prefix "a.b" nm then BXILOG_WARNING
        else if String.prefix "a" nm then BXILOG_OUTPUT
        else BXILOG_LOWEST).
Proof.
  unfold last_matching_level, filter_rules. cbn [List.filter].
  unfold rule_matches. cbn [logger_name_prefix].
  assert (H0 : String.prefix "" nm = true) by (destruct nm; reflexivity).
  rewrite H0. destruct (String.prefix "a" nm), (String.prefix "a.b" nm); reflexivity.
Qed.

Lemma is_enabled_for_eq (w : world) (a : positive) (lg : bxilog_s) (l : bxilog_level_e) :
  loggers w !! a = Some lg ->
  bxilog_is_enabled_for (Some a) l w = Ret (level_num l <=? level_num (level lg))%Z w.
Proof. intros H. unfold bxilog_is_enabled_for, deref. mstep. now rewrite H. Qed.

(** The filter scenario on a registry without holes.  After
    [bxilog_cfg_registered] with the rules [("", lowest); ("a", output);
    ("a.b", warning)], on any registry whose entries point to logger
    objects, every registered logger has the level of the last rule
    whose prefix is a prefix of its name; a logger named [a.b.x] is at
    warning and not enabled for info, [a.c] is at output and not enabled for
    debug, [a.b] is at warning and enabled for warning, [z] is at lowest and
    enabled for debug. *)
Theorem cfg_registered_filter_rules (w : world) :
  entries_valid w = true -> pthread_ok w ->
  exists w',
    bxilog_cfg_registered filter_rules w = Ret BXIERR_OK w' /\
    forall a lg,
      registered w a -> loggers w !! a = Some lg ->
      exists lv,
        last_matching_level filter_rules (name lg) = Some lv /\
        loggers w' !! a = Some (with_level lv lg) /\
        bxilog_get_level (Some a) w' = Ret lv w' /\
        (name lg = "a.b.x" ->
         lv = BXILOG_WARNING /\
         bxilog_is_enabled_for (Some a) BXILOG_INFO w' = Ret false w') /\
        (name lg = "a.c" ->
         lv = BXILOG_OUTPUT /\
         bxilog_is_enabled_for (Some a) BXILOG_DEBUG w' = Ret false w') /\
        (name lg = "a.b" ->
         lv = BXILOG_WARNING /\
         bxilog_is_enabled_for (Some a) BXILOG_WARNING w' = Ret true w') /\
        (name lg = "z" ->
         lv = BXILOG_LOWEST /\
         bxilog_is_enabled_for (Some a) BXILOG_DEBUG w' = Ret true w').
Proof.
  intros Hval Hrc.
  destruct (cfg_registered_last_match filter_rules w eq_refl Hval Hrc)
    as (w' & Hrun & _ & _ & Hres).
  exists w'. split; [exact Hrun|].
  intros a lg (arr & i & Harr & Hi & Ha) Hlg.
  assert (Hat : registered_at w i = Some a)
    by (unfold registered_at; now rewrite Harr, Ha).
  specialize (Hres i a lg Hi Hat Hlg).
  rewrite last_matching_filter_rules in *. cbn [default] in Hres.
  eexists. split; [reflexivity|]. split; [exact Hres|].
  split.
  { unfold bxilog_get_level, deref. cbn [is_null negb]. mstep. rewrite Hres. reflexivity. }
  split; [|split; [|split]]; intros Hn; rewrite Hn in *;
    (split; [reflexivity|rewrite (is_enabled_for_eq w' a _ _ Hres); reflexivity]).
Qed.

Lemma cfg_registered_filter_rules_witness :
  entries_valid scenario_world = true /\ pthread_ok scenario_world /\
  exists w',
    bxilog_cfg_registered filter_rules scenario_world = Ret BXIERR_OK w' /\
    forall a lg,
      registered scenario_world a -> loggers scenario_world !! a = Some lg ->
      exists lv,
        last_matching_level filter_rules (name lg) = Some lv /\
        loggers w' !! a = Some (with_level lv lg) /\
        bxilog_get_level (Some a) w' = Ret lv w' /\
        (name lg = "a.b.x" ->
         lv = BXILOG_WARNING /\
         bxilog_is_enabled_for (Some a) BXILOG_INFO w' = Ret false w') /\
        (name lg = "a.c" ->
         lv = BXILOG_OUTPUT /\
         bxilog_is_enabled_for (Some a) BXILOG_DEBUG w' = Ret false w') /\
        (name lg = "a.b" ->
         lv = BXILOG_WARNING /\
         bxilog_is_enabled_for (Some a) BXILOG_WARNING w' = Ret true w') /\
        (name lg = "z" ->
         lv = BXILOG_LOWEST /\
         bxilog_is_enabled_for (Some a) BXILOG_DEBUG w' = Ret true w').
Proof.
  assert (Hv : entries_valid scenario_world = true) by (vm_compute; reflexivity).
  assert (Hp : pthread_ok scenario_world) by (intros t; reflexivity).
  split; [exact Hv|]. split; [exact Hp|].
  exact (cfg_registered_filter_rules scenario_world Hv Hp).
Defined.

(** The scenario, run: the four loggers end at warning, output, warning
    and lowest. *)
Example scenario_levels :
  (fun w => (level <$> loggers w !! 2%positive, level <$> loggers w !! 3%positive,
             level <$> loggers w !! 4%positive, level <$> loggers w !! 5%positive))
    scenario_configured
  = (Some BXILOG_WARN, Some BXILOG_OUTPUT, Some BXILOG_WARN, Some BXILOG_LOWEST).
Proof. vm_compute. reflexivity. Qed.
(** ** Proofs: the registry mutex *)

(** Case analysis on what a run that returned went through. *)
Ltac crack :=
  repeat (mstep; simplify_eq;
          match goal with
          | H : context [match ?x with _ => _ end] |- _ => destruct x eqn:?
          end);
  mstep; simplify_eq; wsimpl.

Lemma register_trace (logger : bxilog_p) (w w' : world) :
  bxilog_register logger w = Ret tt w' ->
  exists tr, trace w' = trace w ++ tr /\ lock_discipline false tr = true.
Proof.
  intros H. unfold bxilog_register, registered_store in H.
  destruct logger as [a|]; [|discriminate H]. cbn [is_null negb] in H.
  crack; rewrite <- ?app_assoc; eexists; (split; [reflexivity|reflexivity]).
Qed.

Lemma lock_discipline_stores (tr rest : list event) :
  forallb is_registry_store tr = true ->
  lock_discipline true (tr ++ rest) = lock_discipline true rest.
Proof.
  induction tr as [|e tr IH]; intros H; [reflexivity|].
  cbn [forallb] in H. apply andb_true_iff in H as [He H].
  destruct e; try discriminate He. cbn. now apply IH.
Qed.

Lemma unregister_loop_trace (logger : bxilog_p) (k : nat) :
  forall (i : nat) (found b : bool) (w w' : world),
    unregister_loop logger k i found w = Ret b w' ->
    REGISTERED_LOGGERS_NB w' = REGISTERED_LOGGERS_NB w /\
    exists tr, trace w' = trace w ++ tr /\ forallb is_registry_store tr = true.
Proof.
  induction k as [|k IH]; intros i found b w w' H.
  - cbn in H. crack. split; [reflexivity|]. exists []. now rewrite app_nil_r.
  - cbn [unregister_loop] in H. unfold registered_load, registered_store in H.
    mstep.
    destruct (REGISTERED_LOGGERS w) as [arr|] eqn:Harr; [|discriminate H].
    destruct (arr !! i) as [p|] eqn:Hi; [|discriminate H]. mstep.
    destruct (ptr_eqb p logger); mstep.
    + rewrite Harr in H. destruct (decide (i < length arr)); [|discriminate H].
      mstep. apply IH in H as (Hnb & tr & Htr & Hall). wsimpl.
      split; [exact Hnb|]. exists (EvRegistry :: tr).
      rewrite Htr, <- app_assoc. split; [reflexivity|]. cbn. exact Hall.
    + now apply IH in H.
Qed.

Lemma unregister_trace (logger : bxilog_p) (w w' : world) :
  bxilog_unregister logger w = Ret tt w' ->
  exists tr, trace w' = trace w ++ tr /\ lock_discipline false tr = true.
Proof.
  intros H. unfold bxilog_unregister, deref in H.
  destruct logger as [a|]; [|discriminate H]. cbn [is_null negb] in H. mstep.
  destruct (0 =? pthread_rc (pf w) (tick w))%Z; [|discriminate H]. mstep.
  match type of H with
  | context [unregister_loop ?l ?k ?i ?f ?w0] =>
    destruct (unregister_loop l k i f w0) as [found w1| |] eqn:Hloop;
      [|discriminate H|discriminate H]
  end.
  apply unregister_loop_trace in Hloop as (Hnb & tr & Htr & Hall). wsimpl.
  destruct found; crack; rewrite ?Htr, <- ?app_assoc;
    eexists; (split; [reflexivity|]);
    cbn [lock_discipline app negb andb];
    rewrite (lock_discipline_stores tr _ Hall); reflexivity.
Qed.

Lemma cfg_loggers_loop_trace (p : string) (len : nat) (lv : bxilog_level_e) (k : nat) :
  forall (l : nat) (w w' : world),
    cfg_loggers_loop p len lv k l w = Ret tt w' ->
    exists tr, trace w' = trace w ++ tr /\
               forallb (fun e => negb (is_lock e)) tr = true.
Proof.
  induction k as [|k IH]; intros l w w' H.
  - cbn in H. crack. exists []. now rewrite app_nil_r.
  - cbn [cfg_loggers_loop] in H. unfold registered_load, store_level, deref in H.
    mstep.
    destruct (REGISTERED_LOGGERS w) as [arr|] eqn:Harr; [|discriminate H].
    destruct (arr !! l) as [[a|]|] eqn:Hl; try discriminate H. mstep.
    destruct (loggers w !! a) as [lg|] eqn:Hlg; [|discriminate H]. mstep.
    destruct (0 =? strncmp p (name lg) len)%Z; mstep.
    + rewrite Hlg in H. mstep. apply IH in H as (tr & Htr & Hall). wsimpl.
      exists (EvRegistry :: tr). rewrite Htr, <- app_assoc. now split.
    + now apply IH in H.
Qed.

Lemma cfg_items_loop_trace (cfg : list bxilog_cfg_item_s) :
  forall (w w' : world),
    cfg_items_loop cfg w = Ret tt w' ->
    exists tr, trace w' = trace w ++ tr /\
               forallb (fun e => negb (is_lock e)) tr = true.
Proof.
  induction cfg as [|item rest IH]; intros w w' H.
  - cbn in H. crack. exists []. now rewrite app_nil_r.
  - cbn [cfg_items_loop] in H.
    destruct (logger_name_prefix item) as [p|]; [|discriminate H]. mstep.
    match type of H with
    | context [cfg_loggers_loop ?p ?n ?lv ?k ?l ?w0] =>
      destruct (cfg_loggers_loop p n lv k l w0) as [[] w1| |] eqn:Hloop;
        [|discriminate H|discriminate H]
    end.
    apply cfg_loggers_loop_trace in Hloop as (tr1 & Htr1 & Hall1).
    apply IH in H as (tr2 & Htr2 & Hall2).
    exists (tr1 ++ tr2). rewrite Htr2, Htr1, <- app_assoc. split; [reflexivity|].
    rewrite forallb_app. now rewrite Hall1, Hall2.
Qed.

(** C7. [bxilog_register] and [bxilog_unregister] follow the discipline
    (lemmas [register_trace] and [unregister_trace]), but whenever
    [bxilog_cfg_registered] returns, its first call on the registry mutex was
    [pthread_mutex_unlock], it never called [pthread_mutex_lock], and its
    trace breaks the locking discipline: the stores into the loggers are not
    made with the mutex held, and two unlocks face no lock. *)
Theorem cfg_registered_unlocks_first (cfg : list bxilog_cfg_item_s)
        (w w' : world) (err : bxierr) :
  bxilog_cfg_registered cfg w = Ret err w' ->
  exists tr,
    trace w' = trace w ++ EvUnlock register_lock :: tr /\
    forallb (fun e => negb (is_lock e)) tr = true /\
    last tr = Some (EvUnlock register_lock) /\
    lock_discipline false (EvUnlock register_lock :: tr) = false.
Proof.
  intros H. unfold bxilog_cfg_registered in H. mstep.
  destruct (0 =? pthread_rc (pf w) (tick w))%Z; [|discriminate H]. mstep.
  match type of H with
  | context [cfg_items_loop ?c ?w0] =>
    destruct (cfg_items_loop c w0) as [[] w1| |] eqn:Hloop;
      [|discriminate H|discriminate H]
  end.
  apply cfg_items_loop_trace in Hloop as (tr & Htr & Hall). wsimpl.
  crack. exists (tr ++ [EvUnlock register_lock]).
  rewrite Htr, <- !app_assoc. split; [reflexivity|].
  split; [rewrite forallb_app; now rewrite Hall|].
  split; [apply last_snoc|reflexivity].
Qed.

Lemma cfg_registered_unlocks_first_witness :
  bxilog_cfg_registered filter_rules scenario_world = Ret BXIERR_OK scenario_configured /\
  exists tr,
    trace scenario_configured = trace scenario_world ++ EvUnlock register_lock :: tr /\
    forallb (fun e => negb (is_lock e)) tr = true /\
    last tr = Some (EvUnlock register_lock) /\
    lock_discipline false (EvUnlock register_lock :: tr) = false.
Proof.
  assert (H : bxilog_cfg_registered filter_rules scenario_world
              = Ret BXIERR_OK scenario_configured) by (vm_compute; reflexivity).
  split; [exact H|].
  exact (cfg_registered_unlocks_first filter_rules scenario_world
           scenario_configured BXIERR_OK H).
Defined.

(** The trace of the filter scenario: nine stores between two unlocks. *)
Example scenario_trace :
  trace scenario_configured =
  [EvUnlock register_lock; EvRegistry; EvRegistry; EvRegistry; EvRegistry;
   EvRegistry; EvRegistry; EvRegistry; EvRegistry; EvRegistry;
   EvUnlock register_lock].
Proof. vm_compute. reflexivity. Qed.

(** ** Proofs: the entries of the registry *)

Lemma entries_nonnull_spec (w : world) :
  entries_nonnull w = true <->
  forall i, i < REGISTERED_LOGGERS_NB w -> exists a, registered_at w i = Some a.
Proof.
  unfold entries_nonnull. rewrite forallb_forall. split.
  - intros H i Hi. specialize (H i). rewrite in_seq in H.
    assert (Hv : entry_nonnull w i = true) by (apply H; lia).
    unfold entry_nonnull in Hv. unfold registered_at.
    destruct (REGISTERED_LOGGERS w) as [arr|]; [|discriminate].
    destruct (arr !! i) as [[a|]|]; try discriminate. eauto.
  - intros H i Hi. apply in_seq in Hi. destruct (H i) as (a & Ha); [lia|].
    unfold entry_nonnull. unfold registered_at in Ha.
    destruct (REGISTERED_LOGGERS w) as [arr|]; [|discriminate].
    destruct (arr !! i) as [[a'|]|]; try discriminate. reflexivity.
Qed.

(** [bxilog_register] keeps the first [REGISTERED_LOGGERS_NB] entries
    non-NULL. *)
Lemma register_keeps_nonnull (logger : bxilog_p) (w w' : world) :
  entries_nonnull w = true ->
  bxilog_register logger w = Ret tt w' ->
  entries_nonnull w' = true /\
  REGISTERED_LOGGERS_NB w' = S (REGISTERED_LOGGERS_NB w) /\
  registered_load (REGISTERED_LOGGERS_NB w) w' = Ret logger w'.
Proof.
  intros Hinv H. pose proof (proj1 (entries_nonnull_spec w) Hinv) as Hw.
  unfold bxilog_register, registered_store in H.
  destruct logger as [a|]; [|discriminate H]. cbn [is_null negb] in H.
  assert (Hstore : forall (arr : list bxilog_p) (v : world),
             REGISTERED_LOGGERS v = Some (<[REGISTERED_LOGGERS_NB w := Some a]> arr) ->
             REGISTERED_LOGGERS_NB v = S (REGISTERED_LOGGERS_NB w) ->
             REGISTERED_LOGGERS_NB w < length arr ->
             (forall i b, i < REGISTERED_LOGGERS_NB w -> registered_at w i = Some b ->
                          arr !! i = Some (Some b)) ->
             entries_nonnull v = true /\
             REGISTERED_LOGGERS_NB v = S (REGISTERED_LOGGERS_NB w) /\
             registered_load (REGISTERED_LOGGERS_NB w) v = Ret (Some a) v).
  { intros arr v Harr Hnb Hlen Hold. split; [|split; [exact Hnb|]].
    - apply entries_nonnull_spec. intros i Hi. rewrite Hnb in Hi.
      unfold registered_at. rewrite Harr.
      destruct (decide (i = REGISTERED_LOGGERS_NB w)) as [->|Hne].
      + rewrite list_lookup_insert_eq by exact Hlen. eauto.
      + rewrite list_lookup_insert_ne by congruence.
        destruct (Hw i) as (b & Hb); [lia|].
        rewrite (Hold i b) by (exact Hb || lia). eauto.
    - unfold registered_load. mstep. rewrite Harr.
      now rewrite list_lookup_insert_eq by exact Hlen. }
  mstep. destruct (0 =? pthread_rc (pf w) (tick w))%Z; [|discriminate H]. mstep.
  destruct (REGISTERED_LOGGERS w) as [arr|] eqn:Harr; mstep.
  - destruct (REGISTERED_LOGGERS_ARRAY_SIZE w <=? REGISTERED_LOGGERS_NB w); mstep.
    + (* the array is reallocated *)
      destruct (decide (REGISTERED_LOGGERS_NB w
                        < length (resize (REGISTERED_LOGGERS_ARRAY_SIZE w + 10) None arr)))
        as [Hlen|]; [|discriminate H].
      mstep. destruct (0 =? pthread_rc (pf w) (S (tick w)))%Z; [|discriminate H].
      mstep. simplify_eq.
      eapply Hstore; wsimpl; [reflexivity|reflexivity|exact Hlen|].
      intros i b Hi Hb. unfold registered_at in Hb. rewrite Harr in Hb.
      destruct (arr !! i) as [[c|]|] eqn:Hc; try discriminate Hb.
      rewrite length_resize in Hlen.
      rewrite lookup_resize; [congruence|lia|now apply lookup_lt_Some in Hc].
    + (* the array is large enough *)
      rewrite Harr in H.
      destruct (decide (REGISTERED_LOGGERS_NB w < length arr)) as [Hlen|];
        [|discriminate H].
      mstep. destruct (0 =? pthread_rc (pf w) (S (tick w)))%Z; [|discriminate H].
      mstep. simplify_eq.
      eapply Hstore; wsimpl; [reflexivity|reflexivity|exact Hlen|].
      intros i b Hi Hb. unfold registered_at in Hb. rewrite Harr in Hb.
      destruct (arr !! i) as [[c|]|] eqn:Hc; try discriminate Hb. congruence.
  - (* the array is allocated *)
    destruct (decide (REGISTERED_LOGGERS_NB w
                      < length (replicate (REGISTERED_LOGGERS_ARRAY_SIZE w) (@None positive))))
      as [Hlen|]; [|discriminate H].
    mstep. destruct (0 =? pthread_rc (pf w) (S (tick w)))%Z; [|discriminate H].
    mstep. simplify_eq.
    eapply Hstore; wsimpl; [reflexivity|reflexivity|exact Hlen|].
    intros i b Hi Hb. unfold registered_at in Hb. rewrite Harr in Hb. discriminate Hb.
Qed.

(** C9. Two loggers are registered through [bxilog_register], each once,
    and the first [REGISTERED_LOGGERS_NB] entries are non-NULL; after
    [bxilog_unregister] of the first one the counter is 1 and entry 0 is
    [NULL]: the invariant is lost, and the second logger sits beyond the
    counter. *)
Theorem unregister_leaves_null_entry :
  entries_nonnull two_registered = true /\
  occurrences two_registered (Some 2%positive) = 1 /\
  bxilog_unregister (Some 2%positive) two_registered = Ret tt first_unregistered /\
  REGISTERED_LOGGERS_NB first_unregistered = 1 /\
  registered_load 0 first_unregistered = Ret None first_unregistered /\
  registered_load 1 first_unregistered = Ret (Some 3%positive) first_unregistered /\
  entries_nonnull first_unregistered = false.
Proof. repeat apply conj; vm_compute; reflexivity. Qed.

(** What the lost invariant costs: the next reconfiguration dereferences
    the [NULL] entry. *)
Example cfg_after_unregister :
  exists w', bxilog_cfg_registered filter_rules first_unregistered
             = Abort InvalidPointer w'.
Proof. eexists. vm_compute. reflexivity. Qed.

(** C1. The claim holds as long as the counted entries of the registry
    point to loggers, and fails once a logger other than the last has been
    unregistered.  With [a.c] and [a.b.x] registered in this order,
    [bxilog_cfg_registered] with the rules [("", lowest); ("a", output);
    ("a.b", warning)] returns and leaves [a.c] at output and [a.b.x] at
    warning.  After [bxilog_unregister] of [a.c] the registry is
    [[NULL; a.b.x]] with a counter of 1: the same call dereferences the
    [NULL] entry, and the registered logger [a.b.x], which the last
    matching rule puts at warning, is left at trace. *)
Theorem cfg_registered_after_unregister :
  (bxilog_register (Some 2%positive) ;; bxilog_register (Some 3%positive) ;;
   bxilog_unregister (Some 2%positive)) filter_pair
  = Ret tt filter_pair_unregistered /\
  REGISTERED_LOGGERS_NB filter_pair_unregistered = 1 /\
  registered_load 0 filter_pair_unregistered = Ret None filter_pair_unregistered /\
  registered_load 1 filter_pair_unregistered
  = Ret (Some 3%positive) filter_pair_unregistered /\
  last_matching_level filter_rules "a.b.x" = Some BXILOG_WARN /\
  (exists w', bxilog_cfg_registered filter_rules filter_pair_registered
              = Ret BXIERR_OK w' /\
              level <$> loggers w' !! 2%positive = Some BXILOG_OUTPUT /\
              level <$> loggers w' !! 3%positive = Some BXILOG_WARN) /\
  (exists w', bxilog_cfg_registered filter_rules filter_pair_unregistered
              = Abort InvalidPointer w' /\
              level <$> loggers w' !! 3%positive = Some BXILOG_TRACE).
Proof.
  repeat apply conj; try (vm_compute; reflexivity).
  - eexists. split; [vm_compute; reflexivity|]. split; vm_compute; reflexivity.
  - eexists. split; [vm_compute; reflexivity|]. vm_compute. reflexivity.
Qed.

(** ** Proofs: the level of a logger *)

(** [bxilog_set_level] followed by [bxilog_get_level], for the three levels
    the assertion lets through. *)
Lemma set_get_level (a : positive) (lg : bxilog_s) (l : bxilog_level_e) (w : world) :
  loggers w !! a = Some lg ->
  (level_num l <= level_num BXILOG_CRITICAL)%Z ->
  (bxilog_set_level (Some a) l ;; bxilog_get_level (Some a)) w
  = Ret l (set_loggers (<[a := with_level l lg]> (loggers w)) w).
Proof.
  intros Hlg Hl. unfold bxilog_set_level, bxilog_get_level, store_level, deref.
  cbn [is_null negb andb]. apply Z.leb_le in Hl. rewrite Hl. mstep.
  rewrite Hlg. mstep. now rewrite lookup_insert_eq.
Qed.

Lemma set_level_above_critical (logger : bxilog_p) (l : bxilog_level_e) (w : world) :
  (level_num BXILOG_CRITICAL < level_num l)%Z ->
  bxilog_set_level logger l w
  = Abort (AssertFailed "NULL != logger && BXILOG_CRITICAL >= level") w.
Proof.
  intros Hl. unfold bxilog_set_level. apply Z.leb_gt in Hl. rewrite Hl.
  now rewrite andb_false_r.
Qed.

(** C10. [bxilog_set_level(logger, BXILOG_WARNING)] does not return: the
    assertion [BXILOG_CRITICAL >= level] fails for every logger, as it does
    for each of the nine levels below critical. *)
Theorem set_level_warning_aborts (logger : bxilog_p) (w : world) :
  bxilog_set_level logger BXILOG_WARNING w
  = Abort (AssertFailed "NULL != logger && BXILOG_CRITICAL >= level") w /\
  Forall (fun l => bxilog_set_level logger l w
                   = Abort (AssertFailed "NULL != logger && BXILOG_CRITICAL >= level") w)
         (drop 3 all_levels).
Proof.
  split; [now apply set_level_above_critical|].
  repeat constructor; now apply set_level_above_critical.
Qed.
(** ** Proofs: the producer side *)

Lemma log_frame_refl (w : world) : log_frame w w.
Proof. unfold log_frame. repeat split; auto. Qed.

Lemma log_frame_trans (w1 w2 w3 : world) :
  log_frame w1 w2 -> log_frame w2 w3 -> log_frame w1 w3.
Proof.
  unfold log_frame. intros (? & ? & ? & ? & ? & ? & ? & ? & Ht1) (? & ? & ? & ? & ? & ? & ? & ? & Ht2).
  repeat split; try congruence. intros t Ht. apply Ht2, Ht1, Ht.
Qed.

Lemma vlog_unfold (fuel : nat) :
  bxilog_vlog_nolevelcheck fuel =
  vlog_body (match fuel with
             | O => fun _ _ _ _ _ _ _ _ _ => OutOfFuel
             | S fuel' => bxilog_vlog_nolevelcheck fuel'
             end).
Proof. destruct fuel; reflexivity. Qed.

(** C3. When the lifecycle state is not INITIALIZED, the log operation
    returns success and leaves the whole process state as it was (nothing
    is put on the data channel, nothing is written), and [bxilog_flush]
    returns success and leaves it as it was (no request is put on the
    control channel). *)
Theorem log_and_flush_when_not_initialized
        (fuel : nat) (logger : bxilog_p) (l : bxilog_level_e)
        (filename : string) (filename_len : nat)
        (funcname : string) (funcname_len : nat) (line : Z) (msg : string)
        (w : world) :
  STATE w <> INITIALIZED ->
  bxilog_vlog_nolevelcheck fuel logger l filename filename_len
                           funcname funcname_len line msg w = Ret BXIERR_OK w /\
  bxilog_flush fuel w = Ret BXIERR_OK w.
Proof.
  intros Hst.
  assert (Hb : state_eqb INITIALIZED (STATE w) = false).
  { unfold state_eqb. apply bool_decide_eq_false. congruence. }
  split.
  - rewrite vlog_unfold. unfold vlog_body. mstep. now rewrite Hb.
  - unfold bxilog_flush. mstep. now rewrite Hb.
Qed.

Lemma log_and_flush_when_not_initialized_witness :
  STATE (initial_world friendly) <> INITIALIZED /\
  bxilog_vlog_nolevelcheck 1 BXILOG_INTERNAL_LOGGER BXILOG_INFO "f.c" 4 "fn" 3 10
                           "hello" (initial_world friendly)
  = Ret BXIERR_OK (initial_world friendly) /\
  bxilog_flush 1 (initial_world friendly) = Ret BXIERR_OK (initial_world friendly).
Proof.
  assert (H : STATE (initial_world friendly) <> INITIALIZED) by (simpl; discriminate).
  split; [exact H|].
  exact (log_and_flush_when_not_initialized 1 BXILOG_INTERNAL_LOGGER BXILOG_INFO
           "f.c" 4 "fn" 3 10 "hello" (initial_world friendly) H).
Defined.

Lemma get_tsd_frame (w w' : world) (r : bxierr * tsd_s) :
  _get_tsd w = Ret r w' -> log_frame w w'.
Proof.
  intros H. unfold _get_tsd in H. unfold log_frame. mstep.
  destruct (TSD w) as [t|] eqn:Ht; mstep.
  - destruct (tsd_freed t); mstep; simplify_eq. repeat split; auto; intros; congruence.
  - crack; repeat split; auto; intros; congruence.
Qed.

Lemma memcpy_str_inv (s : string) (n : nat) (w w' : world) (d : list ascii) :
  memcpy_str s n w = Ret d w' -> w' = w.
Proof. unfold memcpy_str. destruct (decide _); mstep; intros; simplify_eq. reflexivity. Qed.

Lemma log_with_frame
      (rec : bxilog_p -> bxilog_level_e -> string -> nat -> string -> nat ->
             Z -> string -> M bxierr) :
  (forall lg l f fl fn fnl ln m w e w',
      rec lg l f fl fn fnl ln m w = Ret e w' -> log_frame w w') ->
  forall logger l func line msg w w',
    bxilog_log_with rec logger l func line msg w = Ret tt w' -> log_frame w w'.
Proof.
  intros Hrec logger l func line msg w w' H.
  unfold bxilog_log_with, bxilog_is_enabled_for, deref in H.
  destruct logger as [a|]; mstep; [|discriminate H].
  destruct (loggers w !! a) as [lg|]; mstep; [|discriminate H].
  destruct (level_num l <=? level_num (level lg))%Z; mstep.
  - match type of H with
    | context [rec ?a ?b ?c ?d ?e ?f ?g ?h ?w0] =>
      destruct (rec a b c d e f g h w0) as [e0 w1| |] eqn:Hr; try discriminate H
    end.
    mstep. simplify_eq. eapply Hrec, Hr.
  - simplify_eq. apply log_frame_refl.
Qed.

Lemma vlog_body_frame
      (rec : bxilog_p -> bxilog_level_e -> string -> nat -> string -> nat ->
             Z -> string -> M bxierr) :
  (forall lg l f fl fn fnl ln m w e w',
      rec lg l f fl fn fnl ln m w = Ret e w' -> log_frame w w') ->
  forall lg l f fl fn fnl ln m w e w',
    vlog_body rec lg l f fl fn fnl ln m w = Ret e w' -> log_frame w w'.
Proof.
  intros Hrec logger l f fl fn fnl ln m w e w' H.
  pose proof (log_with_frame rec Hrec) as Hlog.
  unfold vlog_body in H. mstep.
  destruct (state_eqb INITIALIZED (STATE w)); mstep;
    [|simplify_eq; apply log_frame_refl].
  destruct (_get_tsd w) as [[err tsd] w1| |] eqn:Htsd; try discriminate H.
  apply get_tsd_frame in Htsd. eapply log_frame_trans; [exact Htsd|]. clear Htsd.
  mstep. destruct (bxierr_isko err); mstep; [simplify_eq; apply log_frame_refl|].
  match type of H with
  | match ?scrut with _ => _ end = _ =>
    destruct scrut as [[] w2| |] eqn:Hlow; try discriminate H
  end.
  assert (Hf2 : log_frame w1 w2).
  { destruct (strlen m <? DEFAULT_LOG_BUF_SIZE); mstep.
    - simplify_eq. apply log_frame_refl.
    - eapply Hlog, Hlow. }
  eapply log_frame_trans; [exact Hf2|]. clear Hf2 Hlow.
  unfold deref in H. destruct logger as [a|]; mstep; [|discriminate H].
  destruct (loggers w2 !! a) as [lg|]; mstep; [|discriminate H].
  destruct (bxitime_get (pf w2) (tick w2)) as [terr now]. mstep.
  destruct (bxierr_isko terr); mstep.
  { simplify_eq. unfold log_frame. repeat split; auto. }
  repeat match type of H with
  | context [memcpy_str ?s ?n ?w0] =>
    let Hm := fresh "Hm" in
    destruct (memcpy_str s n w0) as [? ?| |] eqn:Hm; try discriminate H;
    apply memcpy_str_inv in Hm; subst; mstep
  end.
  unfold bxizmq_snd_data_zc in H. mstep.
  match type of H with
  | context [bxierr_isok ?x] => destruct x as [|c d s cause] eqn:Hsnd
  end; cbn [bxierr_isok bxierr_isko negb orb bxierr_code_of] in H; mstep.
  - simplify_eq. unfold log_frame. repeat split; auto.
  - destruct (decide (c = BXIZMQ_RETRIES_MAX_ERR)) as [->|Hne].
    + repeat (rewrite bool_decide_eq_true_2 in H by reflexivity; mstep).
      match type of H with
      | match ?scrut with _ => _ end = _ =>
        destruct scrut as [[] w3| |] eqn:Hwarn; try discriminate H
      end.
      simplify_eq. apply Hlog in Hwarn.
      eapply log_frame_trans; [|exact Hwarn]. unfold log_frame. repeat split; auto.
    + repeat (rewrite bool_decide_eq_false_2 in H by congruence; mstep).
      simplify_eq. unfold log_frame. repeat split; auto.
Qed.

Lemma vlog_frame (fuel : nat) :
  forall lg l f fl fn fnl ln m w e w',
    bxilog_vlog_nolevelcheck fuel lg l f fl fn fnl ln m w = Ret e w' -> log_frame w w'.
Proof.
  induction fuel as [|fuel IH]; intros lg l f fl fn fnl ln m w e w' H;
    rewrite vlog_unfold in H; eapply vlog_body_frame; try exact H.
  - intros; discriminate.
  - exact IH.
Qed.

Lemma bxilog_log_frame (fuel : nat) (logger : bxilog_p) (l : bxilog_level_e)
      (func : string) (line : Z) (msg : string) (w w' : world) :
  bxilog_log fuel logger l func line msg w = Ret tt w' -> log_frame w w'.
Proof. apply log_with_frame. apply vlog_frame. Qed.

(** ** Proofs: the lifecycle *)

Lemma strlen_le (s : string) : strlen s <= String.length s.
Proof.
  induction s as [|c s IH]; [reflexivity|].
  cbn [strlen String.length]. destruct (Ascii.eqb c NUL); lia.
Qed.

Lemma allowed_init_state (s : bxilog_state_e) :
  s = UNSET \/ s = FINALIZED ->
  negb (state_eqb UNSET s) && negb (state_eqb FINALIZED s) = false.
Proof. intros [->| ->]; reflexivity. Qed.


Lemma state_eqb_neq (s1 s2 : bxilog_state_e) : s1 <> s2 -> state_eqb s1 s2 = false.
Proof. intros H. unfold state_eqb. now apply bool_decide_eq_false. Qed.

Lemma get_tsd_cached (w : world) (tsd : tsd_s) :
  TSD w = Some tsd -> tsd_freed tsd = false ->
  _get_tsd w = Ret (BXIERR_OK, tsd) w.
Proof. intros Ht Hf. unfold _get_tsd. mstep. rewrite Ht, Hf. reflexivity. Qed.

(** A logging macro on the internal logger returns when the subsystem is
    initialized, the thread has its data and the channel takes the frame. *)
Lemma bxilog_log_returns (fuel : nat) (l : bxilog_level_e) (func : string) (line : Z)
      (msg : string) (w : world) (tsd : tsd_s) :
  STATE w = INITIALIZED ->
  TSD w = Some tsd -> tsd_freed tsd = false ->
  internal_logger_ok w ->
  (forall t, bxizmq_err (pf w) t = BXIERR_OK) ->
  strlen msg < DEFAULT_LOG_BUF_SIZE ->
  exists w', bxilog_log fuel BXILOG_INTERNAL_LOGGER l func line msg w = Ret tt w'.
Proof.
  intros Hst Ht Hf (lg & Hlg & Hlen) Hsnd Hmsg.
  unfold bxilog_log, bxilog_log_with, bxilog_is_enabled_for, BXILOG_INTERNAL_LOGGER, deref.
  mstep. rewrite Hlg. mstep.
  destruct (level_num l <=? level_num (level lg))%Z; mstep; [|eauto].
  rewrite vlog_unfold. unfold vlog_body. mstep. rewrite Hst.
  change (state_eqb INITIALIZED INITIALIZED) with true. mstep.
  rewrite (get_tsd_cached w tsd Ht Hf). mstep.
  apply Nat.ltb_lt in Hmsg. rewrite Hmsg. unfold deref. mstep. rewrite Hlg. mstep.
  destruct (bxitime_get (pf w) (tick w)) as [terr now]. mstep.
  destruct (bxierr_isko terr); mstep; [eauto|].
  unfold memcpy_str, bxizmq_snd_data_zc. mstep.
  pose proof (strlen_le msg) as Hle.
  rewrite !decide_True by (cbn [String.length]; lia). mstep.
  rewrite Hsnd. mstep. eauto.
Qed.

(** What the steps of [_init] and [_finalize] leave untouched. *)
Lemma create_iht_returns (w : world) :
  (forall t, pthread_rc (pf w) t = 0%Z) ->
  exists w1, _create_iht w = Ret BXIERR_OK w1 /\
    STATE w1 = STATE w /\ pf w1 = pf w /\ loggers w1 = loggers w /\
    TSD w1 = TSD w /\ TSD_KEY_ONCE w1 = TSD_KEY_ONCE w /\ data_url w1 = data_url w.
Proof.
  intros Hrc. unfold _create_iht. mstep. rewrite !Hrc, !Z.eqb_refl. mstep.
  eexists. split; [reflexivity|]. wsimpl. repeat apply conj; reflexivity.
Qed.

Lemma tsd_key_once_returns (w : world) :
  (forall t, pthread_rc (pf w) t = 0%Z) -> TSD_KEY_ONCE w = false ->
  exists w1, pthread_once TSD_KEY_ONCE set_TSD_KEY_ONCE _tsd_key_new w = Ret 0%Z w1 /\
    STATE w1 = STATE w /\ pf w1 = pf w /\ loggers w1 = loggers w /\
    TSD w1 = None /\ data_url w1 = data_url w.
Proof.
  intros Hrc Honce. unfold pthread_once, _tsd_key_new. mstep.
  rewrite !Hrc, Honce, !Z.eqb_refl. mstep. rewrite Hrc, Z.eqb_refl. mstep.
  eexists. split; [reflexivity|]. wsimpl. repeat apply conj; reflexivity.
Qed.

Lemma get_tsd_fresh (w : world) :
  (forall t, pthread_rc (pf w) t = 0%Z) ->
  (forall t, bxizmq_err (pf w) t = BXIERR_OK) ->
  TSD w = None -> data_url w <> None ->
  exists w1 tsd, _get_tsd w = Ret (BXIERR_OK, tsd) w1 /\
    STATE w1 = STATE w /\ pf w1 = pf w /\ loggers w1 = loggers w /\
    TSD w1 = Some tsd /\ tsd_freed tsd = false.
Proof.
  intros Hrc Hzmq Ht Hurl. unfold _get_tsd. mstep. rewrite Ht.
  rewrite bool_decide_eq_true_2 by exact Hurl. mstep.
  rewrite !Hzmq. mstep. rewrite !Hzmq. mstep. rewrite Hrc, Z.eqb_refl. mstep.
  do 2 eexists. split; [reflexivity|]. wsimpl. repeat apply conj; reflexivity.
Qed.

Lemma snd_str_returns (msg : string) (w : world) :
  (forall t, bxizmq_err (pf w) t = BXIERR_OK) ->
  exists w1, bxizmq_snd_str msg w = Ret BXIERR_OK w1 /\
    STATE w1 = STATE w /\ pf w1 = pf w /\ loggers w1 = loggers w /\ TSD w1 = TSD w.
Proof.
  intros Hzmq. unfold bxizmq_snd_str. mstep. rewrite !Hzmq. mstep.
  eexists. split; [reflexivity|]. wsimpl. repeat apply conj; reflexivity.
Qed.

Lemma rcv_str_returns (w : world) :
  (forall t, bxizmq_err (pf w) t = BXIERR_OK) ->
  exists w1, bxizmq_rcv_str w = Ret (BXIERR_OK, bxizmq_rcv (pf w) (S (tick w))) w1 /\
    STATE w1 = STATE w /\ pf w1 = pf w /\ loggers w1 = loggers w /\ TSD w1 = TSD w.
Proof.
  intros Hzmq. unfold bxizmq_rcv_str. mstep. rewrite !Hzmq.
  eexists. split; [reflexivity|]. wsimpl. repeat apply conj; reflexivity.
Qed.

Lemma init_inner_returns (w : world) :
  platform_ok (pf w) ->
  STATE w = UNSET \/ STATE w = FINALIZED ->
  BXILOG_CONTEXT w = false -> TSD_KEY_ONCE w = false ->
  exists w1 tsd,
    _init w = Ret BXIERR_OK w1 /\
    STATE w1 = INITIALIZING /\ pf w1 = pf w /\ loggers w1 = loggers w /\
    TSD w1 = Some tsd /\ tsd_freed tsd = false.
Proof.
  intros (Hrc & Hctx & Hzrc & Hzmq & Hrcv & Hjoin) Hst Hnull Honce.
  unfold _init. mstep. rewrite Hrc, Z.eqb_refl. mstep.
  rewrite (allowed_init_state _ Hst). mstep.
  rewrite Hnull. mstep. rewrite Hctx. mstep.
  match goal with
  | |- context [_create_iht ?W] =>
    destruct (create_iht_returns W) as (w1 & E1 & Hs1 & Hp1 & Hl1 & Ht1 & Ho1 & Hu1);
      [exact Hrc|]; rewrite E1; clear E1
  end.
  mstep. rewrite Hp1, Hrc, Z.eqb_refl. mstep.
  match goal with
  | |- context [pthread_once TSD_KEY_ONCE set_TSD_KEY_ONCE _tsd_key_new ?W] =>
    destruct (tsd_key_once_returns W) as (w2 & E2 & Hs2 & Hp2 & Hl2 & Ht2 & Hu2);
      [wsimpl; intros t; rewrite Hp1; apply Hrc
      |wsimpl; congruence|]; rewrite E2; clear E2
  end.
  mstep. rewrite Z.eqb_refl. mstep.
  destruct (get_tsd_fresh w2) as (w3 & tsd & E3 & Hs3 & Hp3 & Hl3 & Ht3 & Hf3);
    [intros t; rewrite Hp2, Hp1; apply Hrc
    |intros t; rewrite Hp2, Hp1; apply Hzmq
    |exact Ht2|rewrite Hu2, Hu1; discriminate|].
  rewrite E3. clear E3. mstep.
  destruct (snd_str_returns READY_CTRL_MSG_REQ w3) as (w4 & E4 & Hs4 & Hp4 & Hl4 & Ht4);
    [intros t; rewrite Hp3, Hp2, Hp1; apply Hzmq|].
  rewrite E4. clear E4. mstep.
  destruct (rcv_str_returns w4) as (w5 & E5 & Hs5 & Hp5 & Hl5 & Ht5);
    [intros t; rewrite Hp4, Hp3, Hp2, Hp1; apply Hzmq|].
  rewrite E5. clear E5. mstep.
  rewrite Hp4, Hp3, Hp2, Hp1, Hrcv.
  assert (Hcmp : (0 =? strcmp READY_CTRL_MSG_REP READY_CTRL_MSG_REP)%Z = true)
    by reflexivity.
  rewrite Hcmp. mstep.
  exists w5, tsd. split; [reflexivity|].
  repeat apply conj; congruence.
Qed.





















Lemma friendly_ok : platform_ok friendly.
Proof. repeat split; intros t; reflexivity. Qed.



(** The two runs behind it. *)
Example init_without_sink_name :
  bxilog_init 0 (Some "prog") None (initial_world friendly)
  = Ret (bxierr_new BXILOG_CONFIG_ERR "Bad configuration") (initial_world friendly).
Proof. reflexivity. Qed.

Example finalize_with_failed_handler :
  (fun o => match o with
            | Ret e w' => Some (e, STATE w')
            | _ => None
            end) (bxilog_finalize 0 (initialized_world handler_failed))
  = Some (bxierr_gen "Too many errors, aborting.", FINALIZING).
Proof. vm_compute. reflexivity. Qed.

(** ** Proofs: the clock *)

(** C5. In [bxilog_vlog_nolevelcheck], when [bxitime_get] fails the
    function returns the clock error at once: no timestamp is substituted,
    nothing is put on the data channel, the only change is that one more
    platform call was made. *)
Theorem vlog_returns_clock_error
        (fuel : nat) (a : positive) (lg : bxilog_s) (l : bxilog_level_e)
        (filename : string) (filename_len : nat)
        (funcname : string) (funcname_len : nat) (line : Z) (msg : string)
        (w : world) (tsd : tsd_s) (err : bxierr) (now : timespec) :
  STATE w = INITIALIZED ->
  TSD w = Some tsd -> tsd_freed tsd = false ->
  loggers w !! a = Some lg ->
  strlen msg < DEFAULT_LOG_BUF_SIZE ->
  bxitime_get (pf w) (tick w) = (err, now) -> bxierr_isko err = true ->
  bxilog_vlog_nolevelcheck fuel (Some a) l filename filename_len
                           funcname funcname_len line msg w
  = Ret err (set_tick (S (tick w)) w).
Proof.
  intros Hst Ht Hf Hlg Hmsg Hclock Hko.
  rewrite vlog_unfold. unfold vlog_body. mstep. rewrite Hst.
  change (state_eqb INITIALIZED INITIALIZED) with true. mstep.
  rewrite (get_tsd_cached w tsd Ht Hf). mstep.
  apply Nat.ltb_lt in Hmsg. rewrite Hmsg. unfold deref. mstep. rewrite Hlg. mstep.
  rewrite Hclock. mstep. rewrite Hko. reflexivity.
Qed.

Lemma vlog_returns_clock_error_witness :
  STATE (initialized_world clockless) = INITIALIZED /\
  bxilog_vlog_nolevelcheck 1 BXILOG_INTERNAL_LOGGER BXILOG_INFO "f.c" 4 "fn" 3 10
                           "hello" (initialized_world clockless)
  = Ret (bxierr_errno "Calling clock_gettime() failed")
        (set_tick (S (tick (initialized_world clockless))) (initialized_world clockless)) /\
  data_channel (initialized_world clockless) = [].
Proof.
  split; [vm_compute; reflexivity|]. split; [|vm_compute; reflexivity].
  eapply (vlog_returns_clock_error 1 1%positive _ BXILOG_INFO "f.c" 4 "fn" 3 10 "hello"
            (initialized_world clockless)).
  - vm_compute. reflexivity.
  - vm_compute. reflexivity.
  - reflexivity.
  - vm_compute. reflexivity.
  - vm_compute. lia.
  - vm_compute. reflexivity.
  - reflexivity.
Defined.

(** ** Proofs: the handler thread *)

(** What the loop of [_basename] computes: it looks at the bytes
    [path[path_len]] down to [path[1]] and never at [path[0]]. *)
Lemma basename_loop_spec (buf : list ascii) (path : nat) (c : nat) (w : world) :
  (forall j, 1 <= j <= c -> is_Some (buf !! (path + j))) ->
  exists r,
    basename_loop buf path c w = Ret r w /\
    ((r = 0 /\ forall j, 1 <= j <= c -> buf !! (path + j) <> Some SLASH) \/
     (exists j, r = S j /\ 1 <= j <= c /\ buf !! (path + j) = Some SLASH /\
                forall j', j < j' <= c -> buf !! (path + j') <> Some SLASH)).
Proof.
  induction c as [|c IH]; intros Hin.
  - exists 0. split; [reflexivity|]. left. split; [reflexivity|]. intros; lia.
  - cbn [basename_loop]. destruct (Hin (S c)) as [ch Hch]; [lia|]. rewrite Hch.
    destruct (Ascii.eqb ch SLASH) eqn:E.
    + apply Ascii.eqb_eq in E. subst ch. exists (S c + 1). split; [reflexivity|].
      right. exists (S c). split; [lia|]. split; [lia|]. split; [exact Hch|].
      intros; lia.
    + apply Ascii.eqb_neq in E.
      destruct IH as (r & Hr & Hcase); [intros j Hj; apply Hin; lia|].
      exists r. split; [exact Hr|].
      assert (Htop : buf !! (path + S c) <> Some SLASH) by congruence.
      destruct Hcase as [(-> & Hno)|(j & -> & Hj & Hslash & Hno)].
      * left. split; [reflexivity|]. intros j Hj.
        destruct (decide (j = S c)) as [->|]; [exact Htop|apply Hno; lia].
      * right. exists j. split; [reflexivity|]. split; [lia|]. split; [exact Hslash|].
        intros j' Hj'. destruct (decide (j' = S c)) as [->|]; [exact Htop|apply Hno; lia].
Qed.

(** C8. For the path [/foo.c], whose basename is [foo.c], [_basename]
    returns the path unchanged: its loop stops before index 0, where the
    only ['/'] is, and the FILE field of the output line is [/foo.c]. *)
Theorem basename_keeps_leading_slash :
  basename_spec "/foo.c" = "foo.c"%string /\
  (forall w, _basename (data slash_frame) 0 (filename_len (header slash_frame)) w
             = Ret 0 w) /\
  cstring_at (data slash_frame) 0 = Some "/foo.c"%string /\
  string_of_list_ascii
    <$> writes_to STDOUT_FILENO
          (trace_of (_process_data (handler_world friendly [slash_frame])))
  = ["I|19700101T000000.000000000|04242.04243=00007:prog|/foo.c:10@fn|l|hello"
       +:+ String LF ""].
Proof.
  split; [reflexivity|]. split; [intros w; reflexivity|].
  split; [reflexivity|]. vm_compute. reflexivity.
Qed.

(** A path with a ['/'] further in is cut as the basename is. *)
Example basename_of_src_a_c :
  forall w, _basename (data two_line_frame) 0 (filename_len (header two_line_frame)) w
            = Ret 4 w /\
            cstring_at (data two_line_frame) 4 = Some (basename_spec "src/a.c").
Proof. intros w. split; reflexivity. Qed.

Lemma sys_write_call_eq (fildes : Z) (buf : list ascii) (w : world) :
  sys_write_call fildes buf w
  = Ret (write_result (sys_write (pf w) (tick w)) buf)
        (set_trace (trace w ++ [EvWrite fildes buf
                                        (write_result (sys_write (pf w) (tick w)) buf)])
                   (set_tick (S (tick w)) w)).
Proof. unfold sys_write_call, write_result. mstep. reflexivity. Qed.

Lemma write_result_nonneg (r : option nat) (buf : list ascii) :
  r <> None -> (0 <=? write_result r buf)%Z = true.
Proof. destruct r as [k|]; [|congruence]. intros _. cbn. apply Z.leb_le. lia. Qed.

(** C6 (amended). For every rendered line, when the [write] to the sink
    returns 0 or fails, the handler writes the explanatory note and then the
    line to standard error; when it returns a positive count, be it the
    length of the line or less, nothing is written to standard error. *)
Theorem write_line_fallback (msg : list ascii) (loglen : nat) (w : world) :
  let line := take loglen msg in
  let r := write_result (sys_write (pf w) (tick w)) line in
  let r1 := write_result (sys_write (pf w) (S (tick w))) (cant_write_note w) in
  let r2 := write_result (sys_write (pf w) (S (S (tick w)))) line in
  ((r <= 0)%Z ->
   sys_write (pf w) (S (tick w)) <> None ->
   sys_write (pf w) (S (S (tick w))) <> None ->
   exists w',
     write_line msg loglen w = Ret tt w' /\
     trace w' = trace w ++ [EvWrite (fd (IHT_DATA w)) line r;
                            EvWrite STDERR_FILENO (cant_write_note w) r1;
                            EvWrite STDERR_FILENO line r2]) /\
  ((0 < r)%Z ->
   exists w',
     write_line msg loglen w = Ret tt w' /\
     trace w' = trace w ++ [EvWrite (fd (IHT_DATA w)) line r]).
Proof.
  intros line r r1 r2. unfold write_line. split.
  - intros Hr H1 H2. mstep. rewrite sys_write_call_eq. mstep. fold line. fold r.
    apply Z.leb_le in Hr. rewrite Hr. mstep.
    rewrite sys_write_call_eq. mstep.
    unfold cant_write_note in r1. fold r1.
    assert (Hr1 : (0 <=? r1)%Z = true) by (now apply write_result_nonneg).
    rewrite Hr1. mstep. rewrite sys_write_call_eq. mstep. fold line. fold r2.
    assert (Hr2 : (0 <=? r2)%Z = true) by (now apply write_result_nonneg).
    rewrite Hr2. mstep. eexists. split; [reflexivity|]. wsimpl.
    rewrite <- !app_assoc. reflexivity.
  - intros Hr. mstep. rewrite sys_write_call_eq. mstep. fold line. fold r.
    apply Z.leb_gt in Hr. rewrite Hr. mstep. eexists. split; reflexivity.
Qed.

Lemma write_line_fallback_witness :
  let line := list_ascii_of_string ("hello" +:+ String LF "") in
  (exists w',
      write_line line 6 (set_tick 0 (handler_world first_write_fails [])) = Ret tt w' /\
      trace w' = [EvWrite STDOUT_FILENO line (-1);
                  EvWrite STDERR_FILENO
                          (cant_write_note (handler_world first_write_fails [])) 50;
                  EvWrite STDERR_FILENO line 6]) /\
  (exists w',
      write_line line 6 (set_tick 0 (handler_world short_writer [])) = Ret tt w' /\
      trace w' = [EvWrite STDOUT_FILENO line 3]).
Proof.
  intros line. split.
  - destruct (proj1 (write_line_fallback line 6
                       (set_tick 0 (handler_world first_write_fails []))))
      as (w' & Hrun & Htr).
    + vm_compute. discriminate.
    + vm_compute. discriminate.
    + vm_compute. discriminate.
    + exists w'. split; [exact Hrun|]. rewrite Htr. vm_compute. reflexivity.
  - destruct (proj2 (write_line_fallback line 6
                       (set_tick 0 (handler_world short_writer []))))
      as (w' & Hrun & Htr).
    + vm_compute. reflexivity.
    + exists w'. split; [exact Hrun|]. rewrite Htr. vm_compute. reflexivity.
Defined.

(** C6 as stated does not hold: the sink takes 3 bytes of each of the two
    rendered lines, which are 65 bytes long, and nothing is written to
    standard error. *)
Lemma short_write_without_fallback :
  let tr := trace_of (_process_data (handler_world short_writer [two_line_frame])) in
  omap (fun e => match e with
                 | EvWrite f buf res => Some (f, length buf, res)
                 | _ => None
                 end) tr
  = [(STDOUT_FILENO, 65, 3%Z); (STDOUT_FILENO, 65, 3%Z)] /\
  writes_to STDERR_FILENO tr = [].
Proof. vm_compute. split; reflexivity. Qed.
(** C4. For the record logged from line 10000 of [a.c] by the program
    [prog], whose message [x\ny] has one line feed, [_process_data] writes
    no line at all: the buffer [_log_single_line] declares for the first
    segment has 67 bytes, the rendered line has 68, and the assertion of
    [_mkmsg] stops the process before anything is written. *)
Theorem process_data_far_line_aborts :
  count_lf (drop (variable_len (header far_line_frame)) (data far_line_frame)) = 1 /\
  (exists w', _process_data (handler_world friendly [far_line_frame])
              = Abort (AssertFailed "written <= (int)n") w' /\
              writes_to STDOUT_FILENO (trace w') = [] /\
              writes_to STDERR_FILENO (trace w') = []) /\
  (exists text,
      render (handler_world friendly []) (header far_line_frame) "a.c" "fn" "l"
             (list_ascii_of_string "x") = Some text /\
      String.length text = 68 /\
      FIXED_LOG_SIZE + PROGNAME_LEN (handler_world friendly [])
      + variable_len (header far_line_frame) + 1 + 1 = 67).
Proof.
  split; [vm_compute; reflexivity|]. split.
  - eexists. split; [vm_compute; reflexivity|]. split; vm_compute; reflexivity.
  - eexists. split; [vm_compute; reflexivity|]. split; vm_compute; reflexivity.
Qed.

(** From line 1000 the first line is written without its line feed: the
    buffer has room for 66 of its 67 bytes, and the byte written in the
    place of the line feed is the NUL that ends the buffer. *)
Example process_data_line_1000 :
  string_of_list_ascii
    <$> writes_to STDOUT_FILENO
          (trace_of (_process_data (handler_world friendly [line_1000_frame])))
  = ["I|19700101T000000.000000000|04242.04243=00007:prog|a.c:1000@fn|l|x"
       +:+ String NUL "";
     "I|19700101T000000.000000000|04242.04243=00007:prog|a.c:1000@fn|l|y"
       +:+ String LF ""].
Proof. vm_compute. reflexivity. Qed.

(** From line 10 of [src/a.c] the two lines are written as expected. *)
Example process_data_two_lines :
  string_of_list_ascii
    <$> writes_to STDOUT_FILENO
          (trace_of (_process_data (handler_world friendly [two_line_frame])))
  = ["I|19700101T000000.000000000|04242.04243=00007:prog|a.c:10@fn|l|x"
       +:+ String LF "";
     "I|19700101T000000.000000000|04242.04243=00007:prog|a.c:10@fn|l|y"
       +:+ String LF ""].
Proof. vm_compute. reflexivity. Qed.

(** ** Proofs: cutting a message into lines *)


Lemma cstring_nul_free (l post : list ascii) :
  nul_free l -> cstring (l ++ NUL :: post) = Some (string_of_list_ascii l).
Proof.
  induction 1 as [|c l Hc Hl IH]; [reflexivity|].
  cbn [cstring app string_of_list_ascii].
  apply Ascii.eqb_neq in Hc. rewrite Hc, IH. reflexivity.
Qed.

Lemma cstring_ends_nul (l : list ascii) : is_Some (cstring (l ++ [NUL])).
Proof.
  induction l as [|c l [s Hs]]; [now exists EmptyString|].
  cbn [cstring app]. destruct (Ascii.eqb c NUL); [eauto|]. rewrite Hs. cbn. eauto.
Qed.


Lemma nul_free_of_string (s : string) :
  no_nul s = true -> nul_free (list_ascii_of_string s).
Proof.
  induction s as [|c s IH]; intros H; [constructor|].
  cbn [no_nul] in H. apply andb_true_iff in H as [Hc Hs].
  constructor; [|now apply IH].
  apply negb_true_iff in Hc. now apply Ascii.eqb_neq in Hc.
Qed.







(** ** Proofs: level names *)

Lemma tolower_nul (c : ascii) : tolower c = NUL -> c = NUL.
Proof.
  destruct c as [[] [] [] [] [] [] [] []]; vm_compute; intros H;
    first [reflexivity | discriminate H].
Qed.

Lemma nat_of_ascii_nul (c : ascii) : nat_of_ascii c = 0 -> c = NUL.
Proof. intros H. apply nat_of_ascii_inj. rewrite H. reflexivity. Qed.

Lemma strlen_no_nul (s : string) : no_nul s = true -> strlen s = String.length s.
Proof.
  induction s as [|c s IH]; [reflexivity|]. cbn [no_nul strlen String.length].
  intros H. apply andb_true_iff in H as [Hc Hs]. apply negb_true_iff in Hc.
  rewrite Hc. now rewrite IH.
Qed.

(** [strncasecmp] finds two C strings equal exactly when their lower-case
    forms are the same, provided [n] exceeds the length of the first. *)
Lemma strncasecmp_lower (s1 : string) :
  forall (s2 : string) (n : nat),
    no_nul s1 = true -> no_nul s2 = true -> String.length s1 < n ->
    (0 =? strncasecmp s1 s2 n)%Z = String.eqb (lower s1) (lower s2).
Proof.
  induction s1 as [|a s1 IH]; intros s2 n H1 H2 Hn;
    (destruct n as [|n]; [cbn in Hn; lia|]); cbn [strncasecmp char0 str_tail lower].
  - destruct s2 as [|b s2]; [reflexivity|].
    cbn [no_nul] in H2. apply andb_true_iff in H2 as [Hb _].
    apply negb_true_iff, Ascii.eqb_neq in Hb.
    cbn [char0 lower String.eqb]. change (tolower NUL) with NUL.
    destruct (Ascii.eqb NUL (tolower b)) eqn:E.
    + apply Ascii.eqb_eq in E. symmetry in E. now apply tolower_nul in E.
    + cbn [negb]. apply Z.eqb_neq. intros H0.
      assert (Hz : nat_of_ascii (tolower b) = 0)
        by (pose proof (eq_refl : nat_of_ascii NUL = 0); lia).
      apply nat_of_ascii_nul, tolower_nul in Hz. contradiction.
  - cbn [no_nul] in H1. apply andb_true_iff in H1 as [Ha H1].
    apply negb_true_iff, Ascii.eqb_neq in Ha.
    assert (Hla : tolower a <> NUL) by (intros E; now apply tolower_nul in E).
    destruct s2 as [|b s2]; cbn [char0 str_tail lower String.eqb].
    + change (tolower NUL) with NUL.
      apply Ascii.eqb_neq in Hla. rewrite Hla. cbn [negb].
      apply Z.eqb_neq. intros H0. apply Ascii.eqb_neq in Hla.
      assert (Hz : nat_of_ascii (tolower a) = 0)
        by (pose proof (eq_refl : nat_of_ascii NUL = 0); lia).
      now apply nat_of_ascii_nul in Hz.
    + cbn [no_nul] in H2. apply andb_true_iff in H2 as [_ H2].
      destruct (Ascii.eqb (tolower a) (tolower b)) eqn:E; cbn [negb].
      * apply Ascii.eqb_neq in Hla. rewrite Hla.
        apply IH; [exact H1|exact H2|cbn in Hn; lia].
      * apply Z.eqb_neq. intros H0. apply Ascii.eqb_neq in E. apply E.
        apply nat_of_ascii_inj. lia.
Qed.

Lemma strcasecmp_lower (s1 s2 : string) :
  no_nul s1 = true -> no_nul s2 = true ->
  (0 =? strcasecmp s1 s2)%Z = String.eqb (lower s1) (lower s2).
Proof.
  intros H1 H2. unfold strcasecmp. apply strncasecmp_lower; [exact H1|exact H2|].
  rewrite (strlen_no_nul s1 H1). lia.
Qed.

(** X1. For every level name given as a C string, [bxilog_get_level_from_str]
    compares without regard to case: it returns success and the level
    listed for the lower-cased name when that name is one of the twelve
    level names or of the aliases emergency, crit, err, warn and out, and
    otherwise an error with the level set to lowest. *)
Theorem get_level_from_str_spec (level_str : string) :
  no_nul level_str = true ->
  bxilog_get_level_from_str level_str
  = match alias_level level_aliases (lower level_str) with
    | Some l => (BXIERR_OK, l)
    | None => (bxierr_gen ("Bad log level name: " +:+ level_str), BXILOG_LOWEST)
    end.
Proof.
  intros H. unfold bxilog_get_level_from_str.
  rewrite !(strcasecmp_lower _ level_str) by (exact H || reflexivity).
  repeat match goal with
         | |- context [String.eqb (lower (String ?c ?a)) _] =>
           let v := eval vm_compute in (lower (String c a)) in
           change (lower (String c a)) with v
         end.
  cbn [alias_level level_aliases].
  repeat match goal with
         | |- context [String.eqb ?a (lower level_str)] =>
           destruct (String.eqb a (lower level_str)); cbn [orb]; [reflexivity|]
         end.
  reflexivity.
Qed.

Lemma get_level_from_str_spec_witness :
  no_nul "WaRn" = true /\
  bxilog_get_level_from_str "WaRn" = (BXIERR_OK, BXILOG_WARN).
Proof.
  split; [reflexivity|].
  exact (get_level_from_str_spec "WaRn" eq_refl).
Defined.

(** X2. Every name of [_LOG_LEVEL_NAMES] is read back by
    [bxilog_get_level_from_str] as the level whose name it is, and the
    table has one name per level. *)
Theorem level_name_round_trip (l : bxilog_level_e) :
  bxilog_get_level_from_str (level_name l) = (BXIERR_OK, l) /\
  snd bxilog_get_all_level_names = length all_levels.
Proof. split; [destruct l; vm_compute; reflexivity|reflexivity]. Qed.
(** ** Proofs: registering *)

Lemma registered_store_returns (i : nat) (p : bxilog_p) (arr : list bxilog_p) (w : world) :
  REGISTERED_LOGGERS w = Some arr -> i < length arr ->
  registered_store i p w
  = Ret tt (set_REGISTERED_LOGGERS (Some (<[i := p]> arr))
              (set_trace (trace w ++ [EvRegistry]) w)).
Proof.
  intros Harr Hi. unfold registered_store. mstep. rewrite Harr.
  rewrite decide_True by exact Hi. reflexivity.
Qed.

Lemma trace_since_app (w w' : world) (tr : list event) :
  trace w' = trace w ++ tr -> trace_since w w' = tr.
Proof. intros H. unfold trace_since. rewrite H. apply drop_app_length. Qed.

(** The first part of [bxilog_register]: the lock is taken and the array
    has room for one more entry. *)
Lemma register_makes_room (w : world) :
  registry_wf w -> pthread_ok w ->
  exists (arr : list bxilog_p) (tr : list event) (w1 : world),
    (rc <- pthread_mutex_lock register_lock ;;
     assert_ (0 =? rc)%Z "0 == rc" ;;
     arr <- gets REGISTERED_LOGGERS ;;
     nb <- gets REGISTERED_LOGGERS_NB ;;
     size <- gets REGISTERED_LOGGERS_ARRAY_SIZE ;;
     match arr with
     | None =>
       emit EvRegistry ;;
       modify (set_REGISTERED_LOGGERS (Some (replicate size None)))
     | Some a =>
       if size <=? nb then
         emit EvRegistry ;;
         modify (set_REGISTERED_LOGGERS_ARRAY_SIZE (size + 10)) ;;
         emit EvRegistry ;;
         modify (set_REGISTERED_LOGGERS (Some (resize (size + 10) None a))) ;;
         fprintf_stderr ("[I] Reallocation of " +:+ pretty (size + 10)
                         +:+ " slots for (currently) " +:+ pretty nb
                         +:+ " registered loggers" +:+ String "010" "")
       else ret tt
     end) w = Ret tt w1 /\
    REGISTERED_LOGGERS w1 = Some arr /\
    length arr = REGISTERED_LOGGERS_ARRAY_SIZE w1 /\
    REGISTERED_LOGGERS_NB w < length arr /\
    (forall i, i < REGISTERED_LOGGERS_NB w ->
               registered_at w i = match arr !! i with
                                   | Some (Some a) => Some a
                                   | _ => None
                                   end) /\
    REGISTERED_LOGGERS_NB w1 = REGISTERED_LOGGERS_NB w /\
    loggers w1 = loggers w /\ pf w1 = pf w /\ tick w1 = S (tick w) /\
    trace w1 = trace w ++ EvLock register_lock :: tr /\
    (forall rest, lock_discipline true (tr ++ rest) = lock_discipline true rest).
Proof.
  intros (Hsize & Hwf) Hrc. mstep. rewrite Hrc, Z.eqb_refl. mstep.
  unfold registered_at.
  destruct (REGISTERED_LOGGERS w) as [arr|] eqn:Harr.
  - destruct Hwf as (Hlen & Hnb).
    destruct (REGISTERED_LOGGERS_ARRAY_SIZE w <=? REGISTERED_LOGGERS_NB w) eqn:E; mstep.
    + apply Nat.leb_le in E.
      exists (resize (REGISTERED_LOGGERS_ARRAY_SIZE w + 10) None arr). eexists. eexists.
      split; [reflexivity|]. wsimpl. rewrite length_resize.
      repeat apply conj; try reflexivity; try lia;
        try (intros i Hi; rewrite lookup_resize by lia; reflexivity);
        try (rewrite <- !app_assoc; cbn [app]; reflexivity);
        try (intros rest; reflexivity).
    + apply Nat.leb_gt in E. exists arr, []. eexists.
      split; [reflexivity|]. wsimpl.
      repeat apply conj; try reflexivity; try lia; try assumption.
  - exists (replicate (REGISTERED_LOGGERS_ARRAY_SIZE w) None). eexists. eexists.
    split; [reflexivity|]. wsimpl. rewrite length_replicate.
    repeat apply conj; try reflexivity; try lia;
      try (rewrite <- !app_assoc; cbn [app]; reflexivity);
      try (intros rest; reflexivity).
Qed.

(** X3. [bxilog_register] of a logger returns whenever the registry is well
    formed and the mutex calls succeed: the logger is stored in the entry
    the counter pointed to, the counter grows by one, the entries counted
    before are kept (also when the array is reallocated), the registry
    stays well formed, non-NULL entries stay non-NULL, the logger objects
    are untouched and every store is made between one lock and one unlock of
    the registry mutex. *)
Theorem register_appends (a : positive) (w : world) :
  registry_wf w -> pthread_ok w ->
  exists w',
    bxilog_register (Some a) w = Ret tt w' /\
    registry_wf w' /\
    REGISTERED_LOGGERS_NB w' = S (REGISTERED_LOGGERS_NB w) /\
    registered_at w' (REGISTERED_LOGGERS_NB w) = Some a /\
    (forall i, i < REGISTERED_LOGGERS_NB w -> registered_at w' i = registered_at w i) /\
    (entries_nonnull w = true -> entries_nonnull w' = true) /\
    loggers w' = loggers w /\
    lock_discipline false (trace_since w w') = true.
Proof.
  intros Hwf Hrc.
  destruct (register_makes_room w Hwf Hrc)
    as (arr & tr & w1 & Hrun & Harr & Hlen & Hnb & Hold & Hnb1 & Hlg & Hpf & Htick & Htr & Hdisc).
  assert (Hw' : exists w',
             bxilog_register (Some a) w = Ret tt w' /\
             REGISTERED_LOGGERS w' = Some (<[REGISTERED_LOGGERS_NB w := Some a]> arr) /\
             REGISTERED_LOGGERS_NB w' = S (REGISTERED_LOGGERS_NB w) /\
             REGISTERED_LOGGERS_ARRAY_SIZE w' = REGISTERED_LOGGERS_ARRAY_SIZE w1 /\
             loggers w' = loggers w /\
             trace w' = trace w ++ EvLock register_lock ::
                        tr ++ [EvRegistry; EvRegistry; EvUnlock register_lock]).
  { unfold bxilog_register. cbn [is_null negb]. unfold assert_ at 1.
    unfold bind at 1. unfold ret at 1.
    revert Hrun. mstep. intros Hrun.
    rewrite Hrc, Z.eqb_refl in *. mstep.
    match goal with
    | |- context [match ?scrut with Ret _ _ => _ | Abort _ _ => _ | OutOfFuel => _ end] =>
      match type of Hrun with
      | ?lhs = _ => change scrut with lhs
      end
    end.
    rewrite Hrun. clear Hrun.
    rewrite (registered_store_returns _ _ arr) by (assumption || lia). mstep.
    rewrite Hpf, Hrc, Z.eqb_refl. mstep.
    eexists. split; [reflexivity|]. wsimpl.
    repeat apply conj; try reflexivity; try assumption.
    rewrite Htr. repeat (rewrite <- app_assoc; cbn [app]). reflexivity. }
  destruct Hw' as (w' & Hreg & Harr' & Hnb' & Hsize' & Hlg' & Htr').
  exists w'. split; [exact Hreg|].
  assert (Hat : forall i, i < REGISTERED_LOGGERS_NB w ->
                          registered_at w' i = registered_at w i).
  { intros i Hi. rewrite (Hold i Hi). unfold registered_at. rewrite Harr'.
    rewrite list_lookup_insert_ne by lia. reflexivity. }
  assert (Hnew : registered_at w' (REGISTERED_LOGGERS_NB w) = Some a).
  { unfold registered_at. rewrite Harr'.
    rewrite list_lookup_insert_eq by exact Hnb. reflexivity. }
  split.
  { destruct Hwf as (Hpos & _). unfold registry_wf. rewrite Harr', Hsize', Hnb'.
    rewrite length_insert. split; [lia|]. split; [exact Hlen|lia]. }
  split; [exact Hnb'|]. split; [exact Hnew|]. split; [exact Hat|].
  split.
  { intros Hinv. apply entries_nonnull_spec. intros i Hi. rewrite Hnb' in Hi.
    destruct (decide (i = REGISTERED_LOGGERS_NB w)) as [->|Hne]; [eauto|].
    rewrite Hat by lia. apply (proj1 (entries_nonnull_spec w) Hinv). lia. }
  split; [exact Hlg'|].
  rewrite (trace_since_app w w' _ Htr'). cbn [lock_discipline negb andb].
  rewrite Hdisc. reflexivity.
Qed.

Lemma register_appends_witness :
  registry_wf two_registered /\ pthread_ok two_registered /\
  exists w',
    bxilog_register (Some 5%positive) two_registered = Ret tt w' /\
    REGISTERED_LOGGERS_NB w' = 3 /\ registered_at w' 2 = Some 5%positive.
Proof.
  assert (Hwf : registry_wf two_registered) by (vm_compute; repeat split; lia).
  assert (Hrc : pthread_ok two_registered) by (intros t; reflexivity).
  split; [exact Hwf|]. split; [exact Hrc|].
  destruct (register_appends 5 two_registered Hwf Hrc)
    as (w' & Hrun & _ & Hnb & Hat & _).
  exists w'. split; [exact Hrun|]. split; [exact Hnb|exact Hat].
Defined.
(** ** Proofs: unregistering *)

(** The loop of [bxilog_unregister] from index [i], [k] entries to go: the
    entries equal to [logger] are overwritten with [NULL], the others are
    kept, and the result tells whether one was found. *)
Lemma unregister_loop_spec (a : positive) (k : nat) :
  forall (i : nat) (found : bool) (arr : list bxilog_p) (w : world),
    REGISTERED_LOGGERS w = Some arr -> i + k <= length arr ->
    exists (b : bool) (arr' : list bxilog_p) (tr : list event) (w' : world),
      unregister_loop (Some a) k i found w = Ret b w' /\
      (b = true <-> found = true \/ exists j, i <= j < i + k /\ arr !! j = Some (Some a)) /\
      REGISTERED_LOGGERS w' = Some arr' /\ length arr' = length arr /\
      (forall j, arr' !! j = if decide (i <= j < i + k /\ arr !! j = Some (Some a))
                             then Some None else arr !! j) /\
      REGISTERED_LOGGERS_NB w' = REGISTERED_LOGGERS_NB w /\
      REGISTERED_LOGGERS_ARRAY_SIZE w' = REGISTERED_LOGGERS_ARRAY_SIZE w /\
      loggers w' = loggers w /\ pf w' = pf w /\ tick w' = tick w /\
      trace w' = trace w ++ tr /\ forallb is_registry_store tr = true.
Proof.
  induction k as [|k IH]; intros i found arr w Harr Hlen.
  - exists found, arr, [], w. cbn [unregister_loop]. rewrite app_nil_r.
    repeat apply conj; try reflexivity; try assumption.
    + intros H. now left.
    + intros [H|(j & Hj & _)]; [exact H|lia].
    + intros j. rewrite decide_False by (intros (Hj & _); lia). reflexivity.
  - cbn [unregister_loop]. unfold registered_load. mstep. rewrite Harr.
    destruct (arr !! i) as [p|] eqn:Hi;
      [|apply lookup_ge_None in Hi; lia].
    mstep. unfold ptr_eqb. destruct (decide (p = Some a)) as [->|Hne].
    + rewrite bool_decide_eq_true_2 by reflexivity.
      rewrite (registered_store_returns i None arr) by (assumption || lia).
      destruct (IH (S i) true (<[i := None]> arr)
                   (set_REGISTERED_LOGGERS (Some (<[i := None]> arr))
                      (set_trace (trace w ++ [EvRegistry]) w)))
        as (b & arr' & tr & w' & Hrun & Hb & Harr' & Hlen' & Hget & Hnb & Hsz & Hlg & Hpf
            & Htk & Htr & Hall);
        [reflexivity|rewrite length_insert; lia|].
      exists b, arr', (EvRegistry :: tr), w'. rewrite Hrun.
      rewrite length_insert in Hlen'.
      revert Hnb Hsz Hlg Hpf Htk Htr. wsimpl. intros Hnb Hsz Hlg Hpf Htk Htr.
      repeat apply conj; try reflexivity; try assumption.
      * intros _. right. exists i. split; [lia|exact Hi].
      * intros _. apply Hb. now left.
      * intros j. rewrite Hget.
        destruct (decide (j = i)) as [->|Hji].
        -- rewrite decide_False by (intros (Hj & _); lia).
           rewrite list_lookup_insert_eq by lia.
           rewrite decide_True by (split; [lia|exact Hi]). reflexivity.
        -- rewrite list_lookup_insert_ne by congruence.
           destruct (decide (S i <= j < S i + k /\ arr !! j = Some (Some a)))
             as [(Hj & Hv)|Hn].
           ++ rewrite decide_True by (split; [lia|exact Hv]). reflexivity.
           ++ rewrite decide_False; [reflexivity|].
              intros (Hj & Hv). apply Hn. split; [lia|exact Hv].
      * rewrite Htr, <- app_assoc. reflexivity.
    + rewrite bool_decide_eq_false_2 by exact Hne.
      destruct (IH (S i) found arr w Harr)
        as (b & arr' & tr & w' & Hrun & Hb & Harr' & Hlen' & Hget & Hnb & Hsz & Hlg & Hpf
            & Htk & Htr & Hall);
        [lia|].
      exists b, arr', tr, w'. rewrite Hrun.
      repeat apply conj; try reflexivity; try assumption.
      * intros H. apply Hb in H as [H|(j & Hj & Hv)]; [now left|].
        right. exists j. split; [lia|exact Hv].
      * intros [H|(j & Hj & Hv)]; apply Hb; [now left|].
        right. exists j. split; [|exact Hv].
        destruct (decide (j = i)) as [->|]; [congruence|lia].
      * intros j. rewrite Hget.
        destruct (decide (i <= j < i + S k /\ arr !! j = Some (Some a))) as [(Hj & Hv)|Hn].
        -- rewrite decide_True; [reflexivity|]. split; [|exact Hv].
           destruct (decide (j = i)) as [->|]; [congruence|lia].
        -- rewrite decide_False; [reflexivity|].
           intros (Hj & Hv). apply Hn. split; [lia|exact Hv].
Qed.

Lemma registered_at_lookup (w : world) (arr : list bxilog_p) (j : nat) (a : positive) :
  REGISTERED_LOGGERS w = Some arr ->
  registered_at w j = Some a <-> arr !! j = Some (Some a).
Proof.
  intros Harr. unfold registered_at. rewrite Harr.
  destruct (arr !! j) as [[b|]|]; split; intros H; congruence.
Qed.

(** X4. [bxilog_unregister] of a logger registered exactly once returns,
    decrements the counter, overwrites the logger's entry with [NULL]
    without moving the others, and makes its stores between one lock and
    one unlock of the registry mutex; the first [REGISTERED_LOGGERS_NB]
    entries are all non-NULL afterwards exactly when the logger was in the
    last counted entry. *)
Theorem unregister_keeps_entries_iff_last (a : positive) (i0 : nat) (w : world) :
  registry_wf w -> pthread_ok w -> entries_nonnull w = true ->
  i0 < REGISTERED_LOGGERS_NB w ->
  registered_at w i0 = Some a ->
  (forall j, j < REGISTERED_LOGGERS_NB w -> j <> i0 -> registered_at w j <> Some a) ->
  exists w',
    bxilog_unregister (Some a) w = Ret tt w' /\
    REGISTERED_LOGGERS_NB w' = REGISTERED_LOGGERS_NB w - 1 /\
    registry_wf w' /\
    (1 < REGISTERED_LOGGERS_NB w ->
     registered_at w' i0 = None /\
     forall j, j < REGISTERED_LOGGERS_NB w -> j <> i0 ->
               registered_at w' j = registered_at w j) /\
    (entries_nonnull w' = true <-> i0 = REGISTERED_LOGGERS_NB w - 1) /\
    loggers w' = loggers w /\
    lock_discipline false (trace_since w w') = true.
Proof.
  intros (Hpos & Hwf) Hrc Hinv Hi0 Hat Honce.
  destruct (REGISTERED_LOGGERS w) as [arr|] eqn:Harr; [|lia].
  destruct Hwf as (Hlen & Hnb).
  pose proof (proj1 (entries_nonnull_spec w) Hinv) as Hall.
  assert (Hsome : forall j, j < REGISTERED_LOGGERS_NB w ->
                            exists b, arr !! j = Some (Some b)).
  { intros j Hj. destruct (Hall j Hj) as (b & Hb). exists b.
    now apply (registered_at_lookup w arr j b Harr). }
  apply (registered_at_lookup w arr i0 a Harr) in Hat.
  assert (Hother : forall j, j < REGISTERED_LOGGERS_NB w -> j <> i0 ->
                             arr !! j <> Some (Some a)).
  { intros j Hj Hne Hv. apply (Honce j Hj Hne).
    now apply (registered_at_lookup w arr j a Harr). }
  unfold bxilog_unregister. cbn [is_null negb]. mstep.
  rewrite Hrc, Z.eqb_refl. mstep.
  match goal with
  | |- context [unregister_loop ?l ?k ?i ?f ?W] =>
    destruct (unregister_loop_spec a k i f arr W)
      as (b & arr' & tr & w1 & Hrun & Hb & Harr' & Hlen' & Hget & Hnb1 & Hsz1 & Hlg1 & Hpf1
          & Htk1 & Htr1 & Hst);
      [exact Harr|lia|]; rewrite Hrun; clear Hrun
  end.
  revert Hnb1 Hsz1 Hlg1 Hpf1 Htk1 Htr1. wsimpl. intros Hnb1 Hsz1 Hlg1 Hpf1 Htk1 Htr1.
  assert (b = true) as ->.
  { apply Hb. right. exists i0. split; [lia|exact Hat]. }
  mstep.
  assert (Hget0 : arr' !! i0 = Some None).
  { rewrite Hget. rewrite decide_True by (split; [lia|exact Hat]). reflexivity. }
  assert (Hgetj : forall j, j <> i0 -> arr' !! j = arr !! j).
  { intros j Hne. rewrite Hget.
    destruct (decide (j < REGISTERED_LOGGERS_NB w)) as [Hj|Hj].
    - rewrite decide_False; [reflexivity|]. intros (_ & Hv). now apply (Hother j Hj Hne).
    - rewrite decide_False; [reflexivity|]. intros (Hr & _). lia. }
  destruct (Nat.pred (REGISTERED_LOGGERS_NB w) =? 0) eqn:E; mstep.
  - (* the last registered logger: the array is released *)
    apply Nat.eqb_eq in E. rewrite Hpf1, Hrc, Z.eqb_refl. mstep.
    eexists. split; [reflexivity|]. unfold registry_wf. wsimpl.
    split; [lia|]. split; [split; [lia|lia]|].
    split; [intros; lia|].
    split.
    { split; [intros _; lia|intros _].
      unfold entries_nonnull. wsimpl. rewrite E. reflexivity. }
    split; [exact Hlg1|].
    unfold trace_since. wsimpl. rewrite Htr1.
    repeat (rewrite <- app_assoc; cbn [app]). rewrite drop_app_length.
    cbn [lock_discipline negb andb]. rewrite lock_discipline_stores by exact Hst.
    reflexivity.
  - apply Nat.eqb_neq in E. rewrite Hpf1, Hrc, Z.eqb_refl. mstep.
    eexists. split; [reflexivity|]. unfold registry_wf. wsimpl.
    split; [lia|]. split; [rewrite Harr'; split; [lia|split; [lia|lia]]|].
    split.
    { intros _. unfold registered_at. wsimpl. rewrite Harr', Harr, Hget0.
      split; [reflexivity|]. intros j Hj Hne. now rewrite (Hgetj j Hne). }
    split.
    { rewrite entries_nonnull_spec. unfold registered_at. wsimpl. rewrite Harr'.
      split.
      - intros H. destruct (decide (i0 = REGISTERED_LOGGERS_NB w - 1)) as [|Hne];
          [assumption|].
        destruct (H i0) as (c & Hc); [lia|]. rewrite Hget0 in Hc. discriminate Hc.
      - intros -> j Hj. destruct (Hsome j) as (c & Hc); [lia|].
        exists c. rewrite Hgetj by lia. now rewrite Hc. }
    split; [exact Hlg1|].
    unfold trace_since. wsimpl. rewrite Htr1.
    repeat (rewrite <- app_assoc; cbn [app]). rewrite drop_app_length.
    cbn [lock_discipline negb andb]. rewrite lock_discipline_stores by exact Hst.
    reflexivity.
Qed.

Lemma unregister_keeps_entries_iff_last_witness :
  entries_nonnull two_registered = true /\
  exists w',
    bxilog_unregister (Some 3%positive) two_registered = Ret tt w' /\
    REGISTERED_LOGGERS_NB w' = 1 /\ entries_nonnull w' = true.
Proof.
  assert (Hinv : entries_nonnull two_registered = true) by (vm_compute; reflexivity).
  split; [exact Hinv|].
  destruct (unregister_keeps_entries_iff_last 3 1 two_registered)
    as (w' & Hrun & Hnb & _ & _ & Hiff & _).
  - vm_compute. repeat split; lia.
  - intros t. reflexivity.
  - exact Hinv.
  - vm_compute. lia.
  - vm_compute. reflexivity.
  - intros j Hj Hne. assert (j = 0) as -> by (vm_compute in Hj; lia).
    vm_compute. discriminate.
  - exists w'. split; [exact Hrun|]. split; [exact Hnb|]. apply Hiff. reflexivity.
Defined.

(** X5. [bxilog_unregister] of a logger that is in none of the counted
    entries returns and leaves the counter, the entries and the logger
    objects as they are; it writes the warning
    [[W] Can't find registered logger: <name>] to standard error, and when
    no logger is registered the array is released. *)
Theorem unregister_unknown_logger (a : positive) (lg : bxilog_s) (w : world) :
  registry_wf w -> pthread_ok w ->
  loggers w !! a = Some lg ->
  (forall j, j < REGISTERED_LOGGERS_NB w -> registered_at w j <> Some a) ->
  exists w',
    bxilog_unregister (Some a) w = Ret tt w' /\
    REGISTERED_LOGGERS_NB w' = REGISTERED_LOGGERS_NB w /\
    REGISTERED_LOGGERS w'
    = (if REGISTERED_LOGGERS_NB w =? 0 then None else REGISTERED_LOGGERS w) /\
    loggers w' = loggers w /\
    In (EvStderr ("[W] Can't find registered logger: " +:+ name lg)) (trace_since w w').
Proof.
  intros (Hpos & Hwf) Hrc Hlg Hnone.
  assert (Hloop : exists tr w1,
             unregister_loop (Some a) (REGISTERED_LOGGERS_NB w) 0 false
                             (set_tick (S (tick w))
                                (set_trace (trace w ++ [EvLock register_lock]) w))
             = Ret false w1 /\
             REGISTERED_LOGGERS w1 = REGISTERED_LOGGERS w /\
             REGISTERED_LOGGERS_NB w1 = REGISTERED_LOGGERS_NB w /\
             loggers w1 = loggers w /\ pf w1 = pf w /\
             trace w1 = (trace w ++ [EvLock register_lock]) ++ tr).
  { destruct (REGISTERED_LOGGERS w) as [arr|] eqn:Harr.
    - destruct Hwf as (Hlen & Hnb).
      destruct (unregister_loop_spec a (REGISTERED_LOGGERS_NB w) 0 false arr
                  (set_tick (S (tick w))
                     (set_trace (trace w ++ [EvLock register_lock]) w)))
        as (b & arr' & tr & w1 & Hrun & Hb & Harr' & Hlen' & Hget & Hnb1 & Hsz1 & Hlg1 & Hpf1
            & Htk1 & Htr1 & Hst); [exact Harr|lia|].
      revert Hnb1 Hsz1 Hlg1 Hpf1 Htk1 Htr1. wsimpl. intros Hnb1 Hsz1 Hlg1 Hpf1 Htk1 Htr1.
      assert (b = false) as ->.
      { destruct b; [|reflexivity]. destruct (proj1 Hb eq_refl) as [H|(j & Hj & Hv)];
          [discriminate H|].
        exfalso. apply (Hnone j); [lia|]. now apply (registered_at_lookup w arr j a Harr). }
      exists tr, w1. split; [exact Hrun|]. rewrite Harr'.
      repeat apply conj; try assumption. f_equal. apply list_eq. intros j. rewrite Hget.
      rewrite decide_False; [reflexivity|]. intros (Hj & Hv).
      apply (Hnone j); [lia|]. now apply (registered_at_lookup w arr j a Harr).
    - rewrite Hwf. exists []. eexists. split; [reflexivity|]. wsimpl.
      rewrite app_nil_r. repeat apply conj; try reflexivity; assumption. }
  destruct Hloop as (tr & w1 & Hrun & Harr1 & Hnb1 & Hlg1 & Hpf1 & Htr1).
  unfold bxilog_unregister, deref. cbn [is_null negb]. mstep.
  rewrite Hrc, Z.eqb_refl. mstep. rewrite Hrun. clear Hrun. mstep.
  rewrite Hlg1, Hlg. mstep. rewrite Hnb1.
  destruct (REGISTERED_LOGGERS_NB w =? 0) eqn:E; mstep;
    rewrite Hpf1, Hrc, Z.eqb_refl; mstep;
    (eexists; split; [reflexivity|]); wsimpl;
    (split; [exact Hnb1|]); (split; [first [reflexivity|exact Harr1]|]);
    (split; [exact Hlg1|]);
    unfold trace_since; wsimpl; rewrite Htr1;
    repeat (rewrite <- app_assoc; cbn [app]); rewrite drop_app_length;
    right; apply in_or_app; right; left; reflexivity.
Qed.

Lemma unregister_unknown_logger_witness :
  exists w',
    bxilog_unregister (Some 1%positive) (initial_world friendly) = Ret tt w' /\
    REGISTERED_LOGGERS_NB w' = 0 /\
    In (EvStderr "[W] Can't find registered logger: bxibase.log")
       (trace_since (initial_world friendly) w').
Proof.
  destruct (unregister_unknown_logger 1
              {| name := "bxibase.log"; name_length := 12; level := BXILOG_TRACE |}
              (initial_world friendly))
    as (w' & Hrun & Hnb & _ & _ & Hin).
  - vm_compute. repeat split; lia.
  - intros t. reflexivity.
  - vm_compute. reflexivity.
  - intros j Hj. vm_compute in Hj. lia.
  - exists w'. split; [exact Hrun|]. split; [exact Hnb|exact Hin].
Defined.
(** ** Proofs: configuring with any rules *)




(** ** Proofs: the level of a logger, the accepted range *)

(** X7. For a logger object and a level among panic, alert and critical,
    the levels the assertion of [bxilog_set_level] accepts,
    [bxilog_set_level] returns, [bxilog_get_level] then returns that level,
    the name of the logger is kept and the level of every other logger is
    what it was. *)
Theorem set_level_then_get_level (a b : positive) (lg : bxilog_s) (l : bxilog_level_e)
        (w : world) :
  loggers w !! a = Some lg ->
  (level_num l <= level_num BXILOG_CRITICAL)%Z ->
  a <> b ->
  exists w',
    bxilog_set_level (Some a) l w = Ret tt w' /\
    bxilog_get_level (Some a) w' = Ret l w' /\
    name <$> loggers w' !! a = Some (name lg) /\
    bxilog_get_level (Some b) w' = match bxilog_get_level (Some b) w with
                                   | Ret lb _ => Ret lb w'
                                   | Abort r _ => Abort r w'
                                   | OutOfFuel => OutOfFuel
                                   end.
Proof.
  intros Hlg Hl Hab.
  exists (set_loggers (<[a := with_level l lg]> (loggers w)) w).
  unfold bxilog_set_level, bxilog_get_level, store_level, deref.
  cbn [is_null negb andb]. apply Z.leb_le in Hl. rewrite Hl. mstep. rewrite Hlg. mstep.
  rewrite lookup_insert_eq, lookup_insert_ne by exact Hab. cbn [fmap option_fmap option_map].
  repeat apply conj; try reflexivity.
  destruct (loggers w !! b); reflexivity.
Qed.

Lemma set_level_then_get_level_witness :
  exists w',
    bxilog_set_level (Some 2%positive) BXILOG_ALERT scenario_world = Ret tt w' /\
    bxilog_get_level (Some 2%positive) w' = Ret BXILOG_ALERT w' /\
    bxilog_get_level (Some 3%positive) w' = Ret BXILOG_TRACE w'.
Proof.
  destruct (set_level_then_get_level 2 3 (new_logger "a.b.x") BXILOG_ALERT scenario_world)
    as (w' & Hset & Hget & _ & Hother).
  - reflexivity.
  - vm_compute. discriminate.
  - discriminate.
  - exists w'. split; [exact Hset|]. split; [exact Hget|exact Hother].
Defined.
(** ** Proofs: logger objects *)

Lemma length_strdup (s : string) : String.length (strdup s) = strlen s.
Proof.
  induction s as [|c s IH]; [reflexivity|]. cbn [strdup strlen].
  destruct (Ascii.eqb c NUL); [reflexivity|]. cbn [String.length]. now rewrite IH.
Qed.

(** X8. [bxilog_new] always returns a pointer to an object that was not
    allocated: the new logger has a copy of the name, a [name_length] that
    counts the name and its NUL, and level trace; no other logger object
    and nothing of the registry is touched (the logger is not registered);
    [bxilog_destroy] of the pointer then gives back the state [bxilog_new]
    started from and leaves [NULL] in the pointer. *)
Theorem logger_new_then_destroy (logger_name : string) (w : world) :
  exists (a : positive) (lg : bxilog_s) (w1 : world),
    bxilog_new logger_name w = Ret (Some a) w1 /\
    loggers w !! a = None /\
    loggers w1 !! a = Some lg /\
    name lg = strdup logger_name /\
    name_length lg = S (String.length (name lg)) /\
    bxilog_get_level (Some a) w1 = Ret BXILOG_TRACE w1 /\
    (forall b, b <> a -> loggers w1 !! b = loggers w !! b) /\
    REGISTERED_LOGGERS w1 = REGISTERED_LOGGERS w /\
    REGISTERED_LOGGERS_NB w1 = REGISTERED_LOGGERS_NB w /\
    bxilog_destroy (Some a) w1 = Ret None w.
Proof.
  pose proof (is_fresh (dom (loggers w))) as Hfresh.
  apply not_elem_of_dom in Hfresh.
  set (a := fresh (dom (loggers w))) in *.
  exists a. eexists. eexists. unfold bxilog_new, bximem_calloc. mstep. fold a.
  split; [reflexivity|]. wsimpl.
  split; [exact Hfresh|].
  split; [apply lookup_insert_eq|].
  split; [reflexivity|].
  split; [cbn [name name_length]; rewrite length_strdup; lia|].
  split.
  { unfold bxilog_get_level, deref. cbn [is_null negb]. mstep.
    rewrite lookup_insert_eq. reflexivity. }
  split; [intros b Hb; now apply lookup_insert_ne|].
  split; [reflexivity|]. split; [reflexivity|].
  unfold bxilog_destroy, deref. mstep. rewrite lookup_insert_eq. mstep.
  rewrite delete_insert_eq, delete_id by exact Hfresh.
  f_equal. destruct w. reflexivity.
Qed.
(** ** Proofs: what a log call sends *)

Lemma length_list_ascii (s : string) :
  length (list_ascii_of_string s) = String.length s.
Proof. induction s as [|c s IH]; [reflexivity|]. cbn. now rewrite IH. Qed.

Lemma take_c_str (s : string) : take (S (String.length s)) (c_str s) = c_str s.
Proof.
  unfold c_str. apply take_ge. rewrite length_app, length_list_ascii. cbn [length]. lia.
Qed.

(** A log call in the state INITIALIZED, from a thread that has its data,
    with a message that fits the thread's buffer, a clock that can be read
    and a channel that takes the frame: the frame left on the data channel. *)
Lemma vlog_sends_frame
      (fuel : nat) (a : positive) (lg : bxilog_s) (l : bxilog_level_e)
      (filename : string) (filename_len : nat)
      (funcname : string) (funcname_len : nat) (line : Z) (msg : string)
      (w : world) (tsd : tsd_s) (now : timespec) :
  STATE w = INITIALIZED ->
  TSD w = Some tsd -> tsd_freed tsd = false ->
  loggers w !! a = Some lg ->
  filename_len <= S (String.length filename) ->
  funcname_len <= S (String.length funcname) ->
  name_length lg <= S (String.length (name lg)) ->
  (strlen msg < DEFAULT_LOG_BUF_SIZE \/
   exists ilg, loggers w !! 1%positive = Some ilg /\ level ilg <> BXILOG_LOWEST) ->
  bxitime_get (pf w) (tick w) = (BXIERR_OK, now) ->
  bxizmq_err (pf w) (S (tick w)) = BXIERR_OK ->
  bxilog_vlog_nolevelcheck fuel (Some a) l filename filename_len
                           funcname funcname_len line msg w
  = Ret BXIERR_OK
        (set_data_channel
           (data_channel w ++
            [{| header := {| hdr_level := l; detail_time := now;
                             tid := tsd_tid tsd; thread_rank := tsd_thread_rank tsd;
                             line_nb := line;
                             filename_len := filename_len;
                             funcname_len := funcname_len;
                             logname_len := name_length lg;
                             variable_len := filename_len + funcname_len + name_length lg;
                             logmsg_len := S (strlen msg) |};
                data := take filename_len (c_str filename)
                        ++ take funcname_len (c_str funcname)
                        ++ take (name_length lg) (c_str (name lg))
                        ++ take (S (strlen msg)) (c_str msg) |}])
           (set_tick (S (S (tick w))) w)).
Proof.
  intros Hst Ht Hf Hlg Hfl Hfn Hnl Hmsg Hclock Hsnd.
  rewrite vlog_unfold. unfold vlog_body. mstep. rewrite Hst.
  change (state_eqb INITIALIZED INITIALIZED) with true. mstep.
  rewrite (get_tsd_cached w tsd Ht Hf). mstep.
  assert (Hpass : (if strlen msg <? DEFAULT_LOG_BUF_SIZE then ret tt
                   else bxilog_log_with
                          match fuel with
                          | 0 => fun _ _ _ _ _ _ _ _ _ => OutOfFuel
                          | S fuel' => bxilog_vlog_nolevelcheck fuel'
                          end
                          BXILOG_INTERNAL_LOGGER BXILOG_LOWEST
                          "bxilog_vlog_nolevelcheck" 640
                          ("Not enough space to log inside tsd log_buf ("
                           +:+ pretty DEFAULT_LOG_BUF_SIZE +:+ " > "
                           +:+ pretty (S (strlen msg))
                           +:+ "), mallocating a new one")) w = Ret tt w).
  { destruct Hmsg as [Hmsg|(ilg & Hilg & Hlv)].
    - apply Nat.ltb_lt in Hmsg. rewrite Hmsg. reflexivity.
    - destruct (strlen msg <? DEFAULT_LOG_BUF_SIZE); [reflexivity|].
      unfold bxilog_log_with, bxilog_is_enabled_for, BXILOG_INTERNAL_LOGGER, deref.
      mstep. rewrite Hilg. mstep.
      assert ((level_num BXILOG_LOWEST <=? level_num (level ilg))%Z = false) as ->;
        [|reflexivity].
      apply Z.leb_gt. destruct (level ilg); cbn; try lia. congruence. }
  revert Hpass. mstep. intros Hpass. rewrite Hpass. clear Hpass.
  unfold deref. mstep. rewrite Hlg. mstep.
  rewrite Hclock. mstep.
  unfold memcpy_str, bxizmq_snd_data_zc. mstep.
  pose proof (strlen_le msg) as Hle.
  rewrite !decide_True by (cbn [String.length]; lia). mstep.
  rewrite Hsnd. mstep. reflexivity.
Qed.

(** X9. A log call made in the state INITIALIZED by a thread that has its
    data, for a logger made like those of [bxilog_new], with a message of
    less than 128 bytes, a clock that can be read and a data channel that
    takes the frame, returns success and puts exactly one frame on the data
    channel: its header carries the level, the time read, the thread's tid
    and rank and the line, its data are the file name, the function name,
    the logger name and the message, each with its NUL.  Nothing is
    written, no control message is sent, the loggers are untouched. *)
Theorem log_call_sends_record
        (fuel : nat) (a : positive) (lg : bxilog_s) (l : bxilog_level_e)
        (filename funcname : string) (line : Z) (msg : string)
        (w : world) (tsd : tsd_s) (now : timespec) :
  STATE w = INITIALIZED ->
  TSD w = Some tsd -> tsd_freed tsd = false ->
  loggers w !! a = Some lg ->
  name_length lg = S (String.length (name lg)) ->
  no_nul msg = true -> String.length msg < DEFAULT_LOG_BUF_SIZE ->
  bxitime_get (pf w) (tick w) = (BXIERR_OK, now) ->
  bxizmq_err (pf w) (S (tick w)) = BXIERR_OK ->
  exists w',
    bxilog_log_nolevelcheck fuel (Some a) l filename (S (String.length filename))
                            funcname (S (String.length funcname)) line msg w
    = Ret BXIERR_OK w' /\
    frames_since w w'
    = [make_frame l now (tsd_tid tsd) (tsd_thread_rank tsd) line filename funcname
                  (name lg) msg] /\
    control_channel w' = control_channel w /\ trace w' = trace w /\
    STATE w' = INITIALIZED /\ loggers w' = loggers w.
Proof.
  intros Hst Ht Hf Hlg Hnl Hnul Hlen Hclock Hsnd.
  pose proof (strlen_no_nul msg Hnul) as Hsl.
  eexists. split.
  - unfold bxilog_log_nolevelcheck.
    apply (vlog_sends_frame fuel a lg l filename _ funcname _ line msg w tsd now);
      try assumption; try lia.
  - unfold frames_since. wsimpl. rewrite drop_app_length.
    repeat apply conj; try reflexivity; try assumption.
    unfold make_frame. rewrite Hnl, Hsl, !take_c_str. reflexivity.
Qed.

Lemma log_call_sends_record_witness :
  exists w',
    bxilog_log_nolevelcheck 0 BXILOG_INTERNAL_LOGGER BXILOG_INFO "f.c" 4 "fn" 3 10 "hello"
                            (initialized_world friendly)
    = Ret BXIERR_OK w' /\
    frames_since (initialized_world friendly) w'
    = [make_frame BXILOG_INFO epoch 4243 7 10 "f.c" "fn" "bxibase.log" "hello"].
Proof.
  destruct (log_call_sends_record 0 1
              {| name := "bxibase.log"; name_length := 12; level := BXILOG_TRACE |}
              BXILOG_INFO "f.c" "fn" 10 "hello" (initialized_world friendly)
              {| tsd_tid := 4243; tsd_thread_rank := 7; tsd_freed := false |} epoch)
    as (w' & Hrun & Hfr & _); try (vm_compute; reflexivity).
  - vm_compute. lia.
  - exists w'. split; [exact Hrun|exact Hfr].
Defined.

(** X10. A message too long for the 128-byte buffer of the thread is not
    cut: the second pass of the formatting loop uses a buffer of the size of
    the message, and, the internal logger not being enabled for lowest, the
    call puts exactly one frame on the data channel, which carries the whole
    message. *)
Theorem long_message_sent_whole
        (fuel : nat) (a : positive) (lg ilg : bxilog_s) (l : bxilog_level_e)
        (filename funcname : string) (line : Z) (msg : string)
        (w : world) (tsd : tsd_s) (now : timespec) :
  STATE w = INITIALIZED ->
  TSD w = Some tsd -> tsd_freed tsd = false ->
  loggers w !! a = Some lg ->
  name_length lg = S (String.length (name lg)) ->
  loggers w !! 1%positive = Some ilg -> level ilg <> BXILOG_LOWEST ->
  no_nul msg = true -> DEFAULT_LOG_BUF_SIZE <= String.length msg ->
  bxitime_get (pf w) (tick w) = (BXIERR_OK, now) ->
  bxizmq_err (pf w) (S (tick w)) = BXIERR_OK ->
  exists w',
    bxilog_log_nolevelcheck fuel (Some a) l filename (S (String.length filename))
                            funcname (S (String.length funcname)) line msg w
    = Ret BXIERR_OK w' /\
    frames_since w w'
    = [make_frame l now (tsd_tid tsd) (tsd_thread_rank tsd) line filename funcname
                  (name lg) msg] /\
    cstring_at (data (make_frame l now (tsd_tid tsd) (tsd_thread_rank tsd) line
                                 filename funcname (name lg) msg))
               (S (String.length filename) + S (String.length funcname)
                + S (String.length (name lg)))
    = Some msg.
Proof.
  intros Hst Ht Hf Hlg Hnl Hilg Hlv Hnul Hlen Hclock Hsnd.
  pose proof (strlen_no_nul msg Hnul) as Hsl.
  eexists. split; [|split].
  - unfold bxilog_log_nolevelcheck.
    apply (vlog_sends_frame fuel a lg l filename _ funcname _ line msg w tsd now);
      try assumption; try lia. right. eauto.
  - unfold frames_since. wsimpl. rewrite drop_app_length.
    unfold make_frame. rewrite Hnl, Hsl, !take_c_str. reflexivity.
  - unfold make_frame, cstring_at. cbn [data]. rewrite !app_assoc.
    rewrite drop_app_length'.
    + unfold c_str. rewrite (cstring_nul_free _ []).
      * now rewrite string_of_list_ascii_of_string.
      * now apply nul_free_of_string.
    + rewrite !length_app. unfold c_str. rewrite !length_app.
      rewrite !length_list_ascii. cbn [length]. lia.
Qed.

Lemma long_message_sent_whole_witness :
  let msg := string_of_list_ascii (replicate 130 "x"%char) in
  exists w',
    bxilog_log_nolevelcheck 0 BXILOG_INTERNAL_LOGGER BXILOG_INFO "f.c" 4 "fn" 3 10 msg
                            (initialized_world friendly)
    = Ret BXIERR_OK w' /\
    frames_since (initialized_world friendly) w'
    = [make_frame BXILOG_INFO epoch 4243 7 10 "f.c" "fn" "bxibase.log" msg].
Proof.
  intros msg.
  destruct (long_message_sent_whole 0 1
              {| name := "bxibase.log"; name_length := 12; level := BXILOG_TRACE |}
              {| name := "bxibase.log"; name_length := 12; level := BXILOG_TRACE |}
              BXILOG_INFO "f.c" "fn" 10 msg (initialized_world friendly)
              {| tsd_tid := 4243; tsd_thread_rank := 7; tsd_freed := false |} epoch)
    as (w' & Hrun & Hfr & _); try (vm_compute; reflexivity).
  - discriminate.
  - vm_compute. lia.
  - exists w'. split; [exact Hrun|exact Hfr].
Defined.
(** ** Proofs: the rank of a thread *)

(** X11. In a thread that has its data, [bxilog_set_thread_rank] returns
    success and stores the rank reduced modulo 2^16, as its [uint16_t]
    parameter does; [bxilog_get_thread_rank] then hands back that value,
    which is the rank given when it lies between 0 and 65535.  The next
    record the thread logs (state INITIALIZED, a logger made like those of
    [bxilog_new], a message that is a C string of less than 128 bytes, a
    clock that can be read, a data channel that takes the frame) carries
    that value as the rank of its header.  The tid, the lifecycle state
    and the loggers are untouched. *)
Theorem thread_rank_set_then_get
        (rank : Z) (fuel : nat) (a : positive) (lg : bxilog_s) (l : bxilog_level_e)
        (filename funcname : string) (line : Z) (msg : string)
        (w : world) (tsd : tsd_s) (now : timespec) :
  TSD w = Some tsd -> tsd_freed tsd = false ->
  STATE w = INITIALIZED ->
  loggers w !! a = Some lg ->
  name_length lg = S (String.length (name lg)) ->
  no_nul msg = true -> String.length msg < DEFAULT_LOG_BUF_SIZE ->
  bxitime_get (pf w) (tick w) = (BXIERR_OK, now) ->
  bxizmq_err (pf w) (S (tick w)) = BXIERR_OK ->
  exists w1 w2,
    bxilog_set_thread_rank rank w = Ret BXIERR_OK w1 /\
    bxilog_get_thread_rank w1 = Ret (BXIERR_OK, Some (rank mod 65536)%Z) w1 /\
    ((0 <= rank < 65536)%Z ->
     bxilog_get_thread_rank w1 = Ret (BXIERR_OK, Some rank) w1) /\
    (tsd_tid <$> TSD w1) = Some (tsd_tid tsd) /\
    STATE w1 = STATE w /\ loggers w1 = loggers w /\ tick w1 = tick w /\
    bxilog_log_nolevelcheck fuel (Some a) l filename (S (String.length filename))
                            funcname (S (String.length funcname)) line msg w1
    = Ret BXIERR_OK w2 /\
    frames_since w1 w2
    = [make_frame l now (tsd_tid tsd) (rank mod 65536) line filename funcname
                  (name lg) msg].
Proof.
  intros Ht Hf Hst Hlg Hnl Hnul Hlen Hclock Hsnd.
  set (tsd' := {| tsd_tid := tsd_tid tsd; tsd_thread_rank := (rank mod 65536)%Z;
                  tsd_freed := tsd_freed tsd |}).
  exists (set_TSD (Some tsd') w).
  assert (Hset : bxilog_set_thread_rank rank w = Ret BXIERR_OK (set_TSD (Some tsd') w)).
  { unfold bxilog_set_thread_rank. cbv zeta. mstep.
    rewrite (get_tsd_cached w tsd Ht Hf). mstep. rewrite Ht. reflexivity. }
  assert (Hget : bxilog_get_thread_rank (set_TSD (Some tsd') w)
                 = Ret (BXIERR_OK, Some (rank mod 65536)%Z) (set_TSD (Some tsd') w)).
  { unfold bxilog_get_thread_rank. mstep.
    rewrite (get_tsd_cached _ tsd') by (wsimpl; first [reflexivity|exact Hf]).
    reflexivity. }
  pose proof (strlen_no_nul msg Hnul) as Hsl.
  eexists. split; [exact Hset|]. split; [exact Hget|].
  split; [intros Hrange; rewrite Hget, Z.mod_small by exact Hrange; reflexivity|].
  wsimpl.
  split; [reflexivity|]. split; [reflexivity|]. split; [reflexivity|].
  split; [reflexivity|]. split.
  - unfold bxilog_log_nolevelcheck.
    apply (vlog_sends_frame fuel a lg l filename _ funcname _ line msg _ tsd' now);
      wsimpl; try assumption; try reflexivity; try lia.
  - unfold frames_since. wsimpl. rewrite drop_app_length.
    unfold make_frame. rewrite Hnl, Hsl, !take_c_str. reflexivity.
Qed.

Lemma thread_rank_set_then_get_witness :
  exists w1 w2,
    bxilog_set_thread_rank 70000 (initialized_world friendly) = Ret BXIERR_OK w1 /\
    bxilog_get_thread_rank w1 = Ret (BXIERR_OK, Some 4464%Z) w1 /\
    bxilog_log_nolevelcheck 0 BXILOG_INTERNAL_LOGGER BXILOG_INFO "f.c" 4 "fn" 3 10 "hello" w1
    = Ret BXIERR_OK w2 /\
    frames_since w1 w2
    = [make_frame BXILOG_INFO epoch 4243 4464 10 "f.c" "fn" "bxibase.log" "hello"].
Proof.
  destruct (thread_rank_set_then_get 70000 0 1
              {| name := "bxibase.log"; name_length := 12; level := BXILOG_TRACE |}
              BXILOG_INFO "f.c" "fn" 10 "hello" (initialized_world friendly)
              {| tsd_tid := 4243; tsd_thread_rank := 7; tsd_freed := false |} epoch)
    as (w1 & w2 & Hset & Hget & _ & _ & _ & _ & _ & Hlog & Hfr);
    try (vm_compute; reflexivity).
  - vm_compute. lia.
  - exists w1, w2. repeat split; assumption.
Defined.

(** ** Proofs: flushing *)

Lemma strncmp_eqb (s1 : string) :
  forall (s2 : string) (n : nat),
    no_nul s1 = true -> no_nul s2 = true -> String.length s1 < n ->
    (0 =? strncmp s1 s2 n)%Z = String.eqb s1 s2.
Proof.
  induction s1 as [|a s1 IH]; intros s2 n H1 H2 Hn;
    (destruct n as [|n]; [cbn in Hn; lia|]); cbn [strncmp char0 str_tail].
  - destruct s2 as [|b s2]; [reflexivity|].
    cbn [no_nul] in H2. apply andb_true_iff in H2 as [Hb _].
    apply negb_true_iff in Hb. cbn [char0 String.eqb].
    rewrite Ascii.eqb_sym, Hb. cbn [negb]. apply Z.eqb_neq. intros H0.
    apply Ascii.eqb_neq in Hb. apply Hb, nat_of_ascii_inj. lia.
  - cbn [no_nul] in H1. apply andb_true_iff in H1 as [Ha H1].
    apply negb_true_iff in Ha.
    destruct s2 as [|b s2]; cbn [char0 str_tail String.eqb].
    + rewrite Ha. cbn [negb]. apply Z.eqb_neq. intros H0.
      apply Ascii.eqb_neq in Ha. apply Ha, nat_of_ascii_inj. lia.
    + cbn [no_nul] in H2. apply andb_true_iff in H2 as [_ H2].
      destruct (Ascii.eqb a b) eqn:E; cbn [negb].
      * rewrite Ha. apply IH; [exact H1|exact H2|cbn in Hn; lia].
      * apply Z.eqb_neq. intros H0. apply Ascii.eqb_neq in E. apply E.
        apply nat_of_ascii_inj. lia.
Qed.

Lemma strcmp_eqb (s1 s2 : string) :
  no_nul s1 = true -> no_nul s2 = true ->
  (0 =? strcmp s1 s2)%Z = String.eqb s1 s2.
Proof.
  intros H1 H2. unfold strcmp. apply strncmp_eqb; [exact H1|exact H2|].
  rewrite (strlen_no_nul s1 H1). lia.
Qed.

(** The logging macros on the internal logger return whatever the clock
    does, and leave alone what [log_frame] lists. *)
Lemma internal_log_returns (fuel : nat) (l : bxilog_level_e) (func : string) (line : Z)
      (msg : string) (w : world) (tsd : tsd_s) :
  STATE w = INITIALIZED ->
  TSD w = Some tsd -> tsd_freed tsd = false ->
  internal_logger_ok w ->
  (forall t, bxizmq_err (pf w) t = BXIERR_OK) ->
  strlen msg < DEFAULT_LOG_BUF_SIZE ->
  exists w', bxilog_log fuel BXILOG_INTERNAL_LOGGER l func line msg w = Ret tt w' /\
             log_frame w w' /\ TSD w' = Some tsd /\
             (trace w' = trace w /\ exists fs, data_channel w' = data_channel w ++ fs).
Proof.
  intros Hst Ht Hf Hlog Hsnd Hmsg.
  destruct (bxilog_log_returns fuel l func line msg w tsd Hst Ht Hf Hlog Hsnd Hmsg)
    as (w' & Hrun).
  exists w'. split; [exact Hrun|].
  pose proof (bxilog_log_frame _ _ _ _ _ _ _ _ Hrun) as Hfr.
  split; [exact Hfr|]. split.
  - destruct Hfr as (_ & _ & _ & _ & _ & _ & _ & _ & Hk). now apply Hk.
  - assert (Hsame : forall v : world, trace v = trace v /\
                                      exists fs, data_channel v = data_channel v ++ fs)
      by (intros v; split; [reflexivity|exists []; now rewrite app_nil_r]).
    revert Hrun. destruct Hlog as (lg & Hlg & Hlen).
    unfold bxilog_log, bxilog_log_with, bxilog_is_enabled_for, BXILOG_INTERNAL_LOGGER, deref.
    mstep. rewrite Hlg. mstep.
    destruct (level_num l <=? level_num (level lg))%Z; mstep;
      [|intros; simplify_eq; apply Hsame].
    rewrite vlog_unfold. unfold vlog_body. mstep. rewrite Hst.
    change (state_eqb INITIALIZED INITIALIZED) with true. mstep.
    rewrite (get_tsd_cached w tsd Ht Hf). mstep.
    apply Nat.ltb_lt in Hmsg. rewrite Hmsg. unfold deref. mstep. rewrite Hlg. mstep.
    destruct (bxitime_get (pf w) (tick w)) as [terr now]. mstep.
    destruct (bxierr_isko terr); mstep;
      [intros; simplify_eq; wsimpl; apply Hsame|].
    unfold memcpy_str, bxizmq_snd_data_zc. mstep.
    pose proof (strlen_le msg) as Hle.
    rewrite !decide_True by (cbn [String.length]; lia). mstep.
    rewrite Hsnd. mstep. intros; simplify_eq. wsimpl. split; [reflexivity|eauto].
Qed.

(** [bxilog_flush] in the state INITIALIZED, whatever the handler replies. *)
Lemma flush_returns (fuel : nat) (reply : string) (w : world) (tsd : tsd_s) :
  STATE w = INITIALIZED ->
  TSD w = Some tsd -> tsd_freed tsd = false ->
  internal_logger_ok w ->
  (forall t, bxizmq_err (pf w) t = BXIERR_OK) ->
  (forall t, bxizmq_rcv (pf w) t = Some reply) ->
  no_nul reply = true ->
  exists w',
    bxilog_flush fuel w
    = Ret (if String.eqb FLUSH_CTRL_MSG_REP reply then BXIERR_OK
           else bxierr_new BXILOG_IHT2BC_PROTO_ERR
                  ("Wrong message received in reply to " +:+ FLUSH_CTRL_MSG_REQ +:+ ": "
                   +:+ reply +:+ ". Expecting: " +:+ FLUSH_CTRL_MSG_REP)) w' /\
    control_channel w' = control_channel w ++ [FLUSH_CTRL_MSG_REQ] /\
    STATE w' = INITIALIZED /\ trace w' = trace w /\
    exists fs, data_channel w' = data_channel w ++ fs.
Proof.
  intros Hst Ht Hf Hlog Hsnd Hrcv Hnul.
  unfold bxilog_flush. mstep. rewrite Hst.
  change (state_eqb INITIALIZED INITIALIZED) with true. mstep.
  destruct (internal_log_returns fuel BXILOG_DEBUG "bxilog_flush" 573
              "Requesting a flush()." w tsd Hst Ht Hf Hlog Hsnd)
    as (w1 & Hrun & Hfr & Ht1 & Htr1 & Hdc1); [vm_compute; lia|].
  unfold DEBUG. rewrite Hrun. clear Hrun.
  destruct Hfr as (Hst1 & Hpf1 & _ & _ & _ & _ & _ & Hcc1 & _).
  rewrite (get_tsd_cached w1 tsd Ht1 Hf). mstep.
  unfold bxizmq_snd_str, bxizmq_rcv_str. mstep.
  repeat (progress (rewrite ?Hpf1, ?Hsnd, ?Hrcv; mstep)).
  rewrite (strcmp_eqb FLUSH_CTRL_MSG_REP reply eq_refl Hnul).
  destruct (String.eqb FLUSH_CTRL_MSG_REP reply); mstep;
    (eexists; split; [reflexivity|]); wsimpl;
    repeat apply conj; try reflexivity; try congruence; exact Hdc1.
Qed.

(** X12. In the state INITIALIZED, with loggers and channels that work,
    [bxilog_flush] puts the request [BC->IH: flush?] on the control channel
    and waits for the reply: it returns success when the reply is
    [IH->BC: flushed!] and the protocol error BXILOG_IHT2BC_PROTO_ERR for
    any other reply; it writes nothing and leaves the state INITIALIZED. *)
Theorem flush_handshake (fuel : nat) (reply : string) (w : world) (tsd : tsd_s) :
  STATE w = INITIALIZED ->
  TSD w = Some tsd -> tsd_freed tsd = false ->
  internal_logger_ok w ->
  (forall t, bxizmq_err (pf w) t = BXIERR_OK) ->
  (forall t, bxizmq_rcv (pf w) t = Some reply) ->
  no_nul reply = true ->
  exists err w',
    bxilog_flush fuel w = Ret err w' /\
    (reply = FLUSH_CTRL_MSG_REP -> err = BXIERR_OK) /\
    (reply <> FLUSH_CTRL_MSG_REP -> bxierr_code_of err = Some BXILOG_IHT2BC_PROTO_ERR) /\
    control_channel w' = control_channel w ++ [FLUSH_CTRL_MSG_REQ] /\
    STATE w' = INITIALIZED /\ trace w' = trace w.
Proof.
  intros Hst Ht Hf Hlog Hsnd Hrcv Hnul.
  destruct (flush_returns fuel reply w tsd Hst Ht Hf Hlog Hsnd Hrcv Hnul)
    as (w' & Hrun & Hcc & Hst' & Htr & _).
  eexists. exists w'. split; [exact Hrun|].
  destruct (String.eqb_spec FLUSH_CTRL_MSG_REP reply) as [E|E];
    repeat apply conj; try assumption; try reflexivity; congruence.
Qed.

Lemma flush_handshake_witness :
  exists err w',
    bxilog_flush 0 (initialized_world friendly) = Ret err w' /\
    bxierr_code_of err = Some BXILOG_IHT2BC_PROTO_ERR /\
    control_channel w'
    = control_channel (initialized_world friendly) ++ [FLUSH_CTRL_MSG_REQ].
Proof.
  destruct (flush_handshake 0 READY_CTRL_MSG_REP (initialized_world friendly)
              {| tsd_tid := 4243; tsd_thread_rank := 7; tsd_freed := false |})
    as (err & w' & Hrun & _ & Hbad & Hcc & _);
    [vm_compute; reflexivity|vm_compute; reflexivity|reflexivity
    |eexists; split; [vm_compute; reflexivity|vm_compute; lia]
    |intros t; reflexivity|intros t; reflexivity|reflexivity|].
  exists err, w'. split; [exact Hrun|]. split; [apply Hbad; discriminate|exact Hcc].
Defined.
(** ** Proofs: a whole cycle of the lifecycle *)

Lemma end_iht_post (w : world) (tsd : tsd_s) :
  (forall t, bxizmq_err (pf w) t = BXIERR_OK) ->
  TSD w = Some tsd -> tsd_freed tsd = false ->
  exists w1, _end_iht w = Ret BXIERR_OK w1 /\ STATE w1 = STATE w /\ pf w1 = pf w /\
             loggers w1 = loggers w /\
             control_channel w1 = control_channel w ++ [EXIT_CTRL_MSG_REQ] /\
             trace w1 = trace w.
Proof.
  intros Hzmq Ht Hf. unfold _end_iht. mstep.
  rewrite (get_tsd_cached w tsd Ht Hf). mstep.
  unfold bxizmq_snd_str. mstep. rewrite Hzmq. mstep.
  rewrite bool_decide_eq_false_2 by discriminate. mstep.
  unfold _tsd_free. mstep. rewrite !Hzmq. unfold BXIERR_CHAIN. mstep.
  eexists. split; [reflexivity|]. wsimpl. repeat apply conj; reflexivity.
Qed.

Lemma finalize_inner_post (w : world) (tsd : tsd_s) :
  platform_ok (pf w) ->
  STATE w = INITIALIZED -> TSD w = Some tsd -> tsd_freed tsd = false ->
  exists w1, _finalize w = Ret BXIERR_OK w1 /\ STATE w1 = FINALIZING /\
             BXILOG_CONTEXT w1 = false /\ TSD_KEY_ONCE w1 = false /\
             pf w1 = pf w /\ loggers w1 = loggers w /\
             control_channel w1 = control_channel w ++ [EXIT_CTRL_MSG_REQ] /\
             trace w1 = trace w ++ [EvThreadJoin].
Proof.
  intros (Hrc & Hctx & Hzrc & Hzmq & Hrcv & Hjoin) Hst Ht Hf.
  unfold _finalize. mstep.
  rewrite Hst. change (state_eqb INITIALIZED INITIALIZED) with true. mstep.
  match goal with
  | |- context [_end_iht ?W] =>
    destruct (end_iht_post W tsd) as (w1 & E1 & Hs1 & Hp1 & Hl1 & Hc1 & Ht1);
      [exact Hzmq|exact Ht|exact Hf|]; rewrite E1; clear E1
  end.
  revert Hs1 Hp1 Hl1 Hc1 Ht1. wsimpl. intros Hs1 Hp1 Hl1 Hc1 Ht1.
  mstep. rewrite !Hp1, !Hrc, !Hjoin, Z.eqb_refl. unfold BXIERR_CHAIN. mstep.
  rewrite Hp1, Hzrc. change (0 =? -1)%Z with false. mstep.
  eexists. split; [reflexivity|]. wsimpl.
  repeat apply conj; try reflexivity; try assumption. now rewrite Ht1.
Qed.




(** ** Proofs: the fork handlers *)

(** X14. Outside the state INITIALIZED the fork handlers leave the process
    alone or stop it: [_parent_before_fork] exits with EX_SOFTWARE, after a
    message on standard error, when the state is INITIALIZING or
    FINALIZING, and returns without changing anything in the states UNSET,
    FINALIZED, ILLEGAL and FORKED; [_parent_after_fork] and
    [_child_after_fork] return without changing anything unless the state
    is FORKED. *)
Theorem fork_outside_initialized (fuel : nat) (w : world) :
  (STATE w = INITIALIZING \/ STATE w = FINALIZING ->
   exists w', _parent_before_fork fuel w = Abort (ProcessExit EX_SOFTWARE) w' /\
              STATE w' = STATE w /\
              stderr_since w w' = ["Forking while bxilog is in state "
                                   +:+ pretty (state_num (STATE w)) +:+ "! Aborting."]) /\
  (STATE w <> INITIALIZING -> STATE w <> FINALIZING -> STATE w <> INITIALIZED ->
   _parent_before_fork fuel w = Ret tt w) /\
  (STATE w <> FORKED ->
   _parent_after_fork fuel w = Ret tt w /\ _child_after_fork w = Ret tt w).
Proof.
  split; [|split].
  - intros Hst. unfold _parent_before_fork, error_. mstep.
    destruct Hst as [E|E]; rewrite E;
      (eexists; split; [reflexivity|]); wsimpl; (split; [exact E|]);
      unfold stderr_since, trace_since; wsimpl; rewrite drop_app_length; reflexivity.
  - intros H1 H2 H3. unfold _parent_before_fork. mstep.
    rewrite (state_eqb_neq INITIALIZING) by congruence.
    rewrite (state_eqb_neq FINALIZING) by congruence. mstep.
    rewrite (state_eqb_neq INITIALIZED) by congruence. reflexivity.
  - intros H. unfold _parent_after_fork, _child_after_fork. mstep.
    rewrite (state_eqb_neq FORKED) by congruence. split; reflexivity.
Qed.

Lemma fork_outside_initialized_witness :
  (exists w', _parent_before_fork 0 (set_STATE FINALIZING (initial_world friendly))
              = Abort (ProcessExit EX_SOFTWARE) w' /\
              stderr_since (set_STATE FINALIZING (initial_world friendly)) w'
              = ["Forking while bxilog is in state 3! Aborting."]) /\
  _parent_before_fork 0 (initial_world friendly) = Ret tt (initial_world friendly) /\
  _child_after_fork (initial_world friendly) = Ret tt (initial_world friendly).
Proof.
  destruct (fork_outside_initialized 0 (set_STATE FINALIZING (initial_world friendly)))
    as (Hexit & _ & _).
  destruct (fork_outside_initialized 0 (initial_world friendly)) as (_ & Hnone & Hafter).
  split; [|split].
  - destruct Hexit as (w' & Hrun & _ & Herr); [right; reflexivity|].
    exists w'. split; [exact Hrun|exact Herr].
  - apply Hnone; discriminate.
  - apply Hafter. discriminate.
Defined.

(** X15. A fork in the state INITIALIZED, on a platform whose calls all
    succeed: [_parent_before_fork] stops the handler thread and leaves the
    state FORKED; from there [_parent_after_fork] starts a handler thread
    again and publishes INITIALIZED, while [_child_after_fork] releases the
    program and sink names and publishes FINALIZED, the state from which
    the child can call [bxilog_init]. *)
Theorem fork_from_initialized (fuel : nat) (w : world) (tsd : tsd_s) :
  platform_ok (pf w) -> internal_logger_ok w ->
  STATE w = INITIALIZED -> TSD w = Some tsd -> tsd_freed tsd = false ->
  exists w1,
    _parent_before_fork fuel w = Ret tt w1 /\ STATE w1 = FORKED /\
    (exists w2, _parent_after_fork fuel w1 = Ret tt w2 /\ STATE w2 = INITIALIZED) /\
    (exists w3, _child_after_fork w1 = Ret tt w3 /\ STATE w3 = FINALIZED /\
                FILENAME w3 = None /\ PROGNAME w3 = None /\ ready_for_init w3).
Proof.
  intros Hpf Hlog Hst Ht Hf.
  pose proof Hpf as (Hrc & _ & _ & Hzmq & _).
  assert (Hbefore : exists w1,
             _parent_before_fork fuel w = Ret tt w1 /\ STATE w1 = FORKED /\
             pf w1 = pf w /\ loggers w1 = loggers w /\
             BXILOG_CONTEXT w1 = false /\ TSD_KEY_ONCE w1 = false).
  { unfold _parent_before_fork. mstep. rewrite Hst.
    change (state_eqb INITIALIZING INITIALIZED) with false.
    change (state_eqb FINALIZING INITIALIZED) with false. mstep. rewrite Hst.
    change (state_eqb INITIALIZED INITIALIZED) with true. mstep.
    destruct (internal_log_returns fuel BXILOG_DEBUG "_parent_before_fork" 1660
                ("Preparing for a fork() (state == "
                 +:+ pretty (state_num INITIALIZED) +:+ ")") w tsd)
      as (w0 & Hw0 & Hfr0 & Ht0 & _ & _); auto; [vm_compute; lia|].
    unfold DEBUG. rewrite Hw0. clear Hw0.
    destruct Hfr0 as (Hst0 & Hpf0 & Hlg0 & _).
    destruct (finalize_inner_post w0 tsd)
      as (w1 & Hw1 & Hst1 & Hctx1 & Honce1 & Hpf1 & Hlg1 & _);
      [now rewrite Hpf0|congruence|exact Ht0|exact Hf|].
    rewrite Hw1. clear Hw1. mstep. rewrite Hst1.
    change (state_eqb FINALIZING FINALIZING) with true. mstep.
    eexists. split; [reflexivity|]. wsimpl.
    repeat apply conj; try reflexivity; try assumption; congruence. }
  destruct Hbefore as (w1 & Hrun1 & Hst1 & Hpf1 & Hlg1 & Hctx1 & Honce1).
  assert (Hlog1 : internal_logger_ok w1).
  { destruct Hlog as (lg & Hlg & Hlen). exists lg. now rewrite Hlg1. }
  exists w1. split; [exact Hrun1|]. split; [exact Hst1|]. split.
  - unfold _parent_after_fork. mstep. rewrite Hst1.
    change (state_eqb FORKED FORKED) with true. mstep.
    destruct (init_inner_returns (set_STATE FINALIZED w1))
      as (w2 & tsd2 & Hinit & Hst2 & Hpf2 & Hlg2 & Ht2 & Hf2); wsimpl;
      [now rewrite Hpf1|now right|exact Hctx1|exact Honce1|].
    rewrite Hinit. clear Hinit. revert Hpf2 Hlg2. wsimpl. intros Hpf2 Hlg2.
    mstep. rewrite Hst2.
    change (state_eqb INITIALIZING INITIALIZING) with true. mstep.
    destruct (internal_log_returns fuel BXILOG_DEBUG "_parent_after_fork" 1683
                "Ready after a fork()" (set_STATE INITIALIZED w2) tsd2)
      as (w3 & Hw3 & Hfr3 & _); wsimpl; try reflexivity; try assumption.
    { destruct Hlog1 as (lg & Hlg & Hlen). exists lg. wsimpl. now rewrite Hlg2. }
    { intros t. rewrite Hpf2, Hpf1. apply Hzmq. }
    { vm_compute. lia. }
    unfold DEBUG. rewrite Hw3. exists w3. split; [reflexivity|].
    destruct Hfr3 as (Hst3 & _). exact Hst3.
  - unfold _child_after_fork. mstep. rewrite Hst1.
    change (state_eqb FORKED FORKED) with true. mstep.
    eexists. split; [reflexivity|]. unfold ready_for_init. wsimpl.
    repeat apply conj; try reflexivity; try assumption; try (now right).
Qed.

Lemma fork_from_initialized_witness :
  exists w1 w2 w3,
    _parent_before_fork 0 (initialized_world friendly) = Ret tt w1 /\ STATE w1 = FORKED /\
    _parent_after_fork 0 w1 = Ret tt w2 /\ STATE w2 = INITIALIZED /\
    _child_after_fork w1 = Ret tt w3 /\ STATE w3 = FINALIZED.
Proof.
  destruct (fork_from_initialized 0 (initialized_world friendly)
              {| tsd_tid := 4243; tsd_thread_rank := 7; tsd_freed := false |})
    as (w1 & Hrun1 & Hst1 & (w2 & Hrun2 & Hst2) & (w3 & Hrun3 & Hst3 & _));
    [exact friendly_ok
    |eexists; split; [vm_compute; reflexivity|vm_compute; lia]
    |vm_compute; reflexivity|vm_compute; reflexivity|reflexivity|].
  exists w1, w2, w3. repeat split; assumption.
Defined.
(** ** Proofs: a failed initialization *)

(** X16. When [zmq_ctx_new] fails, [bxilog_init] returns the error
    [Can't create a zmq context] and leaves the state ILLEGAL with
    BXILOG_INITIALIZED_MUTEX still locked: the lock taken by [_init] is its
    only call on a mutex.  ILLEGAL is a dead end: from then on
    [bxilog_init] and [bxilog_finalize] return the illegal-state error and
    change nothing. *)
Theorem init_without_context (fuel : nat) (progname fn : string) (w : world) :
  STATE w = UNSET \/ STATE w = FINALIZED ->
  BXILOG_CONTEXT w = false ->
  pthread_rc (pf w) (tick w) = 0%Z ->
  zmq_ctx_new (pf w) (S (tick w)) = false ->
  exists w',
    bxilog_init fuel (Some progname) (Some fn) w
    = Ret (bxierr_errno "Can't create a zmq context") w' /\
    STATE w' = ILLEGAL /\
    trace_since w w' = [EvLock BXILOG_INITIALIZED_MUTEX] /\
    (forall progname' fn',
        bxilog_init fuel progname' fn' w' = Ret (illegal_state_err ILLEGAL) w') /\
    bxilog_finalize fuel w' = Ret (illegal_state_err ILLEGAL) w'.
Proof.
  intros Hst Hnull Hrc Hctx.
  unfold bxilog_init at 1. mstep. rewrite (allowed_init_state _ Hst). mstep.
  unfold _init. mstep. rewrite Hrc, Z.eqb_refl. mstep.
  rewrite (allowed_init_state _ Hst). mstep. rewrite Hnull. mstep. rewrite Hctx. mstep.
  eexists. split; [reflexivity|]. wsimpl. split; [reflexivity|].
  split; [unfold trace_since; wsimpl; now rewrite drop_app_length|].
  split.
  - intros progname' fn'. unfold bxilog_init. mstep. reflexivity.
  - unfold bxilog_finalize. mstep. reflexivity.
Qed.

Lemma init_without_context_witness :
  let p := {| pthread_rc := pthread_rc friendly; bxitime_get := bxitime_get friendly;
              zmq_ctx_new := fun _ => false; zmq_rc := zmq_rc friendly;
              bxizmq_err := bxizmq_err friendly; bxizmq_rcv := bxizmq_rcv friendly;
              pthread_join_retval := pthread_join_retval friendly;
              sys_write := sys_write friendly; localtime_r := localtime_r friendly;
              getpid := getpid friendly; gettid := gettid friendly;
              pthread_self := pthread_self friendly |} in
  exists w',
    bxilog_init 0 (Some "prog") (Some "-") (initial_world p)
    = Ret (bxierr_errno "Can't create a zmq context") w' /\
    STATE w' = ILLEGAL /\
    bxilog_init 0 (Some "prog") (Some "-") w' = Ret (illegal_state_err ILLEGAL) w'.
Proof.
  intros p.
  destruct (init_without_context 0 "prog" "-" (initial_world p))
    as (w' & Hrun & Hst & _ & Hinit & _);
    [left; reflexivity|reflexivity|reflexivity|reflexivity|].
  exists w'. split; [exact Hrun|]. split; [exact Hst|apply Hinit].
Defined.
(** ** Proofs: exiting, asserting and reporting *)

Lemma bind_stopped {A B : Type} (m : M A) (k : A -> M B) (w : world) :
  (forall a w1, stopped (k a w1)) -> stopped (bind m k w).
Proof. intros H. unfold bind. destruct (m w); [apply H|exact I|exact I]. Qed.

Section ExitProofs.

Variable bxierr_str : bxierr -> string.
Variable BXIASSERT_CODE : bxierr_code.
Variable BXIBUG_STD_MSG : string.

Lemma exit_stopped (fuel : nat) (exit_code : Z) (err : bxierr) (logger : bxilog_p)
      (l : bxilog_level_e) (file : string) (filelen : nat) (func : string)
      (funclen : nat) (line : Z) (w : world) :
  stopped (bxilog_exit bxierr_str fuel exit_code err logger l file filelen
                       func funclen line w).
Proof.
  unfold bxilog_exit. repeat (apply bind_stopped; intros). exact I.
Qed.

(** [bxilog_exit] outside the state INITIALIZED: nothing is logged. *)
Lemma exit_when_not_initialized (fuel : nat) (exit_code : Z) (err : bxierr)
      (a : positive) (lg : bxilog_s) (l : bxilog_level_e) (file : string)
      (filelen : nat) (func : string) (funclen : nat) (line : Z) (w : world) :
  STATE w <> INITIALIZED -> loggers w !! a = Some lg ->
  bxilog_exit bxierr_str fuel exit_code err (Some a) l file filelen func funclen line w
  = Abort (ProcessExit exit_code) (set_tick (S (tick w)) w).
Proof.
  intros Hst Hlg.
  assert (Hb : state_eqb INITIALIZED (STATE w) = false) by (apply state_eqb_neq; congruence).
  unfold bxilog_exit, bxitime_sleep, bxilog_log_at, bxilog_is_enabled_for, deref,
    bxilog_log_nolevelcheck.
  cbn [is_null negb]. mstep. rewrite Hlg. mstep.
  destruct (level_num l <=? level_num (level lg))%Z; mstep.
  - rewrite vlog_unfold. unfold vlog_body. mstep. rewrite Hb. mstep.
    unfold bxilog_flush. mstep. rewrite Hb. reflexivity.
  - unfold bxilog_flush. mstep. rewrite Hb. reflexivity.
Qed.

(** [bxilog_exit] in the state INITIALIZED, on a platform that works: the
    record, the flush request, the exit. *)
Lemma exit_when_initialized
      (fuel : nat) (exit_code : Z) (err : bxierr) (a : positive) (lg : bxilog_s)
      (l : bxilog_level_e) (file func : string) (line : Z) (w : world) (tsd : tsd_s)
      (now : timespec) :
  let msg := ("Exiting with code " +:+ fmt_d exit_code +:+ ", Error is: "
              +:+ bxierr_str err)%string in
  STATE w = INITIALIZED -> TSD w = Some tsd -> tsd_freed tsd = false ->
  loggers w !! a = Some lg -> name_length lg = S (String.length (name lg)) ->
  (level_num l <= level_num (level lg))%Z ->
  internal_logger_ok w ->
  no_nul msg = true ->
  (String.length msg < DEFAULT_LOG_BUF_SIZE \/
   exists ilg, loggers w !! 1%positive = Some ilg /\ level ilg <> BXILOG_LOWEST) ->
  bxitime_get (pf w) (tick w) = (BXIERR_OK, now) ->
  (forall t, bxizmq_err (pf w) t = BXIERR_OK) ->
  (forall t, bxizmq_rcv (pf w) t = Some FLUSH_CTRL_MSG_REP) ->
  exists w' rest,
    bxilog_exit bxierr_str fuel exit_code err (Some a) l file (S (String.length file))
                func (S (String.length func)) line w
    = Abort (ProcessExit exit_code) w' /\
    frames_since w w'
    = make_frame l now (tsd_tid tsd) (tsd_thread_rank tsd) line file func (name lg) msg
      :: rest /\
    control_channel w' = control_channel w ++ [FLUSH_CTRL_MSG_REQ] /\
    trace w' = trace w.
Proof.
  intros msg Hst Ht Hf Hlg Hnl Hen Hlog Hnul Hlen Hclock Hsnd Hrcv.
  pose proof (strlen_no_nul msg Hnul) as Hsl.
  unfold bxilog_exit, bxitime_sleep, bxilog_log_at, bxilog_is_enabled_for, deref,
    bxilog_log_nolevelcheck.
  cbn [is_null negb]. mstep. rewrite Hlg. mstep.
  apply Z.leb_le in Hen. rewrite Hen. mstep. fold msg.
  assert (Hlen' : strlen msg < DEFAULT_LOG_BUF_SIZE \/
                  exists ilg, loggers w !! 1%positive = Some ilg /\
                              level ilg <> BXILOG_LOWEST)
    by (rewrite Hsl; exact Hlen).
  rewrite (vlog_sends_frame fuel a lg l file _ func _ line msg w tsd now)
    by first [assumption | lia | apply Hsnd].
  mstep.
  match goal with
  | |- context [bxilog_flush fuel ?W] =>
    destruct (flush_returns fuel FLUSH_CTRL_MSG_REP W tsd)
      as (w' & Hrun & Hcc & _ & Htr & (fs & Hdc)); wsimpl;
      try assumption; try reflexivity
  end.
  rewrite Hrun. clear Hrun. revert Hcc Htr Hdc. wsimpl. intros Hcc Htr Hdc.
  exists w', fs. split; [reflexivity|]. split; [|split; assumption].
  unfold frames_since. rewrite Hdc, <- app_assoc, drop_app_length.
  unfold make_frame. rewrite Hnl, Hsl, !take_c_str. reflexivity.
Qed.

(** X17. [bxilog_exit] never returns.  Outside the state INITIALIZED it
    exits with the code given and logs nothing.  In the state INITIALIZED,
    when the calling thread has its data, the logger is made like those of
    [bxilog_new] and enabled for the level, the message
    [Exiting with code <code>, Error is: <error>] is a C string that is
    shorter than 128 bytes or the internal logger is not at level lowest,
    the internal logger is a well-formed logger object, the clock can be
    read, the channels work and the handler answers the flush request: it
    first puts on the data channel the record of that message at the
    level asked for, then sends the flush request, waits for its reply and
    exits with the code given, having written nothing. *)
Theorem exit_logs_then_flushes
        (fuel : nat) (exit_code : Z) (err : bxierr) (a : positive) (lg : bxilog_s)
        (l : bxilog_level_e) (file func : string) (line : Z) (w : world) (tsd : tsd_s)
        (now : timespec) :
  let msg := ("Exiting with code " +:+ fmt_d exit_code +:+ ", Error is: "
              +:+ bxierr_str err)%string in
  (forall (logger : bxilog_p) (filelen funclen : nat) (u : unit) (w' : world),
      bxilog_exit bxierr_str fuel exit_code err logger l file filelen func funclen line w
      <> Ret u w') /\
  (STATE w <> INITIALIZED -> loggers w !! a = Some lg ->
   bxilog_exit bxierr_str fuel exit_code err (Some a) l file (S (String.length file))
               func (S (String.length func)) line w
   = Abort (ProcessExit exit_code) (set_tick (S (tick w)) w)) /\
  (STATE w = INITIALIZED -> TSD w = Some tsd -> tsd_freed tsd = false ->
   loggers w !! a = Some lg -> name_length lg = S (String.length (name lg)) ->
   (level_num l <= level_num (level lg))%Z ->
   internal_logger_ok w ->
   no_nul msg = true ->
   (String.length msg < DEFAULT_LOG_BUF_SIZE \/
    exists ilg, loggers w !! 1%positive = Some ilg /\ level ilg <> BXILOG_LOWEST) ->
   bxitime_get (pf w) (tick w) = (BXIERR_OK, now) ->
   (forall t, bxizmq_err (pf w) t = BXIERR_OK) ->
   (forall t, bxizmq_rcv (pf w) t = Some FLUSH_CTRL_MSG_REP) ->
   exists w' rest,
     bxilog_exit bxierr_str fuel exit_code err (Some a) l file (S (String.length file))
                 func (S (String.length func)) line w
     = Abort (ProcessExit exit_code) w' /\
     frames_since w w'
     = make_frame l now (tsd_tid tsd) (tsd_thread_rank tsd) line file func (name lg) msg
       :: rest /\
     control_channel w' = control_channel w ++ [FLUSH_CTRL_MSG_REQ] /\
     trace w' = trace w).
Proof.
  intros msg. split; [|split].
  - intros logger filelen funclen u w' H.
    pose proof (exit_stopped fuel exit_code err logger l file filelen func funclen line w)
      as Hs.
    rewrite H in Hs. exact Hs.
  - apply exit_when_not_initialized.
  - apply exit_when_initialized.
Qed.

(** X18. [bxilog_assert] of a true condition returns at once and changes
    nothing; of a false condition it never returns.  Outside the state
    INITIALIZED it then exits with EX_SOFTWARE having logged nothing.  In
    the state INITIALIZED, when the calling thread has its data, the
    logger is made like those of [bxilog_new] and enabled for critical,
    the message [Exiting with code <EX_SOFTWARE>, Error is: ] followed by
    the text of the assertion error is a C string that is shorter than 128
    bytes or the internal logger is not at level lowest, the internal
    logger is a well-formed logger object, the clock can be read, the
    channels work and the handler answers the flush request: it first
    puts on the data channel the record of that message, at level
    critical and for the place of the assertion, then sends the flush
    request and exits with EX_SOFTWARE. *)
Theorem assert_exits_when_false
        (fuel : nat) (a : positive) (lg : bxilog_s) (file func : string)
        (line : Z) (expr : string) (w : world) (tsd : tsd_s) (now : timespec) :
  let err := bxierr_new BXIASSERT_CODE
               ("From file " +:+ file +:+ ":" +:+ fmt_d line +:+ ": assertion "
                +:+ expr +:+ " is false." +:+ BXIBUG_STD_MSG) in
  let msg := ("Exiting with code " +:+ fmt_d EX_SOFTWARE +:+ ", Error is: "
              +:+ bxierr_str err)%string in
  (forall (logger : bxilog_p) (filelen funclen : nat),
      bxilog_assert bxierr_str BXIASSERT_CODE BXIBUG_STD_MSG fuel logger true
                    file filelen func funclen line expr w = Ret tt w) /\
  (forall (logger : bxilog_p) (filelen funclen : nat) (u : unit) (w' : world),
      bxilog_assert bxierr_str BXIASSERT_CODE BXIBUG_STD_MSG fuel logger false
                    file filelen func funclen line expr w <> Ret u w') /\
  (STATE w <> INITIALIZED -> loggers w !! a = Some lg ->
   forall filelen funclen : nat,
     bxilog_assert bxierr_str BXIASSERT_CODE BXIBUG_STD_MSG fuel (Some a) false
                   file filelen func funclen line expr w
     = Abort (ProcessExit EX_SOFTWARE) (set_tick (S (tick w)) w)) /\
  (STATE w = INITIALIZED -> TSD w = Some tsd -> tsd_freed tsd = false ->
   loggers w !! a = Some lg -> name_length lg = S (String.length (name lg)) ->
   (level_num BXILOG_CRITICAL <= level_num (level lg))%Z ->
   internal_logger_ok w ->
   no_nul msg = true ->
   (String.length msg < DEFAULT_LOG_BUF_SIZE \/
    exists ilg, loggers w !! 1%positive = Some ilg /\ level ilg <> BXILOG_LOWEST) ->
   bxitime_get (pf w) (tick w) = (BXIERR_OK, now) ->
   (forall t, bxizmq_err (pf w) t = BXIERR_OK) ->
   (forall t, bxizmq_rcv (pf w) t = Some FLUSH_CTRL_MSG_REP) ->
   exists w' rest,
     bxilog_assert bxierr_str BXIASSERT_CODE BXIBUG_STD_MSG fuel (Some a) false
                   file (S (String.length file)) func (S (String.length func))
                   line expr w
     = Abort (ProcessExit EX_SOFTWARE) w' /\
     frames_since w w'
     = make_frame BXILOG_CRITICAL now (tsd_tid tsd) (tsd_thread_rank tsd) line file func
                  (name lg) msg :: rest /\
     control_channel w' = control_channel w ++ [FLUSH_CTRL_MSG_REQ] /\
     trace w' = trace w).
Proof.
  intros err msg. split; [reflexivity|]. split; [|split].
  - intros logger filelen funclen u w' H. unfold bxilog_assert in H. cbn [negb] in H.
    match type of H with
    | ?lhs = _ => assert (Hs : stopped lhs) by apply exit_stopped
    end.
    rewrite H in Hs. exact Hs.
  - intros Hst Hlg filelen funclen. unfold bxilog_assert. cbn [negb].
    now apply (exit_when_not_initialized _ _ _ a lg).
  - intros. unfold bxilog_assert. cbn [negb]. now apply exit_when_initialized.
Qed.

(** X19. [bxilog_report] does nothing when the error is the absence of
    error or when the logger is not enabled for the level.  Otherwise, in
    the state INITIALIZED, when the calling thread has its data, the
    logger is made like those of [bxilog_new], the message (the caller's
    text, a colon and a space, the text of the error) is a C string that
    is shorter than 128 bytes or the internal logger is not at level
    lowest, the clock can be read and the data channel takes the frame:
    it puts on the data channel exactly one record, whose message is that
    message, and writes nothing to standard error. *)
Theorem report_logs_errors_only
        (fuel : nat) (a : positive) (lg : bxilog_s) (l : bxilog_level_e) (err : bxierr)
        (file func : string) (line : Z) (text : string) (w : world) (tsd : tsd_s)
        (now : timespec) :
  let msg := (text +:+ ": " +:+ bxierr_str err)%string in
  loggers w !! a = Some lg ->
  (bxierr_isko err = false \/ (level_num (level lg) < level_num l)%Z ->
   bxilog_report bxierr_str fuel (Some a) l err file (S (String.length file))
                 func (S (String.length func)) line text w = Ret tt w) /\
  (bxierr_isko err = true -> (level_num l <= level_num (level lg))%Z ->
   STATE w = INITIALIZED -> TSD w = Some tsd -> tsd_freed tsd = false ->
   name_length lg = S (String.length (name lg)) ->
   no_nul msg = true ->
   (String.length msg < DEFAULT_LOG_BUF_SIZE \/
    exists ilg, loggers w !! 1%positive = Some ilg /\ level ilg <> BXILOG_LOWEST) ->
   bxitime_get (pf w) (tick w) = (BXIERR_OK, now) ->
   bxizmq_err (pf w) (S (tick w)) = BXIERR_OK ->
   exists w',
     bxilog_report bxierr_str fuel (Some a) l err file (S (String.length file))
                   func (S (String.length func)) line text w = Ret tt w' /\
     frames_since w w'
     = [make_frame l now (tsd_tid tsd) (tsd_thread_rank tsd) line file func (name lg) msg]
     /\ trace w' = trace w).
Proof.
  intros msg Hlg. split.
  - intros Hskip. unfold bxilog_report, bxilog_is_enabled_for, deref. mstep.
    rewrite Hlg. mstep.
    destruct Hskip as [Hok|Hlv].
    + rewrite Hok, andb_false_r. reflexivity.
    + apply Z.leb_gt in Hlv. rewrite Hlv. reflexivity.
  - intros Hko Hen Hst Ht Hf Hnl Hnul Hlen Hclock Hsnd.
    pose proof (strlen_no_nul msg Hnul) as Hsl.
    unfold bxilog_report, bxilog_is_enabled_for, deref, bxilog_log_nolevelcheck. mstep.
    rewrite Hlg. mstep. apply Z.leb_le in Hen. rewrite Hen, Hko. mstep. fold msg.
    assert (Hlen' : strlen msg < DEFAULT_LOG_BUF_SIZE \/
                    exists ilg, loggers w !! 1%positive = Some ilg /\
                                level ilg <> BXILOG_LOWEST)
      by (rewrite Hsl; exact Hlen).
    rewrite (vlog_sends_frame fuel a lg l file _ func _ line msg w tsd now)
      by first [assumption | lia].
    mstep. eexists. split; [reflexivity|]. wsimpl. split; [|reflexivity].
    unfold frames_since. wsimpl. rewrite drop_app_length.
    unfold make_frame. rewrite Hnl, Hsl, !take_c_str. reflexivity.
Qed.

End ExitProofs.

Lemma exit_logs_then_flushes_witness :
  let w := with_platform flushing (initialized_world friendly) in
  bxilog_exit (fun _ => "boom"%string) 0 3 (bxierr_gen "boom") BXILOG_INTERNAL_LOGGER
              BXILOG_CRITICAL "f.c" 4 "fn" 3 10 (initial_world friendly)
  = Abort (ProcessExit 3) (set_tick 1 (initial_world friendly)) /\
  exists w' rest,
    bxilog_exit (fun _ => "boom"%string) 0 3 (bxierr_gen "boom") BXILOG_INTERNAL_LOGGER
                BXILOG_CRITICAL "f.c" 4 "fn" 3 10 w
    = Abort (ProcessExit 3) w' /\
    frames_since w w'
    = make_frame BXILOG_CRITICAL epoch 4243 7 10 "f.c" "fn" "bxibase.log"
                 "Exiting with code 3, Error is: boom" :: rest /\
    control_channel w' = control_channel w ++ [FLUSH_CTRL_MSG_REQ].
Proof.
  intros w. split.
  - destruct (exit_logs_then_flushes (fun _ => "boom"%string) 0 3 (bxierr_gen "boom") 1
                {| name := "bxibase.log"; name_length := 12; level := BXILOG_TRACE |}
                BXILOG_CRITICAL "f.c" "fn" 10 (initial_world friendly)
                {| tsd_tid := 4243; tsd_thread_rank := 7; tsd_freed := false |} epoch)
      as (_ & Hout & _).
    apply Hout; [discriminate|reflexivity].
  - destruct (exit_logs_then_flushes (fun _ => "boom"%string) 0 3 (bxierr_gen "boom") 1
                {| name := "bxibase.log"; name_length := 12; level := BXILOG_TRACE |}
                BXILOG_CRITICAL "f.c" "fn" 10 w
                {| tsd_tid := 4243; tsd_thread_rank := 7; tsd_freed := false |} epoch)
      as (_ & _ & Hexit).
    destruct Hexit as (w' & rest & Hrun & Hfr & Hcc & _);
      [vm_compute; reflexivity|vm_compute; reflexivity|reflexivity|vm_compute; reflexivity
      |reflexivity|vm_compute; discriminate
      |eexists; split; [vm_compute; reflexivity|vm_compute; lia]
      |vm_compute; reflexivity|left; vm_compute; lia|vm_compute; reflexivity
      |intros t; reflexivity|intros t; reflexivity|].
    exists w', rest. split; [exact Hrun|]. split; [exact Hfr|exact Hcc].
Defined.

Lemma assert_exits_when_false_witness :
  let w := with_platform flushing (initialized_world friendly) in
  bxilog_assert (fun _ => "boom"%string) BXIERR_GEN_CODE "" 0 BXILOG_INTERNAL_LOGGER false
                "f.c" 4 "fn" 3 10 "n > 0" (initial_world friendly)
  = Abort (ProcessExit EX_SOFTWARE) (set_tick 1 (initial_world friendly)) /\
  exists w' rest,
    bxilog_assert (fun _ => "boom"%string) BXIERR_GEN_CODE "" 0 BXILOG_INTERNAL_LOGGER false
                  "f.c" 4 "fn" 3 10 "n > 0" w
    = Abort (ProcessExit EX_SOFTWARE) w' /\
    frames_since w w'
    = make_frame BXILOG_CRITICAL epoch 4243 7 10 "f.c" "fn" "bxibase.log"
                 ("Exiting with code " +:+ fmt_d EX_SOFTWARE +:+ ", Error is: boom")
      :: rest /\
    control_channel w' = control_channel w ++ [FLUSH_CTRL_MSG_REQ].
Proof.
  intros w. split.
  - destruct (assert_exits_when_false (fun _ => "boom"%string) BXIERR_GEN_CODE "" 0 1
                {| name := "bxibase.log"; name_length := 12; level := BXILOG_TRACE |}
                "f.c" "fn" 10 "n > 0" (initial_world friendly)
                {| tsd_tid := 4243; tsd_thread_rank := 7; tsd_freed := false |} epoch)
      as (_ & _ & Hexit & _).
    apply Hexit; [discriminate|reflexivity].
  - destruct (assert_exits_when_false (fun _ => "boom"%string) BXIERR_GEN_CODE "" 0 1
                {| name := "bxibase.log"; name_length := 12; level := BXILOG_TRACE |}
                "f.c" "fn" 10 "n > 0" w
                {| tsd_tid := 4243; tsd_thread_rank := 7; tsd_freed := false |} epoch)
      as (_ & _ & _ & Hlog).
    destruct Hlog as (w' & rest & Hrun & Hfr & Hcc & _);
      [vm_compute; reflexivity|vm_compute; reflexivity|reflexivity|vm_compute; reflexivity
      |reflexivity|vm_compute; discriminate
      |eexists; split; [vm_compute; reflexivity|vm_compute; lia]
      |vm_compute; reflexivity|left; vm_compute; lia|vm_compute; reflexivity
      |intros t; reflexivity|intros t; reflexivity|].
    exists w', rest. split; [exact Hrun|]. split; [exact Hfr|exact Hcc].
Defined.

Lemma report_logs_errors_only_witness :
  bxilog_report (fun _ => "boom"%string) 0 BXILOG_INTERNAL_LOGGER BXILOG_ERR BXIERR_OK
                "f.c" 4 "fn" 3 10 "Reading failed" (initialized_world friendly)
  = Ret tt (initialized_world friendly) /\
  (exists w',
    bxilog_report (fun _ => "boom"%string) 0 BXILOG_INTERNAL_LOGGER BXILOG_ERR
                  (bxierr_gen "boom") "f.c" 4 "fn" 3 10 "Reading failed"
                  (initialized_world friendly)
    = Ret tt w' /\
    frames_since (initialized_world friendly) w'
    = [make_frame BXILOG_ERR epoch 4243 7 10 "f.c" "fn" "bxibase.log"
                  "Reading failed: boom"]) /\
  (let long := string_of_list_ascii (replicate 130 "x"%char) in
   exists w',
    bxilog_report (fun _ => "boom"%string) 0 BXILOG_INTERNAL_LOGGER BXILOG_ERR
                  (bxierr_gen "boom") "f.c" 4 "fn" 3 10 long
                  (initialized_world friendly)
    = Ret tt w' /\
    frames_since (initialized_world friendly) w'
    = [make_frame BXILOG_ERR epoch 4243 7 10 "f.c" "fn" "bxibase.log"
                  (long +:+ ": boom")]).
Proof.
  split; [|split].
  - destruct (report_logs_errors_only (fun _ => "boom"%string) 0 1
                {| name := "bxibase.log"; name_length := 12; level := BXILOG_TRACE |}
                BXILOG_ERR BXIERR_OK "f.c" "fn" 10 "Reading failed"
                (initialized_world friendly)
                {| tsd_tid := 4243; tsd_thread_rank := 7; tsd_freed := false |} epoch)
      as (Hskip & _); [vm_compute; reflexivity|].
    apply Hskip. left. reflexivity.
  - destruct (report_logs_errors_only (fun _ => "boom"%string) 0 1
                {| name := "bxibase.log"; name_length := 12; level := BXILOG_TRACE |}
                BXILOG_ERR (bxierr_gen "boom") "f.c" "fn" 10 "Reading failed"
                (initialized_world friendly)
                {| tsd_tid := 4243; tsd_thread_rank := 7; tsd_freed := false |} epoch)
      as (_ & Hlog); [vm_compute; reflexivity|].
    destruct Hlog as (w' & Hrun & Hfr & _);
      [reflexivity|vm_compute; discriminate|vm_compute; reflexivity
      |vm_compute; reflexivity|reflexivity|reflexivity|reflexivity|left; vm_compute; lia
      |vm_compute; reflexivity|reflexivity|].
    exists w'. split; [exact Hrun|exact Hfr].
  - intros long.
    destruct (report_logs_errors_only (fun _ => "boom"%string) 0 1
                {| name := "bxibase.log"; name_length := 12; level := BXILOG_TRACE |}
                BXILOG_ERR (bxierr_gen "boom") "f.c" "fn" 10 long
                (initialized_world friendly)
                {| tsd_tid := 4243; tsd_thread_rank := 7; tsd_freed := false |} epoch)
      as (_ & Hlog); [vm_compute; reflexivity|].
    destruct Hlog as (w' & Hrun & Hfr & _);
      [reflexivity|vm_compute; discriminate|vm_compute; reflexivity
      |vm_compute; reflexivity|reflexivity|reflexivity|vm_compute; reflexivity
      |right; eexists; split; [vm_compute; reflexivity|discriminate]
      |vm_compute; reflexivity|reflexivity|].
    exists w'. split; [exact Hrun|exact Hfr].
Defined.
(** ** Proofs: the file name of a record *)

Lemma has_slash_lookup (s : string) :
  has_slash s = true <-> exists j, list_ascii_of_string s !! j = Some SLASH.
Proof.
  induction s as [|c s IH]; cbn [has_slash list_ascii_of_string].
  - split; [discriminate|]. intros (j & Hj). discriminate Hj.
  - rewrite orb_true_iff, IH. split.
    + intros [Hc|(j & Hj)].
      * apply Ascii.eqb_eq in Hc. subst c. now exists 0.
      * now exists (S j).
    + intros ([|j] & Hj).
      * left. cbn in Hj. injection Hj as ->. apply Ascii.eqb_refl.
      * right. now exists j.
Qed.

(** The basename of a path is what follows its last ['/']. *)
Lemma basename_spec_drop (s : string) :
  forall j,
    list_ascii_of_string s !! j = Some SLASH ->
    (forall j', j < j' -> list_ascii_of_string s !! j' <> Some SLASH) ->
    basename_spec s = string_of_list_ascii (drop (S j) (list_ascii_of_string s)).
Proof.
  induction s as [|c s IH]; intros j Hj Hlast; [discriminate Hj|].
  cbn [basename_spec list_ascii_of_string]. destruct j as [|j].
  - cbn in Hj. injection Hj as ->.
    assert (Hno : has_slash s = false).
    { destruct (has_slash s) eqn:E; [|reflexivity].
      apply has_slash_lookup in E as (j' & Hj'). exfalso.
      apply (Hlast (S j')); [lia|exact Hj']. }
    rewrite Hno, Ascii.eqb_refl. cbn [skipn]. rewrite drop_0.
    now rewrite string_of_list_ascii_of_string.
  - assert (Hyes : has_slash s = true) by (apply has_slash_lookup; now exists j).
    rewrite Hyes. cbn [skipn]. apply IH; [exact Hj|].
    intros j' Hj'. apply (Hlast (S j')). lia.
Qed.

Lemma basename_spec_no_slash (s : string) :
  has_slash s = false -> basename_spec s = s.
Proof.
  destruct s as [|c s]; [reflexivity|]. cbn [has_slash basename_spec].
  intros H. apply orb_false_iff in H as [Hc Hs]. now rewrite Hs, Hc.
Qed.

(** [_basename] on a file name followed, as in a frame, by another string
    that does not begin with ['/']. *)
Lemma basename_returns (s : string) (next : ascii) (post : list ascii) (w : world) :
  no_nul s = true -> next <> SLASH ->
  exists k,
    _basename (c_str s ++ next :: post) 0 (S (String.length s)) w = Ret k w /\
    forall post',
      cstring_at (c_str s ++ post') k
      = Some (if has_slash (str_tail s) then basename_spec s else s).
Proof.
  intros Hnul Hnext.
  set (l := list_ascii_of_string s).
  assert (Hl : nul_free l) by now apply nul_free_of_string.
  assert (Hlen : length l = String.length s) by apply length_list_ascii.
  set (buf := c_str s ++ next :: post).
  assert (Hbuf : buf = l ++ NUL :: next :: post).
  { unfold buf, c_str. fold l. now rewrite <- app_assoc. }
  assert (Hin : forall j, j < length l -> buf !! j = l !! j).
  { intros j Hj. rewrite Hbuf. now apply lookup_app_l. }
  assert (Hnul' : buf !! length l = Some NUL).
  { rewrite Hbuf. apply list_lookup_middle. reflexivity. }
  assert (Hnx : buf !! S (length l) = Some next).
  { rewrite Hbuf. rewrite lookup_app_r by lia.
    replace (S (length l) - length l) with 1 by lia. reflexivity. }
  destruct (basename_loop_spec buf 0 (S (String.length s)) w) as (r & Hrun & Hcase).
  { intros j Hj. cbn [Nat.add]. rewrite <- Hlen in Hj.
    destruct (decide (j < length l)) as [Hlt|Hge].
    - rewrite Hin by exact Hlt. apply lookup_lt_is_Some. exact Hlt.
    - destruct (decide (j = length l)) as [->|]; [rewrite Hnul'; eauto|].
      replace j with (S (length l)) by lia. rewrite Hnx. eauto. }
  exists r. split.
  { unfold _basename. mstep. cbn [Nat.ltb Nat.leb]. mstep. rewrite Hrun. reflexivity. }
  assert (Hany : forall post', c_str s ++ post' = l ++ NUL :: post').
  { intros post'. unfold c_str. fold l. now rewrite <- app_assoc. }
  unfold cstring_at. rewrite <- Hlen in Hcase. cbn [Nat.add] in Hcase.
  destruct Hcase as [(-> & Hno)|(j & -> & Hj & Hslash & Hlast)]; intros post'.
  - (* no ['/'] from index 1 on *)
    assert (Htail : has_slash (str_tail s) = false).
    { destruct (has_slash (str_tail s)) eqn:E; [|reflexivity].
      apply has_slash_lookup in E as (j & Hj). exfalso.
      destruct s as [|c s']; [discriminate Hj|]. cbn [str_tail] in Hj.
      assert (Hlt : S j < length l).
      { unfold l. cbn [list_ascii_of_string length].
        apply lookup_lt_Some in Hj. lia. }
      apply (Hno (S j)); [lia|]. rewrite Hin by exact Hlt. exact Hj. }
    rewrite Htail, drop_0. rewrite Hany, (cstring_nul_free l _ Hl).
    unfold l. now rewrite string_of_list_ascii_of_string.
  - (* the last ['/'] is at index [j], not 0 *)
    assert (Hjl : j < length l).
    { destruct (decide (j < length l)) as [|Hge]; [assumption|]. exfalso.
      destruct (decide (j = length l)) as [->|].
      - rewrite Hnul' in Hslash. discriminate Hslash.
      - replace j with (S (length l)) in Hslash by lia. rewrite Hnx in Hslash.
        congruence. }
    rewrite Hin in Hslash by exact Hjl.
    assert (Hlast' : forall j', j < j' -> l !! j' <> Some SLASH).
    { intros j' Hj' Hv. apply lookup_lt_Some in Hv as Hlt.
      apply (Hlast j'); [lia|]. now rewrite Hin. }
    assert (Htail : has_slash (str_tail s) = true).
    { apply has_slash_lookup. destruct s as [|c s']; [cbn in Hjl; lia|].
      cbn [str_tail]. destruct j as [|j]; [lia|]. exists j. exact Hslash. }
    rewrite Htail, (basename_spec_drop s j Hslash Hlast').
    rewrite Hany, drop_app_le by lia. fold l.
    apply cstring_nul_free. apply Forall_drop. exact Hl.
Qed.

(** X20. For every file name that is a C string, stored in a frame before
    a string that does not begin with ['/'], [_basename] returns a pointer
    into the name: to what follows its last ['/'] when there is one after
    the first character, to the whole name otherwise.  This is the basename
    of the path unless the only ['/'] of the path is its first character. *)
Theorem basename_of_frame (filename func : string) (post : list ascii) (w : world) :
  no_nul filename = true -> char0 func <> SLASH ->
  exists k,
    _basename (c_str filename ++ c_str func ++ post) 0 (S (String.length filename)) w
    = Ret k w /\
    cstring_at (c_str filename ++ c_str func ++ post) k
    = Some (if has_slash (str_tail filename) then basename_spec filename else filename) /\
    (has_slash (str_tail filename) = true \/ char0 filename <> SLASH ->
     cstring_at (c_str filename ++ c_str func ++ post) k = Some (basename_spec filename)).
Proof.
  intros Hnul Hfunc.
  assert (Hshape : exists next rest, c_str func ++ post = next :: rest /\ next <> SLASH).
  { destruct func as [|c func]; cbn.
    - exists NUL, post. split; [reflexivity|discriminate].
    - eexists _, _. split; [reflexivity|exact Hfunc]. }
  destruct Hshape as (next & rest & -> & Hnext).
  destruct (basename_returns filename next rest w Hnul Hnext) as (k & Hrun & Hstr).
  exists k. split; [exact Hrun|]. split; [apply Hstr|].
  intros Hgood. rewrite Hstr. f_equal.
  destruct (has_slash (str_tail filename)) eqn:E; [reflexivity|].
  destruct Hgood as [H|H]; [discriminate H|].
  symmetry. apply basename_spec_no_slash.
  destruct filename as [|c s']; [reflexivity|]. cbn [has_slash str_tail char0] in *.
  rewrite E, orb_false_r. now apply Ascii.eqb_neq.
Qed.

Lemma basename_of_frame_witness :
  exists k,
    _basename (c_str "dir/sub/file.c" ++ c_str "main" ++ []) 0 15 (initial_world friendly)
    = Ret k (initial_world friendly) /\
    cstring_at (c_str "dir/sub/file.c" ++ c_str "main" ++ []) k = Some "file.c"%string.
Proof.
  destruct (basename_of_frame "dir/sub/file.c" "main" [] (initial_world friendly))
    as (k & Hrun & _ & Hstr); [reflexivity|discriminate|].
  exists k. split; [exact Hrun|]. apply Hstr. left. reflexivity.
Defined.
(** ** Proofs: one line of output *)

Lemma render_spec (w : world) (hdr : log_header_s) (fname func lname line text : string) :
  render w hdr fname func lname (list_ascii_of_string line) = Some text ->
  exists now prog,
    localtime_r (pf w) (tv_sec (detail_time hdr)) = Some now /\
    PROGNAME w = Some prog /\
    text = log_fmt (LOG_LEVEL_STR (hdr_level hdr)) now (tv_nsec (detail_time hdr))
                   (PID w) (tid hdr) (thread_rank hdr) prog fname (line_nb hdr)
                   func lname line.
Proof.
  unfold render. rewrite string_of_list_ascii_of_string.
  destruct (localtime_r (pf w) (tv_sec (detail_time hdr))) as [now|]; [|discriminate].
  destruct (PROGNAME w) as [prog|]; [|discriminate].
  intros H. injection H as <-. eauto.
Qed.

Lemma log_fmt_nonempty (lvl : ascii) (now : tm) (nsec pid tid' rank' : Z)
      (prog fname : string) (line : Z) (func lname msg : string) :
  0 < String.length (log_fmt lvl now nsec pid tid' rank' prog fname line func lname msg).
Proof.
  unfold log_fmt.
  match goal with
  | |- 0 < String.length (String ?c ?s +:+ ?t) =>
    change (String c s +:+ t) with (String c (s +:+ t))
  end.
  cbn [String.length]. lia.
Qed.

(** [_log_single_line] from [_mkmsg] on, when the line can be rendered and
    the sink takes at least one byte: what is written depends on how the
    length of the line compares with the size of the buffer. *)
Lemma log_line_cases (hdr : log_header_s) (fname func lname line : string)
      (line_len : nat) (text : string) (k : nat) (w : world) :
  render w hdr fname func lname (list_ascii_of_string line) = Some text ->
  sys_write (pf w) (tick w) = Some (S k) ->
  log_line hdr fname func lname line line_len w
  = if String.length text <=? line_buffer_size w hdr line_len
    then
      let buf := take (String.length text)
                      (snprintf_buf (line_buffer_size w hdr line_len) text) in
      Ret tt (set_trace (trace w ++ [EvWrite (fd (IHT_DATA w)) buf
                                             (write_result (Some (S k)) buf)])
                        (set_tick (S (tick w)) w))
    else Abort (AssertFailed "written <= (int)n") w.
Proof.
  intros Hr Hw.
  destruct (render_spec w hdr fname func lname line text Hr) as (now & prog & Hnow & Hprog & ->).
  unfold log_line, _mkmsg, line_buffer_size. mstep. rewrite Hnow, Hprog. mstep.
  match goal with
  | |- context [String.length ?t <=? ?n] =>
    set (text := t); set (size := n); destruct (String.length text <=? size) eqn:E
  end; mstep; [|reflexivity].
  unfold write_line. mstep. rewrite sys_write_call_eq. mstep. rewrite Hw.
  assert (Hpos : (write_result (Some (S k))
                               (take (String.length text) (snprintf_buf size text))
                  <=? 0)%Z = false).
  { apply Z.leb_gt. unfold write_result. apply Nat.leb_le in E.
    assert (Hl : 0 < length (take (String.length text) (snprintf_buf size text))).
    { rewrite length_take. unfold snprintf_buf.
      pose proof (log_fmt_nonempty (LOG_LEVEL_STR (hdr_level hdr)) now
                    (tv_nsec (detail_time hdr)) (PID w) (tid hdr) (thread_rank hdr)
                    prog fname (line_nb hdr) func lname line) as Hne.
      fold text in Hne. destruct size as [|n]; [lia|].
      rewrite length_app. cbn [length]. lia. }
    lia. }
  rewrite Hpos. reflexivity.
Qed.

Lemma snprintf_fits (n : nat) (text : string) :
  String.length text < n ->
  take (String.length text) (snprintf_buf n text) = list_ascii_of_string text.
Proof.
  intros H. unfold snprintf_buf. destruct n as [|n]; [lia|].
  rewrite (take_ge (list_ascii_of_string text)) by (rewrite length_list_ascii; lia).
  rewrite take_app_length'; [reflexivity|symmetry; apply length_list_ascii].
Qed.

Lemma snprintf_exact (n : nat) (text : string) :
  String.length text = n -> 0 < n ->
  take (String.length text) (snprintf_buf n text)
  = take (n - 1) (list_ascii_of_string text) ++ [NUL].
Proof.
  intros H Hn. unfold snprintf_buf. destruct n as [|n]; [lia|].
  replace (S n - 1) with n by lia.
  apply take_ge. rewrite length_app, length_take, length_list_ascii. cbn [length]. lia.
Qed.

(** X21. [_log_single_line], once the strings of the record are read,
    when the line can be rendered and [write] on the sink returns a
    positive count (the sink takes at most k + 1 bytes).  A rendered line
    shorter than the buffer declared for it is handed whole to exactly one
    [write] call, on the sink, which returns the smaller of k + 1 and the
    length of the line, and nothing else is done: the line is written
    whole when the sink takes that many bytes, and the bytes a shorter
    write leaves out are not written again.  A line of exactly the size of
    the buffer passes the assertion of [_mkmsg] and is handed to the one
    [write] call cut by one byte, a NUL in the place of its line feed.  A
    longer line fails the assertion and nothing is written. *)
Theorem log_line_by_size (hdr : log_header_s) (fname func lname line : string)
        (line_len : nat) (text : string) (k : nat) (w : world) :
  render w hdr fname func lname (list_ascii_of_string line) = Some text ->
  sys_write (pf w) (tick w) = Some (S k) ->
  (String.length text < line_buffer_size w hdr line_len ->
   exists w', log_line hdr fname func lname line line_len w = Ret tt w' /\
              trace_since w w'
              = [EvWrite (fd (IHT_DATA w)) (list_ascii_of_string text)
                         (Z.of_nat (Nat.min (S k) (String.length text)))]) /\
  (String.length text = line_buffer_size w hdr line_len ->
   exists w', log_line hdr fname func lname line line_len w = Ret tt w' /\
              trace_since w w'
              = [EvWrite (fd (IHT_DATA w))
                         (take (line_buffer_size w hdr line_len - 1)
                               (list_ascii_of_string text) ++ [NUL])
                         (Z.of_nat (Nat.min (S k) (String.length text)))]) /\
  (line_buffer_size w hdr line_len < String.length text ->
   log_line hdr fname func lname line line_len w
   = Abort (AssertFailed "written <= (int)n") w).
Proof.
  intros Hr Hw. rewrite (log_line_cases hdr fname func lname line line_len text k w Hr Hw).
  split; [|split]; intros Hsz.
  - assert (E : (String.length text <=? line_buffer_size w hdr line_len) = true)
      by (apply Nat.leb_le; lia).
    rewrite E. cbv zeta. eexists. split; [reflexivity|].
    unfold trace_since. wsimpl. rewrite drop_app_length.
    rewrite snprintf_fits by exact Hsz. unfold write_result.
    now rewrite length_list_ascii.
  - assert (E : (String.length text <=? line_buffer_size w hdr line_len) = true)
      by (apply Nat.leb_le; lia).
    rewrite E. cbv zeta. eexists. split; [reflexivity|].
    unfold trace_since. wsimpl. rewrite drop_app_length.
    rewrite snprintf_exact; [|exact Hsz|unfold line_buffer_size; lia].
    unfold write_result.
    rewrite length_app, length_take, length_list_ascii. cbn [length].
    assert (Hpos : 0 < line_buffer_size w hdr line_len)
      by (unfold line_buffer_size; lia).
    do 3 f_equal. lia.
  - assert (E : (String.length text <=? line_buffer_size w hdr line_len) = false)
      by (apply Nat.leb_gt; lia).
    now rewrite E.
Qed.

Lemma log_line_by_size_witness :
  let w := handler_world friendly [] in
  let ws := handler_world short_writer [] in
  let hdr := header line_1000_frame in
  let cut := "I|19700101T000000.000000000|04242.04243=00007:prog|a.c:1000@fn|l|x"%string in
  (exists w', log_line hdr "a.c" "fn" "l" "x" 1 w = Ret tt w' /\
              trace_since w w'
              = [EvWrite STDOUT_FILENO (list_ascii_of_string cut ++ [NUL]) 67]) /\
  (exists w', log_line hdr "a.c" "fn" "l" "x" 2 ws = Ret tt w' /\
              trace_since ws w'
              = [EvWrite STDOUT_FILENO (list_ascii_of_string (cut +:+ String LF "")) 3]).
Proof.
  intros w ws hdr cut. split.
  - destruct (log_line_by_size hdr "a.c" "fn" "l" "x" 1 (cut +:+ String LF "") 4095 w)
      as (_ & Hexact & _); [vm_compute; reflexivity|vm_compute; reflexivity|].
    destruct Hexact as (w' & Hrun & Hwr); [vm_compute; reflexivity|].
    exists w'. split; [exact Hrun|]. rewrite Hwr. vm_compute. reflexivity.
  - destruct (log_line_by_size hdr "a.c" "fn" "l" "x" 2 (cut +:+ String LF "") 2 ws)
      as (Hshort & _); [vm_compute; reflexivity|vm_compute; reflexivity|].
    destruct Hshort as (w' & Hrun & Hwr); [vm_compute; lia|].
    exists w'. split; [exact Hrun|]. rewrite Hwr. vm_compute. reflexivity.
Defined.
(** ** Proofs: the lines of a record *)







(** ** Proofs: the handler's own messages *)

Lemma length_string_app (a b : string) :
  String.length (a +:+ b) = String.length a + String.length b.
Proof.
  induction a as [|c a IH]; [reflexivity|].
  change (String c a +:+ b) with (String c (a +:+ b)).
  cbn [String.length Nat.add]. now rewrite IH.
Qed.

Lemma length_zeros (n : nat) :
  String.length (string_of_list_ascii (replicate n "0"%char)) = n.
Proof.
  induction n as [|n IH]; [reflexivity|].
  cbn [replicate string_of_list_ascii String.length]. now rewrite IH.
Qed.

Lemma length_pad0 (w : nat) (digits : string) : w <= String.length (pad0 w digits).
Proof. unfold pad0. rewrite length_string_app, length_zeros. lia. Qed.

Lemma length_fmt_0d (w : nat) (v : Z) : w <= String.length (fmt_0d w v).
Proof.
  unfold fmt_0d. destruct (v <? 0)%Z.
  - rewrite length_string_app. pose proof (length_pad0 (w - 1) (pretty (Z.to_N (- v)))).
    cbn [String.length]. lia.
  - apply length_pad0.
Qed.

Lemma length_fmt_0u (w : nat) (v : Z) : w <= String.length (fmt_0u w v).
Proof. apply length_pad0. Qed.

(** The text of a message of the handler is longer than the buffer
    [_iht_log] declares for it. *)
Lemma iht_text_too_long (lvl : ascii) (now : tm) (nsec pid tid' rank' : Z)
      (prog fn str : string) :
  FIXED_LOG_SIZE + (strlen prog + 1) + strlen fn + S (String.length "_iht_log")
  + S (String.length IHT_LOGGER_NAME) + strlen str + 1
  < String.length (log_fmt lvl now nsec pid tid' rank' prog fn 1468 "_iht_log"
                           IHT_LOGGER_NAME str).
Proof.
  pose proof (strlen_le prog). pose proof (strlen_le fn). pose proof (strlen_le str).
  pose proof (length_fmt_0d YEAR_SIZE (tm_year now + 1900)).
  pose proof (length_fmt_0d MONTH_SIZE (tm_mon now + 1)).
  pose proof (length_fmt_0d DAY_SIZE (tm_mday now)).
  pose proof (length_fmt_0d HOUR_SIZE (tm_hour now)).
  pose proof (length_fmt_0d MINUTE_SIZE (tm_min now)).
  pose proof (length_fmt_0d SECOND_SIZE (tm_sec now)).
  pose proof (length_fmt_0d SUBSECOND_SIZE nsec).
  pose proof (length_fmt_0u PID_SIZE pid).
  pose proof (length_fmt_0u TID_SIZE tid').
  pose proof (length_fmt_0u THREAD_RANK_SIZE rank').
  assert (Hline : String.length (fmt_d 1468) = 4) by (vm_compute; reflexivity).
  unfold log_fmt. rewrite !length_string_app, Hline.
  unfold FIXED_LOG_SIZE, YEAR_SIZE, MONTH_SIZE, DAY_SIZE, HOUR_SIZE, MINUTE_SIZE,
    SECOND_SIZE, SUBSECOND_SIZE, PID_SIZE, TID_SIZE, THREAD_RANK_SIZE, IHT_LOGGER_NAME in *.
  cbn [String.length]. lia.
Qed.

(** X23. [_iht_log], with the names and lengths as [_init] sets them
    ([PROGNAME_LEN] the length of the program name plus one, [FILENAME_LEN]
    the length of the file name): the buffer it declares is shorter than
    the line it formats, so the call never returns and nothing is written
    to the sink; when the local time can be computed it stops at the
    assertion [written <= (int)n] of [_mkmsg]. *)
Theorem iht_log_never_writes (l : bxilog_level_e) (prog fn str : string) (w : world) :
  PROGNAME w = Some prog -> PROGNAME_LEN w = strlen prog + 1 ->
  FILENAME w = Some fn -> FILENAME_LEN w = strlen fn ->
  exists (r : abort_reason) (w' : world),
    _iht_log l str w = Abort r w' /\
    all_writes (trace_since w w') = [] /\
    ((forall s, localtime_r (pf w) s <> None) ->
     r = AssertFailed "written <= (int)n").
Proof.
  intros Hp Hpl Hf Hfl.
  assert (Hmk : forall now itid irank w0,
             PROGNAME w0 = Some prog -> pf w0 = pf w ->
             exists r,
               _mkmsg (FIXED_LOG_SIZE + (strlen prog + 1) + strlen fn
                       + S (String.length "_iht_log")
                       + S (String.length IHT_LOGGER_NAME) + strlen str + 1)
                      (LOG_LEVEL_STR l) now itid irank fn 1468 "_iht_log"
                      IHT_LOGGER_NAME str w0 = Abort r w0 /\
               ((forall s, localtime_r (pf w) s <> None) ->
                r = AssertFailed "written <= (int)n")).
  { intros now itid irank w0 Hp0 Hpf0. unfold _mkmsg. mstep. rewrite Hpf0.
    destruct (localtime_r (pf w) (tv_sec now)) as [t|] eqn:Elt.
    - mstep. rewrite Hp0. mstep.
      match goal with
      | |- context [if ?a <=? ?b then _ else _] =>
        assert (E : (a <=? b) = false)
          by (apply Nat.leb_gt; apply iht_text_too_long)
      end.
      rewrite E. mstep. eexists. split; [reflexivity|]. intros _. reflexivity.
    - mstep. eexists. split; [reflexivity|]. intros Hlt. now destruct (Hlt (tv_sec now)). }
  unfold _iht_log. mstep.
  destruct (bxitime_get (pf w) (tick w)) as [err now] eqn:Et.
  destruct err as [|c m]; mstep; rewrite Hpl, Hfl, Hf; mstep.
  - match goal with
    | |- context [_mkmsg _ _ ?n ?t ?r _ _ _ _ _ ?W] =>
      destruct (Hmk n t r W) as (r0 & Hrun & Hr); [wsimpl; exact Hp|wsimpl; reflexivity|]
    end.
    rewrite Hrun. exists r0. eexists. split; [reflexivity|]. split; [|exact Hr].
    unfold trace_since. wsimpl. now rewrite drop_all.
  - match goal with
    | |- context [_mkmsg _ _ ?n ?t ?r _ _ _ _ _ ?W] =>
      destruct (Hmk n t r W) as (r0 & Hrun & Hr); [wsimpl; exact Hp|wsimpl; reflexivity|]
    end.
    rewrite Hrun. exists r0. eexists. split; [reflexivity|]. split; [|exact Hr].
    unfold trace_since. wsimpl. rewrite drop_app_length. reflexivity.
Qed.

Lemma iht_log_never_writes_witness :
  exists w', _iht_log BXILOG_DEBUG "hello" (initialized_world friendly)
             = Abort (AssertFailed "written <= (int)n") w'.
Proof.
  destruct (iht_log_never_writes BXILOG_DEBUG "prog" "-" "hello"
              (initialized_world friendly)) as (r & w' & Hrun & _ & Hr);
    [reflexivity|reflexivity|reflexivity|reflexivity|].
  exists w'. rewrite <- Hr; [exact Hrun|]. intros s. discriminate.
Defined.
